(** * watsonx-mcp-server: the embedding index and the MCP tool-call handler

    A shallow embedding of two programs of the repository:

    - the embedding index script ([generateEmbeddings], [cosineSimilarity],
      [loadIndex], [saveIndex], [buildIndex], [queryIndex], [ragQuery] and
      the [build] case of [main]), in [Module EmbeddingIndex];
    - the [CallToolRequestSchema] handler of [index.js], in
      [Module McpServer].

    JavaScript numbers are IEEE 754 binary64 values, so they are Rocq's
    primitive floats.  Data that comes from outside the program (parsed
    JSON, tool arguments, service responses) is a [Js.value].  Effects are
    explicit: a computation takes the state of the world and returns an
    outcome (a value or a thrown error) with the new state. *)

From Stdlib Require Import ZArith List String Ascii Bool Lia Floats.
From Stdlib Require Import Permutation Sorted DecimalString.
From Stdlib Require DecimalNat.
Import ListNotations.

Set Warnings "-inexact-float,-register-all".

(* ===================================================================== *)
(** * Part I: definitions *)
(* ===================================================================== *)

(** ** JavaScript numbers *)

Module Number.

Local Open Scope Z_scope.

(** The smallest exponent of binary64. *)
Definition emin : Z := SpecFloat.emin prec emax.

(** [Number.isNaN]. *)
Definition isNaN (x : float) : bool := PrimFloat.is_nan x.

(** The number a non-negative integer such as an array length denotes. *)
Definition of_nat (n : nat) : float := PrimFloat.of_uint63 (Uint63.of_Z (Z.of_nat n)).

(** An order embedding of the numbers that are not NaN into the integers:
    a finite number [m * 2^e] is sent to [m * 2^(e - emin)], the infinities
    to a bound no finite number reaches.  Both zeros are sent to [0]. *)
Definition mag (m : positive) (e : Z) : Z := Z.pos m * 2 ^ (e - emin).

Definition top : Z := 2 ^ (emax - emin).

Definition ord (x : spec_float) : Z :=
  match x with
  | S754_zero _ => 0
  | S754_nan => 0
  | S754_infinity s => cond_Zopp s top
  | S754_finite s m e => cond_Zopp s (mag m e)
  end.

Definition key (x : float) : Z := ord (Prim2SF x).

(** A result of rounding that is not zero and carries the sign [s]. *)
Inductive signed (s : bool) : spec_float -> Prop :=
  | signed_finite m e : signed s (S754_finite s m e)
  | signed_infinity : signed s (S754_infinity s).

End Number.

(** ** JavaScript strings

    A string is a sequence of code units; [ascii] stands for the code unit.
    Only length, slicing, concatenation and comparison are used. *)

Module Str.

Local Open Scope string_scope.

(** The characters a Rocq literal cannot hold. *)
Definition quote : string := String (Ascii.ascii_of_nat 34) EmptyString.
Definition newline_char : ascii := Ascii.ascii_of_nat 10.
Definition nl : string := String newline_char EmptyString.

(** [s.substring(0, n)]: the first [n] code units, all of [s] when it is
    shorter. *)
Definition substring0 (n : nat) (s : string) : string := String.substring 0 n s.

(** [s.endsWith(suffix)]. *)
Definition endsWith (s suffix : string) : bool :=
  let n := String.length s in
  let k := String.length suffix in
  (k <=? n)%nat && String.eqb (String.substring (n - k) k s) suffix.

(** [s.replace(/\n/g, " ")]. *)
Fixpoint replace_newlines (s : string) : string :=
  match s with
  | EmptyString => EmptyString
  | String c s' =>
      String (if Ascii.eqb c newline_char then " "%char else c) (replace_newlines s')
  end.

(** White space as [trim] and [parseInt] skip it, among the code units
    below 256: TAB, LF, VT, FF, CR, the space and the no-break space. *)
Definition is_space (c : ascii) : bool :=
  let n := Ascii.nat_of_ascii c in
  ((9 <=? n) && (n <=? 13) || (n =? 32) || (n =? 160))%nat.

Fixpoint trimStart (s : string) : string :=
  match s with
  | String c s' => if is_space c then trimStart s' else s
  | EmptyString => EmptyString
  end.

Fixpoint rev_string (acc s : string) : string :=
  match s with
  | EmptyString => acc
  | String c s' => rev_string (String c acc) s'
  end.

(** [s.trim()]. *)
Definition trim (s : string) : string :=
  rev_string EmptyString (trimStart (rev_string EmptyString (trimStart s))).

(** [parts.join(sep)]. *)
Fixpoint join (sep : string) (parts : list string) : string :=
  match parts with
  | [] => ""
  | [p] => p
  | p :: rest => p ++ sep ++ join sep rest
  end.

(** [s.repeat(n)]. *)
Fixpoint repeat (s : string) (n : nat) : string :=
  match n with
  | O => ""
  | S n' => s ++ repeat s n'
  end.

(** [s.split("\n")]. *)
Fixpoint split_lines_from (line s : string) : list string :=
  match s with
  | EmptyString => [rev_string EmptyString line]
  | String c s' =>
      if Ascii.eqb c newline_char
      then rev_string EmptyString line :: split_lines_from EmptyString s'
      else split_lines_from (String c line) s'
  end.

Definition split_lines (s : string) : list string := split_lines_from EmptyString s.

(** Decimal numerals, as a template literal prints an integer. *)
Definition of_nat (n : nat) : string := NilZero.string_of_uint (Nat.to_uint n).
Definition of_Z (z : Z) : string := NilZero.string_of_int (Z.to_int z).

End Str.

(** ** JavaScript data *)

Module Js.

Local Open Scope string_scope.

(** The values that data can take: what [JSON.parse] yields, plus
    [undefined]. An object is the list of its own properties in insertion
    order. *)
Inductive value : Type :=
  | VUndefined
  | VNull
  | VBool (b : bool)
  | VNumber (x : float)
  | VString (s : string)
  | VArray (items : list value)
  | VObject (fields : list (string * value)).

(** Error objects: the errors of the language, of the file system and of
    the remote service, each an [Error] with a message. *)
Inductive error_object : Type :=
  | TypeError (msg : string)
  | SyntaxError (msg : string)
  | SystemError (msg : string)
  | ServiceError (msg : string).

Definition message (e : error_object) : string :=
  match e with
  | TypeError m | SyntaxError m | SystemError m | ServiceError m => m
  end.

(** Thrown values: an Error object, or any other value. A [throw] and the
    rejection of a promise take any value, [null] and [undefined]
    included. *)
Inductive error : Type :=
  | ErrorObject (e : error_object)
  | Other (v : value).

Coercion ErrorObject : error_object >-> error.

(** The outcome of an expression or a call: a value, or a thrown error. *)
Inductive result (A : Type) : Type :=
  | Ok (a : A)
  | Throw (e : error).

Arguments Ok {A} a.
Arguments Throw {A} e.

Definition is_nullish (v : value) : bool :=
  match v with
  | VUndefined | VNull => true
  | _ => false
  end.

(** How an error message names a nullish value. *)
Definition nullish_name (v : value) : string :=
  match v with
  | VNull => "null"
  | _ => "undefined"
  end.

(** [ToBoolean]. *)
Definition truthy (v : value) : bool :=
  match v with
  | VUndefined | VNull => false
  | VBool b => b
  | VNumber x => negb (PrimFloat.eqb x 0 || Number.isNaN x)
  | VString s => negb (String.eqb s "")
  | VArray _ | VObject _ => true
  end.

(** [a || b]. *)
Definition or_else (a b : value) : value := if truthy a then a else b.

Fixpoint lookup (k : string) (fields : list (string * value)) : option value :=
  match fields with
  | [] => None
  | (k', v) :: rest => if String.eqb k k' then Some v else lookup k rest
  end.

(** [fields[k] = v] on an object: an existing property keeps its place. *)
Fixpoint assign (k : string) (v : value) (fields : list (string * value))
  : list (string * value) :=
  match fields with
  | [] => [(k, v)]
  | (k', v') :: rest =>
      if String.eqb k k' then (k, v) :: rest else (k', v') :: assign k v rest
  end.

(** [v.k] for a property name [k]: reading a property of [undefined] or
    [null] throws. *)
Definition get (v : value) (k : string) : result value :=
  match v with
  | VUndefined =>
      Throw (TypeError ("Cannot read properties of undefined (reading '" ++ k ++ "')"))
  | VNull =>
      Throw (TypeError ("Cannot read properties of null (reading '" ++ k ++ "')"))
  | VObject fields =>
      Ok (match lookup k fields with Some x => x | None => VUndefined end)
  | VArray items =>
      Ok (if String.eqb k "length" then VNumber (Number.of_nat (List.length items))
          else VUndefined)
  | VString s =>
      Ok (if String.eqb k "length" then VNumber (Number.of_nat (String.length s))
          else VUndefined)
  | VBool _ | VNumber _ => Ok VUndefined
  end.

(** [err.message] as a [catch] block reads it: the message of an Error
    object, the property of any other value. *)
Definition read_message (e : error) : result value :=
  match e with
  | ErrorObject o => Ok (VString (message o))
  | Other v => get v "message"
  end.

(** [v[i]] for an index [i]. *)
Definition at_index (v : value) (i : nat) : result value :=
  match v with
  | VUndefined =>
      Throw (TypeError ("Cannot read properties of undefined (reading '" ++ Str.of_nat i ++ "')"))
  | VNull =>
      Throw (TypeError ("Cannot read properties of null (reading '" ++ Str.of_nat i ++ "')"))
  | VArray items => Ok (nth i items VUndefined)
  | VString s =>
      Ok (match String.get i s with
          | Some c => VString (String c EmptyString)
          | None => VUndefined
          end)
  | VObject fields =>
      Ok (match lookup (Str.of_nat i) fields with Some x => x | None => VUndefined end)
  | VBool _ | VNumber _ => Ok VUndefined
  end.

(** [v.length === 0]. *)
Definition length_is_zero (v : value) : result bool :=
  match v with
  | VUndefined =>
      Throw (TypeError "Cannot read properties of undefined (reading 'length')")
  | VNull =>
      Throw (TypeError "Cannot read properties of null (reading 'length')")
  | VArray items => Ok (match items with [] => true | _ => false end)
  | VString s => Ok (String.eqb s "")
  | VObject fields =>
      Ok (match lookup "length" fields with
          | Some (VNumber x) => PrimFloat.eqb x 0
          | _ => false
          end)
  | VBool _ | VNumber _ => Ok false
  end.

(** [v.k = x] in strict mode (an ES module): the object with the property
    set. Setting a property of [undefined], [null] or a primitive throws;
    a named property set on an array is kept outside its elements and is
    not part of the data. *)
Definition set (v : value) (k : string) (x : value) : result value :=
  match v with
  | VObject fields => Ok (VObject (assign k x fields))
  | VArray items => Ok (VArray items)
  | VUndefined =>
      Throw (TypeError ("Cannot set properties of undefined (setting '" ++ k ++ "')"))
  | VNull =>
      Throw (TypeError ("Cannot set properties of null (setting '" ++ k ++ "')"))
  | VBool _ | VNumber _ | VString _ =>
      Throw (TypeError ("Cannot create property '" ++ k ++ "'"))
  end.

(** The own enumerable properties that [{...v}] copies. *)
Definition spread (v : value) : list (string * value) :=
  match v with
  | VObject fields => fields
  | VArray items => combine (map Str.of_nat (seq 0 (List.length items))) items
  | VString s =>
      map (fun i => (Str.of_nat i,
                     match String.get i s with
                     | Some c => VString (String c EmptyString)
                     | None => VUndefined
                     end))
          (seq 0 (String.length s))
  | _ => []
  end.

(** [ToNumber] on the primitives that are not strings; on strings, arrays
    and objects it is the host's conversion [other]. *)
Definition to_number (other : value -> float) (v : value) : float :=
  match v with
  | VUndefined => PrimFloat.nan
  | VNull => 0%float
  | VBool b => if b then 1%float else 0%float
  | VNumber x => x
  | _ => other v
  end.

(** [items.slice(start, stop)] for integer bounds: a negative bound counts
    from the end, and both are clamped to the array. *)
Definition clamp_index (len : nat) (i : Z) : nat :=
  if (i <? 0)%Z then Z.to_nat (Z.max (Z.of_nat len + i) 0)
  else Nat.min (Z.to_nat i) len.

Definition slice {A : Type} (start stop : Z) (items : list A) : list A :=
  let from := clamp_index (List.length items) start in
  let upto := clamp_index (List.length items) stop in
  firstn (upto - from) (skipn from items).

(** *** What survives [JSON.stringify] followed by [JSON.parse]

    [undefined] and the numbers JSON cannot write (NaN, the infinities)
    become [null] inside an array; a property whose value is [undefined] is
    left out of an object; negative zero is written [0].  Every other value
    is read back as it was. *)
Definition json_number (x : float) : value :=
  if Number.isNaN x || PrimFloat.eqb (PrimFloat.abs x) PrimFloat.infinity then VNull
  else if PrimFloat.eqb x 0 then VNumber 0
  else VNumber x.

Fixpoint jsonify (v : value) : value :=
  match v with
  | VUndefined => VNull
  | VNull => VNull
  | VBool b => VBool b
  | VNumber x => json_number x
  | VString s => VString s
  | VArray items => VArray (map jsonify items)
  | VObject fields =>
      VObject
        (flat_map
           (fun p => match snd p with
                     | VUndefined => []
                     | _ => [(fst p, jsonify (snd p))]
                     end)
           fields)
  end.

(** Data that JSON represents exactly. *)
Definition json_exact (v : value) : Prop := jsonify v = v.

(** [ToString] on a string is the string; on the other values it is the
    host's conversion [other]. *)
Definition to_string (other : value -> string) (v : value) : string :=
  match v with
  | VString s => s
  | _ => other v
  end.

End Js.

(** ** Computations: results and results over a state *)

(** The two shapes of code in the programs: an expression that may throw
    ([Js.result]) and an [async] function that also reads and changes the
    world.  Both are sequenced with the same notation. *)
Class Sequencing (m : Type -> Type) : Type := {
  ret : forall {A : Type}, A -> m A;
  bind : forall {A B : Type}, m A -> (A -> m B) -> m B
}.

Declare Scope seq_scope.
Delimit Scope seq_scope with seq.
Notation "x <- c1 ;; c2" := (bind c1 (fun x => c2))
  (at level 61, c1 at next level, right associativity) : seq_scope.
Notation "c1 ;; c2" := (bind c1 (fun _ => c2))
  (at level 61, right associativity) : seq_scope.

#[export] Instance Sequencing_result : Sequencing Js.result := {
  ret := fun A a => Js.Ok a;
  bind := fun A B c k =>
    match c with
    | Js.Ok a => k a
    | Js.Throw e => Js.Throw e
    end
}.

(** [items.map(callback)] with a callback that may throw. Only an array
    has the method. *)
Fixpoint map_from {A : Type} (callback : Js.value -> nat -> Js.result A) (i : nat)
    (items : list Js.value) : Js.result (list A) :=
  match items with
  | [] => Js.Ok []
  | x :: rest =>
      (y <- callback x i ;;
       ys <- map_from callback (S i) rest ;;
       ret (y :: ys))%seq
  end.

Definition array_map {A : Type} (v : Js.value) (callback : Js.value -> nat -> Js.result A)
  : Js.result (list A) :=
  match v with
  | Js.VArray items => map_from callback 0 items
  | Js.VUndefined =>
      Js.Throw (Js.ErrorObject
                  (Js.TypeError "Cannot read properties of undefined (reading 'map')"))
  | Js.VNull =>
      Js.Throw (Js.ErrorObject
                  (Js.TypeError "Cannot read properties of null (reading 'map')"))
  | _ => Js.Throw (Js.ErrorObject (Js.TypeError "map is not a function"))
  end.

(** ** The embedding index script *)

Module EmbeddingIndex.

Import Js.
Local Open Scope string_scope.
Local Open Scope seq_scope.

(** *** Configuration *)

Definition EXTERNAL_DRIVE : string := "/Volumes/Virtual Server/_NEW".
Definition DOCUMENTS_PATH : string := EXTERNAL_DRIVE ++ "/Documents".
Definition INDEX_PATH : string :=
  "/Users/matthewkarsten/watsonx-mcp-server/embeddings-index.json".

(** *** The world

    The text of a file is known by what [JSON.parse] makes of it: a syntax
    error, or a value.  [JSON.stringify] writes a text that parses to the
    JSON image of the value it was given. *)
Inductive text : Type :=
  | Unparsable
  | Parses (v : value).

Definition JSON_parse (t : text) : result value :=
  match t with
  | Unparsable => Throw (SyntaxError "Unexpected token in JSON")
  | Parses v => Ok v
  end.

Definition JSON_stringify (v : value) : text := Parses (jsonify v).

(** What changes during a run: the index file ([None] when there is no
    such file), the lines printed, the requests sent to the two remote
    endpoints (oldest first), and the number of clock reads. *)
Record World : Type := {
  index_file : option text;
  console : list string;
  embed_requests : list (list string);
  generate_requests : list string;
  clock : nat
}.

(** The responses of the remote service, at the shape the script reads
    them: [response.result.results] may be missing, and holds one item per
    vector or per generated candidate. A response is taken to carry
    [result], and [results], when present, to be an array of such items;
    an answer of another shape is outside this definition. *)
Record EmbeddingItem : Type := { embedding : list float }.
Record EmbedResponse : Type := { embed_results : option (list EmbeddingItem) }.
Record GenerationItem : Type := { generated_text : option string }.
Record GenerateResponse : Type := { generate_results : option (list GenerationItem) }.

(** What the run is given: the environment variables ([""] when unset),
    the documents directory ([None] when it cannot be listed; a file whose
    content is [None] cannot be read), the clock, the remote service, and
    the conversions of the language that the model leaves to the host. *)
Record Host : Type := {
  WATSONX_API_KEY : string;
  WATSONX_SPACE_ID : string;
  documents_dir : option (list (string * option string));
  now : nat -> string;
  embedText : World -> list string -> result EmbedResponse;
  generateText : World -> string -> result GenerateResponse;
  ToNumber : value -> float;
  ToString : value -> string;
  toFixed : float -> nat -> string
}.

(** An [async] function: from a world to an outcome and the world after. *)
Definition M (A : Type) : Type := World -> result A * World.

#[export] Instance Sequencing_M : Sequencing M := {
  ret := fun A a w => (Ok a, w);
  bind := fun A B c k w =>
    match c w with
    | (Ok a, w') => k a w'
    | (Throw e, w') => (Throw e, w')
    end
}.

Definition lift {A : Type} (r : result A) : M A := fun w => (r, w).

Definition throw {A : Type} (e : error) : M A := fun w => (Throw e, w).

(** [try { body } catch { handler }]: what the body did before it threw
    stays done. *)
Definition try_catch {A : Type} (body : M A) (handler : error -> M A) : M A :=
  fun w =>
    match body w with
    | (Ok a, w') => (Ok a, w')
    | (Throw e, w') => handler e w'
    end.

(** The ways a run changes the world. *)
Definition printed (line : string) (w : World) : World :=
  {| index_file := index_file w;
     console := console w ++ [line];
     embed_requests := embed_requests w;
     generate_requests := generate_requests w;
     clock := clock w |}.

Definition ticked (w : World) : World :=
  {| index_file := index_file w;
     console := console w;
     embed_requests := embed_requests w;
     generate_requests := generate_requests w;
     clock := S (clock w) |}.

Definition written (t : text) (w : World) : World :=
  {| index_file := Some t;
     console := console w;
     embed_requests := embed_requests w;
     generate_requests := generate_requests w;
     clock := clock w |}.

Definition embed_requested (inputs : list string) (w : World) : World :=
  {| index_file := index_file w;
     console := console w;
     embed_requests := embed_requests w ++ [inputs];
     generate_requests := generate_requests w;
     clock := clock w |}.

Definition generate_requested (input : string) (w : World) : World :=
  {| index_file := index_file w;
     console := console w;
     embed_requests := embed_requests w;
     generate_requests := generate_requests w ++ [input];
     clock := clock w |}.

(** [console.log(line)]. *)
Definition log (line : string) : M unit := fun w => (Ok tt, printed line w).

(** [new Date().toISOString()]. *)
Definition new_Date_toISOString (h : Host) : M string :=
  fun w => (Ok (now h (clock w)), ticked w).

(** [fs.readFile(INDEX_PATH, "utf-8")]. *)
Definition readFile_index : M text :=
  fun w =>
    match index_file w with
    | Some t => (Ok t, w)
    | None => (Throw (SystemError ("ENOENT: no such file or directory, open '" ++ INDEX_PATH ++ "'")), w)
    end.

(** [fs.writeFile(INDEX_PATH, text)]: the file is replaced. The write is
    taken to succeed: a path that cannot be written or a full disk, on
    which the call rejects and may leave a truncated file, is outside
    this definition. *)
Definition writeFile_index (t : text) : M unit := fun w => (Ok tt, written t w).

(** [fs.readdir(DOCUMENTS_PATH)]. *)
Definition readdir_documents (h : Host) : M (list string) :=
  match documents_dir h with
  | Some entries => ret (map fst entries)
  | None => throw (SystemError ("ENOENT: no such file or directory, scandir '" ++ DOCUMENTS_PATH ++ "'"))
  end.

Fixpoint find_file (name : string) (entries : list (string * option string))
  : option string :=
  match entries with
  | [] => None
  | (n, content) :: rest => if String.eqb name n then content else find_file name rest
  end.

(** [fs.readFile(`${DOCUMENTS_PATH}/${name}`, "utf-8")]. *)
Definition readFile_document (h : Host) (name : string) : M string :=
  match documents_dir h with
  | Some entries =>
      match find_file name entries with
      | Some content => ret content
      | None => throw (SystemError ("ENOENT: no such file or directory, open '" ++ DOCUMENTS_PATH ++ "/" ++ name ++ "'"))
      end
  | None => throw (SystemError ("ENOENT: no such file or directory, open '" ++ DOCUMENTS_PATH ++ "/" ++ name ++ "'"))
  end.

(** [watsonx.embedText({ modelId, spaceId, inputs })]: the request is
    sent, then the service answers or fails. *)
Definition request_embedText (h : Host) (inputs : list string) : M EmbedResponse :=
  fun w => (embedText h w inputs, embed_requested inputs w).

(** [watsonx.generateText({ modelId, spaceId, input, parameters })]. *)
Definition request_generateText (h : Host) (input : string) : M GenerateResponse :=
  fun w => (generateText h w input, generate_requested input w).

(** *** [getClient]

    The client exists when the API key is set; otherwise [getClient]
    returns [null]. *)
Definition getClient (h : Host) : bool := negb (String.eqb (WATSONX_API_KEY h) "").

(** *** [generateEmbeddings] *)

Definition generateEmbeddings (h : Host) (texts : list string) : M (list (list float)) :=
  if getClient h then
    response <- request_embedText h texts ;;
    ret (match embed_results response with
         | Some results => map embedding results
         | None => []
         end)
  else throw (TypeError "Cannot read properties of null (reading 'embedText')").

(** *** [cosineSimilarity]

    [v[i]] past the end of [v] is [undefined], which arithmetic reads as
    NaN. The function of [document-analyzer.js] is the same, letter for
    letter apart from the name of [dot]. *)
Definition elem (v : list float) (i : nat) : float := nth i v PrimFloat.nan.

(** The body of the loop, at index [i]. *)
Definition step (a b : list float) (acc : float * float * float) (i : nat)
  : float * float * float :=
  let '(dot, normA, normB) := acc in
  (dot + elem a i * elem b i,
   normA + elem a i * elem a i,
   normB + elem b i * elem b i)%float.

Definition cosineSimilarity (a b : list float) : float :=
  let '(dot, normA, normB) :=
    fold_left (step a b) (seq 0 (List.length a)) (0, 0, 0)%float in
  (dot / (sqrt normA * sqrt normB))%float.

(** The call [cosineSimilarity(queryEmbedding, emb)] of [queryIndex]:
    [queryEmbedding] is a vector of the service, or [undefined] when the
    service returned none; [emb] is whatever the index file holds at that
    place, read as numbers by the implicit conversion of [*]. *)
Definition element (v : value) (i : nat) : value :=
  match at_index v i with
  | Ok x => x
  | Throw _ => VUndefined
  end.

Definition numbers (h : Host) (v : value) (n : nat) : list float :=
  map (fun i => to_number (ToNumber h) (element v i)) (seq 0 n).

Definition similarity_with (h : Host) (queryEmbedding : option (list float)) (emb : value)
  : result float :=
  match queryEmbedding with
  | None => Throw (TypeError "Cannot read properties of undefined (reading 'length')")
  | Some a =>
      match a with
      | _ :: _ =>
          if is_nullish emb
          then Throw (TypeError ("Cannot read properties of " ++ nullish_name emb
                                   ++ " (reading '0')"))
          else Ok (cosineSimilarity a (numbers h emb (List.length a)))
      | [] => Ok (cosineSimilarity a (numbers h emb (List.length a)))
      end
  end.

(** A vector of the service as data. *)
Definition vector (v : list float) : value := VArray (map VNumber v).

(** *** [loadIndex] *)

(** [{ documents: [], embeddings: [], metadata: { created, count: 0 } }]. *)
Definition empty_index (created : string) : value :=
  VObject [("documents", VArray []);
           ("embeddings", VArray []);
           ("metadata", VObject [("created", VString created);
                                 ("count", VNumber 0)])].

Definition loadIndex (h : Host) : M value :=
  try_catch
    (data <- readFile_index ;;
     lift (JSON_parse data))
    (fun _ =>
       created <- new_Date_toISOString h ;;
       ret (empty_index created)).

(** *** [saveIndex]

    The function mutates the object it is given; the model returns the
    object as it is afterwards. [index.metadata] is one object shared by
    the two assignments. *)
Definition with_property (v : value) (k : string) (x : value) : value :=
  match v with
  | VObject fields => VObject (assign k x fields)
  | _ => v
  end.

Definition saveIndex (h : Host) (index : value) : M value :=
  metadata <- lift (get index "metadata") ;;
  updated <- new_Date_toISOString h ;;
  metadata <- lift (set metadata "updated" (VString updated)) ;;
  documents <- lift (get index "documents") ;;
  count <- lift (get documents "length") ;;
  metadata <- lift (set metadata "count" count) ;;
  let index := with_property index "metadata" metadata in
  writeFile_index (JSON_stringify index) ;;
  ret index.

(** *** [buildIndex] *)

Definition batchSize : nat := 10.

(** The values [i] takes in [for (let i = 0; i < n; i += batchSize)]. *)
Definition batch_starts (n : nat) : list nat :=
  map (fun k => k * batchSize) (seq 0 ((n + batchSize - 1) / batchSize)).

(** The entry [buildIndex] makes for a file it could read. *)
Definition document_entry (file content : string) : value :=
  let truncated := Str.substring0 500 content in
  VObject [("filename", VString file);
           ("preview", VString (Str.replace_newlines (Str.substring0 200 truncated)));
           ("length", VNumber (Number.of_nat (String.length content)))].

(** The inner loop [for (const file of batch)]: a file that cannot be read
    is skipped. *)
Fixpoint read_batch (h : Host) (batch : list string) (texts : list string) (docs : list value)
  : M (list string * list value) :=
  match batch with
  | [] => ret (texts, docs)
  | file :: rest =>
      read <- try_catch
                (content <- readFile_document h file ;;
                 let truncated := Str.substring0 500 content in
                 ret ((texts ++ [truncated])%list, (docs ++ [document_entry file content])%list))
                (fun _ => ret (texts, docs)) ;;
      read_batch h rest (fst read) (snd read)
  end.

(** [embeddings[j]]. *)
Definition embedding_at (embeddings : list (list float)) (j : nat) : value :=
  match nth_error embeddings j with
  | Some v => vector v
  | None => VUndefined
  end.

(** One round of the outer loop, at [i]. *)
Definition process_batch (h : Host) (txtFiles : list string) (i : nat)
    (acc : list value * list value) : M (list value * list value) :=
  let batch := slice (Z.of_nat i) (Z.of_nat (i + batchSize)) txtFiles in
  read <- read_batch h batch [] [] ;;
  let texts := fst read in
  let docs := snd read in
  match texts with
  | _ :: _ =>
      log ("   Processing batch " ++ Str.of_nat (i / batchSize + 1) ++ "/"
             ++ Str.of_nat ((List.length txtFiles + batchSize - 1) / batchSize) ++ "...") ;;
      embeddings <- generateEmbeddings h texts ;;
      ret ((fst acc ++ docs)%list,
           (snd acc ++ map (embedding_at embeddings) (seq 0 (List.length docs)))%list)
  | [] => ret acc
  end.

Fixpoint process_batches (h : Host) (txtFiles : list string) (starts : list nat)
    (acc : list value * list value) : M (list value * list value) :=
  match starts with
  | [] => ret acc
  | i :: rest =>
      acc' <- process_batch h txtFiles i acc ;;
      process_batches h txtFiles rest acc'
  end.

Definition buildIndex (h : Host) (maxDocs : Z) : M value :=
  log "📚 Building embedding index..." ;;
  log ("   Source: " ++ DOCUMENTS_PATH) ;;
  log ("   Max documents: " ++ Str.of_Z maxDocs) ;;
  files <- readdir_documents h ;;
  let txtFiles := slice 0 maxDocs (filter (fun f => Str.endsWith f ".txt") files) in
  log ("   Found " ++ Str.of_nat (List.length txtFiles) ++ " text files") ;;
  created <- new_Date_toISOString h ;;
  built <- process_batches h txtFiles (batch_starts (List.length txtFiles)) ([], []) ;;
  index <- saveIndex h
             (VObject [("documents", VArray (fst built));
                       ("embeddings", VArray (snd built));
                       ("metadata", VObject [("created", VString created)])]) ;;
  log (Str.nl ++ "✅ Index built with " ++ Str.of_nat (List.length (fst built)) ++ " documents") ;;
  log ("   Saved to: " ++ INDEX_PATH) ;;
  ret index.

(** *** [queryIndex] *)

(** [result.similarity], a number on every result [queryIndex] builds. *)
Definition similarity (r : value) : float :=
  match r with
  | VObject fields =>
      match lookup "similarity" fields with
      | Some (VNumber x) => x
      | _ => PrimFloat.nan
      end
  | _ => PrimFloat.nan
  end.

(** [Array.prototype.sort(comparefn)], as a stable insertion sort.
    [after x y] says that [comparefn(x, y) > 0], so that [x] goes behind
    [y]; a comparator that returns NaN is read as returning [+0]. Over a
    comparator that orders the items this is the result of every stable
    sort; when the comparator returns NaN for some pairs the order
    depends on the algorithm of the engine and can differ from this
    one. *)
Fixpoint insert {A : Type} (after : A -> A -> bool) (x : A) (sorted : list A) : list A :=
  match sorted with
  | [] => [x]
  | y :: rest => if after x y then y :: insert after x rest else x :: sorted
  end.

Definition sort {A : Type} (after : A -> A -> bool) (items : list A) : list A :=
  fold_right (insert after) [] items.

(** [(a, b) => b.similarity - a.similarity], then the test [> 0]. *)
Definition by_similarity (a b : value) : bool :=
  PrimFloat.ltb 0 (similarity b - similarity a).

Definition queryIndex (h : Host) (query : string) (topK : Z) : M (list value) :=
  log ("🔍 Searching: " ++ Str.quote ++ query ++ Str.quote) ;;
  index <- loadIndex h ;;
  documents <- lift (get index "documents") ;;
  empty <- lift (length_is_zero documents) ;;
  if (empty : bool) then
    log "   Index is empty. Run 'build' first." ;;
    ret []
  else
    count <- lift (get documents "length") ;;
    log ("   Searching " ++ to_string (ToString h) count ++ " documents...") ;;
    vectors <- generateEmbeddings h [query] ;;
    let queryEmbedding := hd_error vectors in
    embeddings <- lift (get index "embeddings") ;;
    results <- lift (array_map embeddings (fun emb i =>
                 s <- similarity_with h queryEmbedding emb ;;
                 ret (VObject (assign "similarity" (VNumber s) (spread (element documents i)))))) ;;
    ret (slice 0 topK (sort by_similarity results)).

(** *** [ragQuery] *)

Record Context : Type := {
  context_filename : value;
  context_content : string;
  context_similarity : float
}.

(** The loop [for (const result of results)]: a document that can no
    longer be read is skipped. *)
Fixpoint load_contexts (h : Host) (results : list value) (contexts : list Context)
  : M (list Context) :=
  match results with
  | [] => ret contexts
  | result :: rest =>
      contexts' <- try_catch
                     (filename <- lift (get result "filename") ;;
                      content <- readFile_document h (to_string (ToString h) filename) ;;
                      ret (contexts ++ [{| context_filename := filename;
                                           context_content := Str.substring0 1500 content;
                                           context_similarity := similarity result |}])%list)
                     (fun _ => ret contexts) ;;
      load_contexts h rest contexts'
  end.

(** [contexts.forEach((c, i) => console.log(...))]. *)
Fixpoint log_each {A : Type} (line : A -> nat -> string) (i : nat) (items : list A) : M unit :=
  match items with
  | [] => ret tt
  | x :: rest => log (line x i) ;; log_each line (S i) rest
  end.

Definition context_block (h : Host) (c : Context) : string :=
  "[" ++ to_string (ToString h) (context_filename c) ++ "]" ++ Str.nl ++ context_content c.

Definition rag_prompt (contextText question : string) : string :=
  "You are a helpful assistant. Answer the question based on the provided context documents. If the answer is not in the context, say so."
  ++ Str.nl ++ Str.nl ++ "Context Documents:" ++ Str.nl ++ contextText
  ++ Str.nl ++ Str.nl ++ "Question: " ++ question
  ++ Str.nl ++ Str.nl ++ "Answer:".

(** [response.result.results?.[0]?.generated_text?.trim() || "No answer generated"]. *)
Definition answer_of (response : GenerateResponse) : string :=
  match generate_results response with
  | Some (item :: _) =>
      match generated_text item with
      | Some t => if String.eqb (Str.trim t) "" then "No answer generated" else Str.trim t
      | None => "No answer generated"
      end
  | _ => "No answer generated"
  end.

Definition rule (n : nat) : string := "   " ++ Str.repeat "─" n.

Definition ragQuery (h : Host) (question : string) (topK : Z) : M unit :=
  log ("💡 RAG Query: " ++ Str.quote ++ question ++ Str.quote) ;;
  results <- queryIndex h question topK ;;
  match results with
  | [] =>
      log "   No documents found. Build index first." ;;
      ret tt
  | _ :: _ =>
      contexts <- load_contexts h results [] ;;
      log (Str.nl ++ "   Retrieved " ++ Str.of_nat (List.length contexts) ++ " relevant documents:") ;;
      log_each (fun c i => "   " ++ Str.of_nat (i + 1) ++ ". "
                           ++ to_string (ToString h) (context_filename c)
                           ++ " (similarity: " ++ toFixed h (context_similarity c) 4 ++ ")")
               0 contexts ;;
      let contextText :=
        Str.join (Str.nl ++ Str.nl ++ "---" ++ Str.nl ++ Str.nl) (map (context_block h) contexts) in
      log (Str.nl ++ "   Generating answer with Granite 3.3..." ++ Str.nl) ;;
      response <- (if getClient h
                   then request_generateText h (rag_prompt contextText question)
                   else throw (TypeError "Cannot read properties of null (reading 'generateText')")) ;;
      let answer := answer_of response in
      log (rule 60) ;;
      log "   Answer:" ;;
      log ("   " ++ Str.join (Str.nl ++ "   ") (Str.split_lines answer)) ;;
      log (rule 60) ;;
      log (Str.nl ++ "   Sources:") ;;
      log_each (fun c _ => "   - " ++ to_string (ToString h) (context_filename c)) 0 contexts
  end.

(** *** The [build] case of [main] *)

(** [parseInt(string)] with no radix: leading white space, a sign, a
    [0x] prefix, then the longest run of digits; [None] is NaN. The value
    is the integer the digits denote, which is the number [parseInt]
    returns up to 2^53 in magnitude; a longer numeral is rounded to a
    binary64 number by [parseInt] and is outside this definition. *)
Definition digit (radix : nat) (c : ascii) : option Z :=
  let n := Ascii.nat_of_ascii c in
  let d := if ((48 <=? n) && (n <=? 57))%nat then Some (n - 48)%nat
           else if ((97 <=? n) && (n <=? 122))%nat then Some (n - 87)%nat
           else if ((65 <=? n) && (n <=? 90))%nat then Some (n - 55)%nat
           else None in
  match d with
  | Some v => if (v <? radix)%nat then Some (Z.of_nat v) else None
  | None => None
  end.

Fixpoint digits (radix : nat) (s : string) (acc : option Z) : option Z :=
  match s with
  | EmptyString => acc
  | String c s' =>
      match digit radix c with
      | Some d =>
          digits radix s'
            (Some (match acc with Some n => n * Z.of_nat radix + d | None => d end)%Z)
      | None => acc
      end
  end.

Definition parseInt_string (s : string) : option Z :=
  let s := Str.trimStart s in
  let '(sign, s) :=
    match s with
    | String "-"%char s' => ((-1)%Z, s')
    | String "+"%char s' => (1%Z, s')
    | _ => (1%Z, s)
    end in
  let '(radix, s) :=
    match s with
    | String "0"%char (String "x"%char s') => (16, s')
    | String "0"%char (String "X"%char s') => (16, s')
    | _ => (10, s)
    end in
  option_map (Z.mul sign) (digits radix s None).

(** [process.argv[3]] is a string, or [undefined] when the argument is
    absent; [parseInt] reads [undefined] as the string it prints as. *)
Definition parseInt (arg : option string) : option Z :=
  parseInt_string (match arg with Some s => s | None => "undefined" end).

(** [parseInt(arg) || 100]: NaN and zero are falsy. *)
Definition build_maxDocs (arg : option string) : Z :=
  match parseInt arg with
  | Some n => if (n =? 0)%Z then 100%Z else n
  | None => 100%Z
  end.

(** [case "build": { const maxDocs = parseInt(arg) || 100; await buildIndex(maxDocs); }]. *)
Definition main_build (h : Host) (arg : option string) : M value :=
  let maxDocs := build_maxDocs arg in
  buildIndex h maxDocs.

End EmbeddingIndex.

(** ** The MCP server: the handler of [CallToolRequestSchema] *)

Module McpServer.

Import Js.
Local Open Scope string_scope.
Local Open Scope seq_scope.

(** The environment variables ([""] when unset). *)
Record Config : Type := {
  WATSONX_API_KEY : string;
  WATSONX_PROJECT_ID : string;
  WATSONX_SPACE_ID : string
}.

(** The watsonx.ai client: each call resolves to a response or rejects
    with a value. Nothing is assumed of the shape of a response, nor of
    the value of a rejection. *)
Record Client : Type := {
  generateText : value -> result value;
  listFoundationModelSpecs : value -> result value;
  embedText : value -> result value
}.

(** The conversions of the language that the model leaves to the host:
    [ToString] on values that are not strings, and the text
    [JSON.stringify(v, null, 2)] writes for a value other than
    [undefined]. *)
Record Builtins : Type := {
  ToString : value -> string;
  stringify : value -> string
}.

Record ContentItem : Type := { type : string; text : value }.
Record CallToolResult : Type := { content : list ContentItem }.

(** [{ content: [{ type: "text", text }] }]. *)
Definition text_content (t : value) : CallToolResult :=
  {| content := [{| type := "text"; text := t |}] |}.

(** [getWatsonxClient]: [null] when the API key is unset; otherwise the
    client that [WatsonXAI.newInstance] makes over a [new IamAuthenticator].
    [watsonx] is what the two constructors do for the configured key:
    they return a client, or one of them throws. *)
Definition getWatsonxClient (cfg : Config) (watsonx : result Client)
  : result (option Client) :=
  if String.eqb (WATSONX_API_KEY cfg) "" then Ok None
  else client <- watsonx ;; ret (Some client).

(** "Add spaceId (preferred) or projectId". *)
Definition with_scope (cfg : Config) (params : list (string * value))
  : list (string * value) :=
  if negb (String.eqb (WATSONX_SPACE_ID cfg) "")
  then assign "spaceId" (VString (WATSONX_SPACE_ID cfg)) params
  else if negb (String.eqb (WATSONX_PROJECT_ID cfg) "")
  then assign "projectId" (VString (WATSONX_PROJECT_ID cfg)) params
  else params.

(** [response.result.results?.[0]?.generated_text || ""]. *)
Definition generated_text (response : value) : result value :=
  result <- get response "result" ;;
  results <- get result "results" ;;
  first <- (if is_nullish results then Ok VUndefined else at_index results 0) ;;
  generated <- (if is_nullish first then Ok VUndefined else get first "generated_text") ;;
  ret (or_else generated (VString "")).

(** [JSON.stringify(v, null, 2)]. *)
Definition JSON_stringify (b : Builtins) (v : value) : value :=
  match v with
  | VUndefined => VUndefined
  | _ => VString (stringify b v)
  end.

(** [v === s] for a string literal [s]. *)
Definition is_string (v : value) (s : string) : bool :=
  match v with
  | VString s' => String.eqb s' s
  | _ => false
  end.

(** [parts.join(sep)] on values: [undefined] and [null] print as nothing. *)
Definition join_values (b : Builtins) (sep : string) (parts : list value) : string :=
  Str.join sep (map (fun v => if is_nullish v then "" else to_string (ToString b) v) parts).

Definition watsonx_generate (cfg : Config) (client : Client) (args : value)
  : result CallToolResult :=
  prompt <- get args "prompt" ;;
  model_id <- get args "model_id" ;;
  max_new_tokens <- get args "max_new_tokens" ;;
  temperature <- get args "temperature" ;;
  top_p <- get args "top_p" ;;
  top_k <- get args "top_k" ;;
  let params :=
    [("input", prompt);
     ("modelId", or_else model_id (VString "ibm/granite-13b-chat-v2"));
     ("parameters",
      VObject [("max_new_tokens", or_else max_new_tokens (VNumber 500));
               ("temperature", or_else temperature (VNumber 0.7));
               ("top_p", or_else top_p (VNumber 1));
               ("top_k", or_else top_k (VNumber 50))])] in
  response <- generateText client (VObject (with_scope cfg params)) ;;
  generatedText <- generated_text response ;;
  ret (text_content generatedText).

Definition watsonx_list_models (b : Builtins) (client : Client) : result CallToolResult :=
  response <- listFoundationModelSpecs client (VObject [("limit", VNumber 100)]) ;;
  result <- get response "result" ;;
  resources <- get result "resources" ;;
  models <- (if is_nullish resources then Ok []
             else array_map resources (fun m _ =>
                    id <- get m "model_id" ;;
                    name <- get m "label" ;;
                    provider <- get m "provider" ;;
                    tasks <- get m "tasks" ;;
                    ret (VObject [("id", id); ("name", name);
                                  ("provider", provider); ("tasks", tasks)]))) ;;
  ret (text_content (JSON_stringify b (VArray models))).

Definition watsonx_embeddings (cfg : Config) (b : Builtins) (client : Client) (args : value)
  : result CallToolResult :=
  texts <- get args "texts" ;;
  model_id <- get args "model_id" ;;
  let params :=
    [("inputs", texts);
     ("modelId", or_else model_id (VString "ibm/slate-125m-english-rtrvr"))] in
  response <- embedText client (VObject (with_scope cfg params)) ;;
  result <- get response "result" ;;
  ret (text_content (JSON_stringify b result)).

(** The callback of [args.messages.map]. *)
Definition format_message (b : Builtins) (m : value) : result value :=
  role <- get m "role" ;;
  content <- get m "content" ;;
  ret (if is_string role "system"
       then VString ("System: " ++ to_string (ToString b) content)
       else if is_string role "user"
       then VString ("User: " ++ to_string (ToString b) content)
       else if is_string role "assistant"
       then VString ("Assistant: " ++ to_string (ToString b) content)
       else content).

(** [generatedText.trim()]: only a string has the method. *)
Definition trim_method (v : value) : result value :=
  match v with
  | VString s => Ok (VString (Str.trim s))
  | VUndefined | VNull =>
      Throw (TypeError ("Cannot read properties of " ++ nullish_name v ++ " (reading 'trim')"))
  | _ => Throw (TypeError "generatedText.trim is not a function")
  end.

Definition watsonx_chat (cfg : Config) (b : Builtins) (client : Client) (args : value)
  : result CallToolResult :=
  messages <- get args "messages" ;;
  parts <- array_map messages (fun m _ => format_message b m) ;;
  let formattedPrompt := join_values b (Str.nl ++ Str.nl) parts in
  model_id <- get args "model_id" ;;
  max_new_tokens <- get args "max_new_tokens" ;;
  temperature <- get args "temperature" ;;
  let params :=
    [("input", VString (formattedPrompt ++ Str.nl ++ Str.nl ++ "Assistant:"));
     ("modelId", or_else model_id (VString "ibm/granite-13b-chat-v2"));
     ("parameters",
      VObject [("max_new_tokens", or_else max_new_tokens (VNumber 500));
               ("temperature", or_else temperature (VNumber 0.7));
               ("stop_sequences", VArray [VString "User:"; VString "System:"])])] in
  response <- generateText client (VObject (with_scope cfg params)) ;;
  generatedText <- generated_text response ;;
  trimmed <- trim_method generatedText ;;
  ret (text_content trimmed).

(** The [switch (name)] inside the [try]. *)
Definition call_tool (cfg : Config) (b : Builtins) (client : Client) (name : string)
    (args : value) : result CallToolResult :=
  if String.eqb name "watsonx_generate" then watsonx_generate cfg client args
  else if String.eqb name "watsonx_list_models" then watsonx_list_models b client
  else if String.eqb name "watsonx_embeddings" then watsonx_embeddings cfg b client args
  else if String.eqb name "watsonx_chat" then watsonx_chat cfg b client args
  else Ok (text_content (VString ("Unknown tool: " ++ name))).

(** The handler: [request.params] is [{ name, arguments: args }], where
    [args] is [undefined] when the request carries no arguments.
    [getWatsonxClient()] is called before the [try]; the [catch] block
    reads [error.message] of whatever was thrown and prints it in a
    template. *)
Definition handler (cfg : Config) (b : Builtins) (watsonx : result Client) (name : string)
    (args : value) : result CallToolResult :=
  client <- getWatsonxClient cfg watsonx ;;
  match client with
  | None =>
      Ok (text_content
            (VString "Error: watsonx.ai not configured. Set WATSONX_API_KEY environment variable."))
  | Some client =>
      match call_tool cfg b client name args with
      | Ok response => Ok response
      | Throw error =>
          message <- read_message error ;;
          ret (text_content
                 (VString ("Error calling watsonx.ai: " ++ to_string (ToString b) message)))
      end
  end.

End McpServer.

(** ** The embedding index script: [showStats] and [main] *)

Module IndexCli.

Import Js EmbeddingIndex.
Local Open Scope string_scope.
Local Open Scope seq_scope.

(** [items.forEach(callback)], with a callback that prints and may
    throw. *)
Fixpoint for_each {A : Type} (callback : A -> nat -> M unit) (i : nat) (items : list A)
  : M unit :=
  match items with
  | [] => ret tt
  | x :: rest => callback x i ;; for_each callback (S i) rest
  end.

(** A run of [console.log] calls. *)
Fixpoint log_all (lines : list string) : M unit :=
  match lines with
  | [] => ret tt
  | line :: rest => log line ;; log_all rest
  end.

(** *** [showStats] *)

(** [v > 0]. *)
Definition greater_than_zero (h : Host) (v : value) : bool :=
  PrimFloat.ltb 0 (to_number (ToNumber h) v).

(** [index.documents.slice(0, 5)], on which [forEach] is called: data has
    both methods only when it is an array (a string has [slice] alone). *)
Definition sample (documents : value) : result (list value) :=
  match documents with
  | VArray items => Ok (slice 0 5 items)
  | VString _ => Throw (TypeError "index.documents.slice(...).forEach is not a function")
  | _ => Throw (TypeError "index.documents.slice is not a function")
  end.

Definition showStats (h : Host) : M unit :=
  index <- loadIndex h ;;
  log "📊 Index Statistics" ;;
  log (rule 40) ;;
  documents <- lift (get index "documents") ;;
  count <- lift (get documents "length") ;;
  log ("   Documents indexed: " ++ to_string (ToString h) count) ;;
  metadata <- lift (get index "metadata") ;;
  created <- lift (get metadata "created") ;;
  log ("   Created: " ++ to_string (ToString h) (or_else created (VString "N/A"))) ;;
  updated <- lift (get metadata "updated") ;;
  log ("   Updated: " ++ to_string (ToString h) (or_else updated (VString "N/A"))) ;;
  log ("   Index file: " ++ INDEX_PATH) ;;
  if greater_than_zero h count then
    log (Str.nl ++ "   Sample documents:") ;;
    items <- lift (sample documents) ;;
    for_each (fun d _ =>
                filename <- lift (get d "filename") ;;
                length <- lift (get d "length") ;;
                log ("   - " ++ to_string (ToString h) filename
                       ++ " (" ++ to_string (ToString h) length ++ " chars)"))
             0 items
  else ret tt.

(** *** [main] *)

(** How [main] ends: it returns, or [process.exit(code)] stops the
    process; with it, the lines [console.error] printed. *)
Record Ending : Type := { exit_code : option Z; stderr : list string }.

Definition returned : Ending := {| exit_code := None; stderr := [] |}.

Definition exited (code : Z) : Ending := {| exit_code := Some code; stderr := [] |}.

Definition banner : list string :=
  ["╔══════════════════════════════════════════════════════════════╗";
   "║           watsonx Embedding Index & RAG                      ║";
   "║           Powered by IBM Granite 3.3 + Slate                 ║";
   "╚══════════════════════════════════════════════════════════════╝";
   ""].

Definition usage : list string :=
  ["Usage: embedding-index.js <command> [args]";
   "";
   "Commands:";
   "  build [count]     - Build embedding index (default: 100 docs)";
   "  search <query>    - Search the index";
   "  rag <question>    - RAG: Retrieve docs and generate answer";
   "  stats             - Show index statistics";
   "";
   "Examples:";
   "  embedding-index.js build 200";
   "  embedding-index.js search 'IBM Cloud'";
   "  embedding-index.js rag 'How do I set up AWS for Satellite?'"].

(** [r.preview.substring(0, 80)]. *)
Definition preview_start (r : value) : result string :=
  preview <- get r "preview" ;;
  match preview with
  | VString s => Ok (Str.substring0 80 s)
  | VUndefined | VNull =>
      Throw (TypeError ("Cannot read properties of " ++ nullish_name preview
                          ++ " (reading 'substring')"))
  | _ => Throw (TypeError "r.preview.substring is not a function")
  end.

(** The [search] case, once [arg] is known to be a query. *)
Definition main_search (h : Host) (query : string) : M Ending :=
  results <- queryIndex h query 10 ;;
  log (Str.nl ++ "   Top results:") ;;
  for_each (fun r i =>
              filename <- lift (get r "filename") ;;
              log ("   " ++ Str.of_nat (i + 1) ++ ". " ++ to_string (ToString h) filename
                     ++ " (" ++ toFixed h (similarity r) 4 ++ ")") ;;
              preview <- lift (preview_start r) ;;
              log ("      " ++ preview ++ "..."))
           0 results ;;
  ret returned.

(** [process.argv[2]] and [process.argv[3]] are strings, or [undefined]
    when absent. The environment variables are [""] when unset. *)
Definition is_command (command : option string) (name : string) : bool :=
  match command with
  | Some c => String.eqb c name
  | None => false
  end.

Definition main (h : Host) (command arg : option string) : M Ending :=
  log_all banner ;;
  if String.eqb (WATSONX_API_KEY h) "" || String.eqb (WATSONX_SPACE_ID h) "" then
    ret {| exit_code := Some 1%Z;
           stderr := ["Error: WATSONX_API_KEY and WATSONX_SPACE_ID must be set"] |}
  else if is_command command "build" then
    main_build h arg ;; ret returned
  else if is_command command "search" then
    match arg with
    | Some (String c query) => main_search h (String c query)
    | _ => log "Usage: embedding-index.js search '<query>'" ;; ret (exited 1)
    end
  else if is_command command "rag" then
    match arg with
    | Some (String c question) => ragQuery h (String c question) 3 ;; ret returned
    | _ => log "Usage: embedding-index.js rag '<question>'" ;; ret (exited 1)
    end
  else if is_command command "stats" then
    showStats h ;; ret returned
  else
    log_all usage ;; ret returned.

End IndexCli.

(** ** Thrown values, [new Error(message)] included *)

Module Exception.

Import Js.

(** What a [throw] carries: an [Error] the program makes itself, or
    what the language, the file system or the service throws. *)
Inductive thrown : Type :=
  | Error (msg : string)
  | Native (e : error).

(** [err.message], as a [catch] block reads it. *)
Definition message_of (t : thrown) : result value :=
  match t with
  | Error m => Ok (VString m)
  | Native e => read_message e
  end.

Inductive outcome (A : Type) : Type :=
  | Returns (a : A)
  | Throws (t : thrown).

Arguments Returns {A} a.
Arguments Throws {A} t.

Definition native {A : Type} (r : result A) : outcome A :=
  match r with
  | Ok a => Returns a
  | Throw e => Throws (Native e)
  end.

End Exception.

(** ** The MCP server: the tool list, Key Protect and z/OS Connect *)

Module McpTools.

Import Js Exception.
Local Open Scope string_scope.

(** *** The handler of [ListToolsRequestSchema]

    It returns [{ tools: [...] }]; the array is the literal below. *)
Definition tools : list value :=
  [VObject
     [("name", VString "watsonx_generate");
      ("description",
       VString "Generate text using IBM watsonx.ai foundation models (Granite, Llama, Mistral, etc.)");
      ("inputSchema",
       VObject
         [("type", VString "object");
          ("properties",
           VObject
             [("prompt",
               VObject
                 [("type", VString "string");
                  ("description", VString "The prompt to send to the model")]);
              ("model_id",
               VObject
                 [("type", VString "string");
                  ("description",
                   VString "Model ID (e.g., 'ibm/granite-13b-chat-v2', 'meta-llama/llama-3-70b-instruct')");
                  ("default", VString "ibm/granite-13b-chat-v2")]);
              ("max_new_tokens",
               VObject
                 [("type", VString "number");
                  ("description", VString "Maximum number of tokens to generate");
                  ("default", VNumber 500)]);
              ("temperature",
               VObject
                 [("type", VString "number");
                  ("description", VString "Temperature for sampling (0-2)");
                  ("default", VNumber 0.7)]);
              ("top_p",
               VObject
                 [("type", VString "number");
                  ("description", VString "Top-p nucleus sampling");
                  ("default", VNumber 1)]);
              ("top_k",
               VObject
                 [("type", VString "number");
                  ("description", VString "Top-k sampling");
                  ("default", VNumber 50)])]);
          ("required", VArray [VString "prompt"])])];
   VObject
     [("name", VString "watsonx_list_models");
      ("description", VString "List available foundation models in watsonx.ai");
      ("inputSchema",
       VObject
         [("type", VString "object");
          ("properties", VObject [])])];
   VObject
     [("name", VString "watsonx_embeddings");
      ("description", VString "Generate text embeddings using watsonx.ai embedding models");
      ("inputSchema",
       VObject
         [("type", VString "object");
          ("properties",
           VObject
             [("texts",
               VObject
                 [("type", VString "array");
                  ("items", VObject [("type", VString "string")]);
                  ("description", VString "Array of texts to embed")]);
              ("model_id",
               VObject
                 [("type", VString "string");
                  ("description", VString "Embedding model ID");
                  ("default", VString "ibm/slate-125m-english-rtrvr")])]);
          ("required", VArray [VString "texts"])])];
   VObject
     [("name", VString "watsonx_chat");
      ("description", VString "Have a conversation with watsonx.ai chat models");
      ("inputSchema",
       VObject
         [("type", VString "object");
          ("properties",
           VObject
             [("messages",
               VObject
                 [("type", VString "array");
                  ("items",
                   VObject
                     [("type", VString "object");
                      ("properties",
                       VObject
                         [("role",
                           VObject
                             [("type", VString "string");
                              ("enum",
                               VArray [VString "system"; VString "user"; VString "assistant"])]);
                          ("content", VObject [("type", VString "string")])])]);
                  ("description", VString "Array of chat messages")]);
              ("model_id",
               VObject
                 [("type", VString "string");
                  ("description", VString "Chat model ID");
                  ("default", VString "ibm/granite-13b-chat-v2")]);
              ("max_new_tokens",
               VObject
                 [("type", VString "number");
                  ("default", VNumber 500)]);
              ("temperature",
               VObject
                 [("type", VString "number");
                  ("default", VNumber 0.7)])]);
          ("required", VArray [VString "messages"])])];
   VObject
     [("name", VString "key_protect_list_keys");
      ("description",
       VString "List encryption keys from IBM Key Protect (HSM-backed key management on IBM Z infrastructure)");
      ("inputSchema",
       VObject
         [("type", VString "object");
          ("properties",
           VObject
             [("limit",
               VObject
                 [("type", VString "number");
                  ("description", VString "Maximum number of keys to return");
                  ("default", VNumber 100)]);
              ("offset",
               VObject
                 [("type", VString "number");
                  ("description", VString "Offset for pagination");
                  ("default", VNumber 0)])])])];
   VObject
     [("name", VString "key_protect_create_key");
      ("description",
       VString "Create a new encryption key in IBM Key Protect (stored in FIPS 140-2 Level 3 HSM)");
      ("inputSchema",
       VObject
         [("type", VString "object");
          ("properties",
           VObject
             [("name",
               VObject
                 [("type", VString "string");
                  ("description", VString "Name for the new key")]);
              ("description",
               VObject
                 [("type", VString "string");
                  ("description", VString "Description of the key's purpose")]);
              ("type",
               VObject
                 [("type", VString "string");
                  ("enum", VArray [VString "root_key"; VString "standard_key"]);
                  ("description",
                   VString "Key type: root_key (for wrapping) or standard_key (for encryption)");
                  ("default", VString "standard_key")]);
              ("extractable",
               VObject
                 [("type", VString "boolean");
                  ("description", VString "Whether the key material can be extracted");
                  ("default", VBool false)])]);
          ("required", VArray [VString "name"])])];
   VObject
     [("name", VString "key_protect_get_key");
      ("description", VString "Get details of a specific key from IBM Key Protect");
      ("inputSchema",
       VObject
         [("type", VString "object");
          ("properties",
           VObject
             [("key_id",
               VObject
                 [("type", VString "string");
                  ("description", VString "The ID of the key to retrieve")])]);
          ("required", VArray [VString "key_id"])])];
   VObject
     [("name", VString "key_protect_wrap_key");
      ("description",
       VString "Wrap (encrypt) data using a root key in IBM Key Protect - for envelope encryption");
      ("inputSchema",
       VObject
         [("type", VString "object");
          ("properties",
           VObject
             [("key_id",
               VObject
                 [("type", VString "string");
                  ("description", VString "The ID of the root key to use for wrapping")]);
              ("plaintext",
               VObject
                 [("type", VString "string");
                  ("description", VString "Base64-encoded data encryption key to wrap")]);
              ("aad",
               VObject
                 [("type", VString "array");
                  ("items", VObject [("type", VString "string")]);
                  ("description",
                   VString "Additional authentication data (AAD) for AEAD encryption")])]);
          ("required", VArray [VString "key_id"; VString "plaintext"])])];
   VObject
     [("name", VString "key_protect_unwrap_key");
      ("description", VString "Unwrap (decrypt) data using a root key in IBM Key Protect");
      ("inputSchema",
       VObject
         [("type", VString "object");
          ("properties",
           VObject
             [("key_id",
               VObject
                 [("type", VString "string");
                  ("description", VString "The ID of the root key to use for unwrapping")]);
              ("ciphertext",
               VObject
                 [("type", VString "string");
                  ("description", VString "Base64-encoded wrapped data encryption key")]);
              ("aad",
               VObject
                 [("type", VString "array");
                  ("items", VObject [("type", VString "string")]);
                  ("description", VString "Additional authentication data (must match wrap AAD)")])]);
          ("required", VArray [VString "key_id"; VString "ciphertext"])])];
   VObject
     [("name", VString "key_protect_delete_key");
      ("description", VString "Delete an encryption key from IBM Key Protect (irreversible)");
      ("inputSchema",
       VObject
         [("type", VString "object");
          ("properties",
           VObject
             [("key_id",
               VObject
                 [("type", VString "string");
                  ("description", VString "The ID of the key to delete")]);
              ("force",
               VObject
                 [("type", VString "boolean");
                  ("description", VString "Force deletion even if key has associated resources");
                  ("default", VBool false)])]);
          ("required", VArray [VString "key_id"])])];
   VObject
     [("name", VString "zos_connect_list_services");
      ("description",
       VString "List available z/OS Connect services (RESTful APIs to mainframe programs). Requires ZOS_CONNECT_URL to be configured.");
      ("inputSchema",
       VObject
         [("type", VString "object");
          ("properties", VObject [])])];
   VObject
     [("name", VString "zos_connect_call_service");
      ("description",
       VString "Call a z/OS Connect service to interact with mainframe programs (CICS, IMS, batch). Requires ZOS_CONNECT_URL to be configured.");
      ("inputSchema",
       VObject
         [("type", VString "object");
          ("properties",
           VObject
             [("service_name",
               VObject
                 [("type", VString "string");
                  ("description", VString "Name of the z/OS Connect service to call")]);
              ("operation",
               VObject
                 [("type", VString "string");
                  ("description", VString "Operation/method to invoke (e.g., GET, POST)");
                  ("default", VString "POST")]);
              ("payload",
               VObject
                 [("type", VString "object");
                  ("description", VString "JSON payload to send to the mainframe service")])]);
          ("required", VArray [VString "service_name"])])];
   VObject
     [("name", VString "zos_connect_get_service_info");
      ("description",
       VString "Get detailed information about a z/OS Connect service including its OpenAPI specification");
      ("inputSchema",
       VObject
         [("type", VString "object");
          ("properties",
           VObject
             [("service_name",
               VObject
                 [("type", VString "string");
                  ("description", VString "Name of the z/OS Connect service")])]);
          ("required", VArray [VString "service_name"])])]].

Definition list_tools : value := VObject [("tools", VArray tools)].

(** [tool.name], for the tools of the list. *)
Definition name_of (tool : value) : string :=
  match get tool "name" with
  | Ok (VString name) => name
  | _ => ""
  end.

(** *** [getKeyProtectClient]: disabled, it returns [null]. *)
Definition getKeyProtectClient : value := VNull.

(** *** [callZosConnect]

    [fetch] resolves to a response or rejects; each call is recorded.
    [response.json()] is the parsed body, or a rejection. *)
Record Zos : Type := {
  ZOS_CONNECT_URL : string;
  ZOS_CONNECT_API_KEY : string
}.

Record Options : Type := {
  method : string;
  headers : list (string * string);
  body : option string
}.

Record Response : Type := {
  ok : bool;
  status : Z;
  statusText : string;
  json : result value
}.

Definition Fetch : Type := string -> Options -> result Response.

(** The requests made so far, oldest first. *)
Definition Network : Type := list (string * Options).

(** [method] is [undefined] when the caller leaves it out; [stringify] is
    the text [JSON.stringify(body)] writes for a truthy [body]. *)
Definition callZosConnect (cfg : Zos) (stringify : value -> string) (fetch : Fetch)
    (endpoint : string) (method : option string) (body : value) (sent : Network)
  : outcome value * Network :=
  if String.eqb (ZOS_CONNECT_URL cfg) "" then
    (Throws (Error "z/OS Connect not configured. Set ZOS_CONNECT_URL environment variable."),
     sent)
  else
    let method := match method with Some m => m | None => "GET" end in
    let url := ZOS_CONNECT_URL cfg ++ endpoint in
    let headers :=
      [("Content-Type", "application/json"); ("Accept", "application/json")] in
    let headers :=
      if String.eqb (ZOS_CONNECT_API_KEY cfg) "" then headers
      else List.app headers [("Authorization", "Bearer " ++ ZOS_CONNECT_API_KEY cfg)] in
    let options :=
      {| method := method;
         headers := headers;
         body := if truthy body && (String.eqb method "POST" || String.eqb method "PUT")
                 then Some (stringify body) else None |} in
    let sent := List.app sent [(url, options)] in
    match fetch url options with
    | Throw e => (Throws (Native e), sent)
    | Ok response =>
        if ok response then (native (json response), sent)
        else (Throws (Error ("z/OS Connect error: " ++ Str.of_Z (status response)
                               ++ " " ++ statusText response)), sent)
    end.

End McpTools.

(** ** The document analyzer script *)

Module DocumentAnalyzer.

Import Js Exception EmbeddingIndex.
Local Open Scope string_scope.
Local Open Scope seq_scope.

(** The script reads the same directory as the embedding index script and
    talks to the same service: it runs over the same [World] and [Host].
    The parameters of a request are fixed at each call site, so a request
    is known by its input. *)
Definition TRAINING_PATH : string := EXTERNAL_DRIVE ++ "/Code/AI/Training".

(** An [async] function of this script. *)
Definition A (T : Type) : Type := World -> outcome T * World.

#[export] Instance Sequencing_A : Sequencing A := {
  ret := fun T a w => (Returns a, w);
  bind := fun T U c k w =>
    match c w with
    | (Returns a, w') => k a w'
    | (Throws t, w') => (Throws t, w')
    end
}.

(** A step that the embedding index script has too. *)
Definition run {T : Type} (c : M T) : A T :=
  fun w => (native (fst (c w)), snd (c w)).

(** An expression that may throw. *)
Definition lift {T : Type} (r : result T) : A T := fun w => (native r, w).

(** [throw new Error(msg)]. *)
Definition throw_Error {T : Type} (msg : string) : A T := fun w => (Throws (Error msg), w).

Definition try_catch {T : Type} (body : A T) (handler : thrown -> A T) : A T :=
  fun w =>
    match body w with
    | (Returns a, w') => (Returns a, w')
    | (Throws t, w') => handler t w'
    end.

(** *** The three prompts *)

(** [text.length > limit ? text.substring(0, limit) + "..." : text]. *)
Definition excerpt (limit : nat) (text : string) : string :=
  if (limit <? String.length text)%nat then Str.substring0 limit text ++ "..." else text.

(** [response.result.results?.[0]?.generated_text?.trim() || ""]. *)
Definition generated (response : GenerateResponse) : string :=
  match generate_results response with
  | Some (item :: _) =>
      match generated_text item with
      | Some t => Str.trim t
      | None => ""
      end
  | _ => ""
  end.

Definition summarize_prompt (maxLength : nat) (truncatedText : string) : string :=
  "Summarize the following document in " ++ Str.of_nat maxLength
  ++ " words or less. Focus on the key points and main ideas."
  ++ Str.nl ++ Str.nl ++ "Document:" ++ Str.nl ++ truncatedText
  ++ Str.nl ++ Str.nl ++ "Summary:".

Definition summarizeDocument (h : Host) (text : string) (maxLength : nat) : A string :=
  if getClient h then
    let truncatedText := excerpt 4000 text in
    response <- run (request_generateText h (summarize_prompt maxLength truncatedText)) ;;
    ret (generated response)
  else throw_Error "watsonx client not initialized".

Definition analyze_prompt (truncatedText : string) : string :=
  "Analyze the following document and provide:"
  ++ Str.nl ++ "1. Document Type (e.g., technical documentation, article, notes, code, etc.)"
  ++ Str.nl ++ "2. Main Topics (comma-separated list of 3-5 topics)"
  ++ Str.nl ++ "3. Key Entities (people, organizations, technologies mentioned)"
  ++ Str.nl ++ "4. Sentiment (positive, negative, neutral)"
  ++ Str.nl ++ Str.nl ++ "Document:" ++ Str.nl ++ truncatedText
  ++ Str.nl ++ Str.nl ++ "Analysis:".

Definition analyzeDocument (h : Host) (text : string) : A string :=
  if getClient h then
    let truncatedText := excerpt 3000 text in
    response <- run (request_generateText h (analyze_prompt truncatedText)) ;;
    ret (generated response)
  else throw_Error "watsonx client not initialized".

Definition question_prompt (truncatedText question : string) : string :=
  "Based on the following document, answer the question."
  ++ Str.nl ++ Str.nl ++ "Document:" ++ Str.nl ++ truncatedText
  ++ Str.nl ++ Str.nl ++ "Question: " ++ question
  ++ Str.nl ++ Str.nl ++ "Answer:".

Definition questionDocument (h : Host) (text question : string) : A string :=
  if getClient h then
    let truncatedText := excerpt 3500 text in
    response <- run (request_generateText h (question_prompt truncatedText question)) ;;
    ret (generated response)
  else throw_Error "watsonx client not initialized".

(** *** [generateEmbeddings], with its guard *)

Definition generateEmbeddings (h : Host) (texts : list string) : A (list (list float)) :=
  if getClient h then
    response <- run (request_embedText h texts) ;;
    ret (match embed_results response with
         | Some results => map embedding results
         | None => []
         end)
  else throw_Error "watsonx client not initialized".

(** *** [semanticSearch] *)

(** A sample document, [{ filename, content }]. *)
Record Document : Type := { filename : string; content : string }.

(** A search result, [{ index, similarity, document: documents[index] }];
    [documents[index]] is [undefined] past the end of [documents]. *)
Record Hit : Type := { index : nat; similarity : float; document : option Document }.

(** [(a, b) => b.similarity - a.similarity], then the test [> 0]. *)
Definition by_similarity (a b : Hit) : bool :=
  PrimFloat.ltb 0 (similarity b - similarity a).

(** [documentEmbeddings.map((embedding, index) => ...)]: with no query
    vector, [cosineSimilarity] reads [a.length] of [undefined]. *)
Fixpoint hits (queryEmbedding : option (list float)) (documents : list Document)
    (i : nat) (documentEmbeddings : list (list float)) : result (list Hit) :=
  match documentEmbeddings with
  | [] => Ok []
  | embedding :: rest =>
      match queryEmbedding with
      | Some q =>
          match hits queryEmbedding documents (S i) rest with
          | Ok more =>
              Ok ({| index := i;
                     similarity := cosineSimilarity q embedding;
                     document := nth_error documents i |} :: more)
          | Throw e => Throw e
          end
      | None => Throw (TypeError "Cannot read properties of undefined (reading 'length')")
      end
  end.

Definition semanticSearch (h : Host) (query : string)
    (documentEmbeddings : list (list float)) (documents : list Document) (topK : Z)
  : A (list Hit) :=
  vectors <- generateEmbeddings h [query] ;;
  let queryEmbedding := hd_error vectors in
  similarities <- lift (hits queryEmbedding documents 0 documentEmbeddings) ;;
  ret (slice 0 topK (sort by_similarity similarities)).

(** *** [readSampleDocuments] *)

(** The loop [for (const file of txtFiles)]: a file that cannot be read
    is skipped. *)
Fixpoint read_samples (h : Host) (txtFiles : list string) (documents : list Document)
  : A (list Document) :=
  match txtFiles with
  | [] => ret documents
  | file :: rest =>
      documents' <- try_catch
                      (text <- run (readFile_document h file) ;;
                       ret (documents ++ [{| filename := file;
                                             content := Str.substring0 5000 text |}])%list)
                      (fun _ => ret documents) ;;
      read_samples h rest documents'
  end.

Definition readSampleDocuments (h : Host) (count : Z) : A (list Document) :=
  files <- run (readdir_documents h) ;;
  let txtFiles := slice 0 count (filter (fun f => Str.endsWith f ".txt") files) in
  read_samples h txtFiles [].

(** *** [loadDocumentCatalog]

    The catalog file is known by what [JSON.parse] makes of its text;
    [None] is a file that cannot be read. *)
Definition loadDocumentCatalog (catalog : option text) : A value :=
  match catalog with
  | Some data => lift (JSON_parse data)
  | None =>
      lift (Throw (SystemError ("ENOENT: no such file or directory, open '" ++ TRAINING_PATH
                                  ++ "/documents_catalog.json'")))
  end.

(** *** [main] *)

Definition put (line : string) : A unit := run (log line).

Fixpoint put_all (lines : list string) : A unit :=
  match lines with
  | [] => ret tt
  | line :: rest => put line ;; put_all rest
  end.

(** [items.forEach(callback)]. *)
Fixpoint for_each {T : Type} (callback : T -> nat -> A unit) (i : nat) (items : list T)
  : A unit :=
  match items with
  | [] => ret tt
  | x :: rest => callback x i ;; for_each callback (S i) rest
  end.

(** How [main] ends: it returns, or [process.exit(code)] stops the
    process; with it, the lines [console.error] printed. *)
Record Ending : Type := { exit_code : option Z; stderr : list string }.

Definition banner : list string :=
  ["‚ïî‚ïê‚ïê‚ïê‚ïê‚ïê‚ïê‚ïê‚ïê‚ïê‚ïê‚ïê‚ïê‚ïê‚ïê‚ïê‚ïê‚ïê‚ïê‚ïê‚ïê‚ïê‚ïê‚ïê‚ïê‚ïê‚ïê‚ïê‚ïê‚ïê‚ïê‚ïê‚ïê‚ïê‚ïê‚ïê‚ïê‚ïê‚ïê‚ïê‚ïê‚ïê‚ïê‚ïê‚ïê‚ïê‚ïê‚ïê‚ïê‚ïê‚ïê‚ïê‚ïê‚ïê‚ïê‚ïê‚ïê‚ïê‚ïê‚ïê‚ïê‚ïê‚ïê‚ïó";
   "‚ïë           watsonx Document Analyzer                          ‚ïë";
   "‚ïë           Powered by IBM Granite 3.3                         ‚ïë";
   "‚ïö‚ïê‚ïê‚ïê‚ïê‚ïê‚ïê‚ïê‚ïê‚ïê‚ïê‚ïê‚ïê‚ïê‚ïê‚ïê‚ïê‚ïê‚ïê‚ïê‚ïê‚ïê‚ïê‚ïê‚ïê‚ïê‚ïê‚ïê‚ïê‚ïê‚ïê‚ïê‚ïê‚ïê‚ïê‚ïê‚ïê‚ïê‚ïê‚ïê‚ïê‚ïê‚ïê‚ïê‚ïê‚ïê‚ïê‚ïê‚ïê‚ïê‚ïê‚ïê‚ïê‚ïê‚ïê‚ïê‚ïê‚ïê‚ïê‚ïê‚ïê‚ïê‚ïê‚ïù";
   ""].

Definition usage : list string :=
  ["Usage: document-analyzer.js <command> [args]";
   "";
   "Commands:";
   "  catalog              - List documents from training catalog";
   "  summarize [file]     - Summarize a document";
   "  analyze [file]       - Analyze document type and topics";
   "  question <file> <q>  - Ask a question about a document";
   "  embed                - Generate embeddings for sample docs";
   "  search <query>       - Semantic search across documents";
   "";
   "Examples:";
   "  document-analyzer.js summarize 1002519.txt";
   "  document-analyzer.js analyze 1002519.txt";
   "  document-analyzer.js question 1002519.txt 'What is this about?'";
   "  document-analyzer.js search 'IBM Cloud Satellite'"].

Definition dashes : string := "   " ++ Str.repeat "-" 60.

(** [const filename = arg || "1002519.txt"]. *)
Definition filename_or_default (arg : option string) : string :=
  match arg with
  | Some (String c name) => String c name
  | _ => "1002519.txt"
  end.

(** The block that prints a generated text between two rules. *)
Definition put_block (title text : string) : A unit :=
  put title ;;
  put dashes ;;
  put ("   " ++ Str.join (Str.nl ++ "   ") (Str.split_lines text)) ;;
  put dashes.

(** [try { ... } catch (err) { console.error(`   Error: ${err.message}`) }]:
    the lines printed on the error stream. Reading [err.message] can
    throw in its turn, outside the [try]. *)
Definition reporting (h : Host) (body : A unit) : A (list string) :=
  try_catch (body ;; ret [])
    (fun err =>
       message <- lift (message_of err) ;;
       ret ["   Error: " ++ to_string (ToString h) message]).

Definition main_summarize (h : Host) (arg : option string) : A (list string) :=
  let filename := filename_or_default arg in
  put ("üìù Summarizing: " ++ filename) ;;
  reporting h
    (text <- run (readFile_document h filename) ;;
     put ("   Document length: " ++ Str.of_nat (String.length text) ++ " characters") ;;
     put (Str.nl ++ "   Generating summary with watsonx..." ++ Str.nl) ;;
     summary <- summarizeDocument h text 200 ;;
     put_block "   Summary:" summary).

Definition main_analyze (h : Host) (arg : option string) : A (list string) :=
  let filename := filename_or_default arg in
  put ("üîç Analyzing: " ++ filename) ;;
  reporting h
    (text <- run (readFile_document h filename) ;;
     put ("   Document length: " ++ Str.of_nat (String.length text) ++ " characters") ;;
     put (Str.nl ++ "   Analyzing with watsonx..." ++ Str.nl) ;;
     analysis <- analyzeDocument h text ;;
     put_block "   Analysis:" analysis).

(** The [question] case, once both arguments are known to be there. *)
Definition main_question (h : Host) (filename question : string) : A (list string) :=
  put ("‚ùì Asking question about: " ++ filename) ;;
  put ("   Question: " ++ question) ;;
  reporting h
    (text <- run (readFile_document h filename) ;;
     put (Str.nl ++ "   Answering with watsonx..." ++ Str.nl) ;;
     answer <- questionDocument h text question ;;
     put_block "   Answer:" answer).

(** [docs.map((d) => d.content.substring(0, 500))]. *)
Definition texts_of (docs : list Document) : list string :=
  map (fun d => Str.substring0 500 (content d)) docs.

(** [embeddings[i]?.length || 0]. *)
Definition dimensions (embeddings : list (list float)) (i : nat) : nat :=
  match nth_error embeddings i with
  | Some v => List.length v
  | None => 0
  end.

Definition main_embed (h : Host) : A unit :=
  put "üî¢ Generating embeddings for sample documents..." ;;
  docs <- readSampleDocuments h 5 ;;
  put ("   Loaded " ++ Str.of_nat (List.length docs) ++ " documents") ;;
  let texts := texts_of docs in
  put "   Generating embeddings with watsonx..." ;;
  embeddings <- generateEmbeddings h texts ;;
  put (Str.nl ++ "   Embeddings generated:") ;;
  for_each (fun doc i =>
              put ("   - " ++ filename doc ++ ": " ++ Str.of_nat (dimensions embeddings i)
                     ++ " dimensions"))
           0 docs.

(** The two lines [main] prints for a result; [r.document] is [undefined]
    when the service returned more vectors than there are documents. *)
Definition put_hit (h : Host) (r : Hit) (i : nat) : A unit :=
  match document r with
  | Some d =>
      put ("   " ++ Str.of_nat (i + 1) ++ ". " ++ filename d
             ++ " (similarity: " ++ toFixed h (similarity r) 4 ++ ")") ;;
      put ("      " ++ Str.replace_newlines (Str.substring0 100 (content d)) ++ "...")
  | None => lift (Throw (TypeError "Cannot read properties of undefined (reading 'filename')"))
  end.

(** The [search] case, once [arg] is known to be a query. *)
Definition main_search (h : Host) (query : string) : A unit :=
  put ("üîç Semantic search: " ++ Str.quote ++ query ++ Str.quote) ;;
  put "   Loading sample documents..." ;;
  docs <- readSampleDocuments h 20 ;;
  put ("   Loaded " ++ Str.of_nat (List.length docs) ++ " documents") ;;
  put "   Generating embeddings..." ;;
  let texts := texts_of docs in
  embeddings <- generateEmbeddings h texts ;;
  put ("   Searching..." ++ Str.nl) ;;
  results <- semanticSearch h query embeddings docs 5 ;;
  put "   Top results:" ;;
  for_each (put_hit h) 0 results.

(** [catalog.documents.slice(0, 10)], on which [forEach] is called. *)
Definition first_ten (documents : value) : result (list value) :=
  match documents with
  | VArray items => Ok (slice 0 10 items)
  | VUndefined | VNull =>
      Throw (TypeError ("Cannot read properties of " ++ nullish_name documents
                          ++ " (reading 'slice')"))
  | VString _ => Throw (TypeError "catalog.documents.slice(...).forEach is not a function")
  | _ => Throw (TypeError "catalog.documents.slice is not a function")
  end.

Definition main_catalog (h : Host) (catalog : option text) : A unit :=
  put "üìö Loading document catalog..." ;;
  catalog <- loadDocumentCatalog catalog ;;
  total <- lift (get catalog "total") ;;
  put ("   Total documents: " ++ to_string (ToString h) total) ;;
  put "   Sample documents:" ;;
  documents <- lift (get catalog "documents") ;;
  items <- lift (first_ten documents) ;;
  for_each (fun doc _ =>
              name <- lift (get doc "filename") ;;
              type <- lift (get doc "type") ;;
              size <- lift (get doc "size_bytes") ;;
              put ("   - " ++ to_string (ToString h) name ++ " ("
                     ++ to_string (ToString h) type ++ ", "
                     ++ to_string (ToString h) size ++ " bytes)"))
           0 items.

Definition is_command (command : option string) (name : string) : bool :=
  match command with
  | Some c => String.eqb c name
  | None => false
  end.

Definition returned (errors : list string) : Ending :=
  {| exit_code := None; stderr := errors |}.

Definition exited (code : Z) : Ending := {| exit_code := Some code; stderr := [] |}.

(** [process.argv[2]], [process.argv[3]] and [process.argv[4]] are strings,
    or [undefined] when absent. *)
Definition main (h : Host) (catalog : option text) (command arg question : option string)
  : A Ending :=
  put_all banner ;;
  if String.eqb (WATSONX_API_KEY h) "" || String.eqb (WATSONX_SPACE_ID h) "" then
    ret {| exit_code := Some 1%Z;
           stderr := ["Error: WATSONX_API_KEY and WATSONX_SPACE_ID must be set"] |}
  else if is_command command "catalog" then
    main_catalog h catalog ;; ret (returned [])
  else if is_command command "summarize" then
    errors <- main_summarize h arg ;; ret (returned errors)
  else if is_command command "analyze" then
    errors <- main_analyze h arg ;; ret (returned errors)
  else if is_command command "question" then
    match arg, question with
    | Some (String c name), Some (String c' q) =>
        errors <- main_question h (String c name) (String c' q) ;; ret (returned errors)
    | _, _ =>
        put "Usage: document-analyzer.js question <filename> '<question>'" ;;
        ret (exited 1)
    end
  else if is_command command "embed" then
    main_embed h ;; ret (returned [])
  else if is_command command "search" then
    match arg with
    | Some (String c query) => main_search h (String c query) ;; ret (returned [])
    | _ => put "Usage: document-analyzer.js search '<query>'" ;; ret (exited 1)
    end
  else
    put_all usage ;; ret (returned []).

End DocumentAnalyzer.

(** ** The vocabulary of the properties *)

Module Vocabulary.

Import Js EmbeddingIndex.
Local Open Scope string_scope.

(** *** Similarity *)

(** The state of the loop of [cosineSimilarity] with the operands
    exchanged. *)
Definition swap_norms (acc : float * float * float) : float * float * float :=
  let '(dot, normA, normB) := acc in (dot, normB, normA).

(** *** The index *)

(** The two arrays of an index. *)
Definition arrays (index : value) (documents embeddings : list value) : Prop :=
  get index "documents" = Ok (VArray documents) /\
  get index "embeddings" = Ok (VArray embeddings).

(** The invariant of the data model: as many embeddings as documents. *)
Definition aligned (index : value) : Prop :=
  exists documents embeddings,
    arrays index documents embeddings /\
    List.length documents = List.length embeddings.

(** The index has zero documents: there is no index file, or it does not
    parse, or its [documents] is the empty array. *)
Definition zero_documents (w : World) : Prop :=
  index_file w = None \/
  index_file w = Some Unparsable \/
  exists index, index_file w = Some (Parses index) /\ get index "documents" = Ok (VArray []).

(** The index [buildIndex] holds once [saveIndex] has stamped it. *)
Definition built_index (documents embeddings : list value) (created updated : string)
  : value :=
  VObject [("documents", VArray documents);
           ("embeddings", VArray embeddings);
           ("metadata", VObject [("created", VString created);
                                 ("updated", VString updated);
                                 ("count", VNumber (Number.of_nat (List.length documents)))])].

(** The properties of the JSON image of an object. *)
Definition json_fields (fields : list (string * value)) : list (string * value) :=
  flat_map (fun p => match snd p with
                     | VUndefined => []
                     | _ => [(fst p, jsonify (snd p))]
                     end) fields.

(** *** Requests and builds *)

(** [sends w w' sent]: between [w] and [w'] the requests [sent] went to
    the embedding endpoint, in this order, and none went to the
    text-generation endpoint. *)
Definition sends (w w' : World) (sent : list (list string)) : Prop :=
  embed_requests w' = (embed_requests w ++ sent)%list /\
  generate_requests w' = generate_requests w.

(** A text of at most 500 code units. *)
Definition within_budget (t : string) : Prop := String.length t <= 500.

(** The files [buildIndex] considers. *)
Definition txtFiles_of (entries : list (string * option string)) (maxDocs : Z) : list string :=
  slice 0 maxDocs (filter (fun f => Str.endsWith f ".txt") (map fst entries)).

(** The number of files in the batch that starts at [i]. *)
Definition batch_length (txtFiles : list string) (i : nat) : nat :=
  List.length (slice (Z.of_nat i) (Z.of_nat (i + batchSize)) txtFiles).

(** What a run of the loop adds to the two arrays. *)
Definition grows (acc acc' : list value * list value) (bound : nat) : Prop :=
  exists docs embs,
    acc' = ((fst acc ++ docs)%list, (snd acc ++ embs)%list) /\
    List.length docs = List.length embs /\
    List.length docs <= bound.

(** *** Search results *)

(** Descending order of an integer rank. *)
Definition descending {A : Type} (rank : A -> Z) (x y : A) : Prop := (rank y <= rank x)%Z.

(** The result for the document at index [i]:
    [{ ...documents[i], similarity }]. *)
Definition entry (documents : list value) (vectors : list (list float)) (q : list float)
    (i : nat) : value :=
  VObject (assign "similarity" (VNumber (cosineSimilarity q (nth i vectors [])))
             (spread (nth i documents VUndefined))).

(** [result_b.similarity <= result_a.similarity]. *)
Definition at_least (a b : value) : Prop :=
  PrimFloat.leb (similarity b) (similarity a) = true.

(** The comparator and the rank of the results, by index. *)
Definition result_after (documents : list value) (vectors : list (list float))
    (q : list float) (i j : nat) : bool :=
  by_similarity (entry documents vectors q i) (entry documents vectors q j).

Definition result_rank (documents : list value) (vectors : list (list float))
    (q : list float) (i : nat) : Z :=
  Number.key (similarity (entry documents vectors q i)).

(** The indices of the stored vectors, best first. *)
Definition ranking (documents : list value) (vectors : list (list float)) (q : list float)
  : list nat :=
  sort (result_after documents vectors q) (seq 0 (List.length vectors)).

(** *** The handler *)

(** A thrown value whose [message] a [catch] block can read: every value
    but [null] and [undefined]. *)
Definition has_message (e : error) : Prop := exists m, read_message e = Ok m.

(** An expression that throws such values only. *)
Definition raises_message {A : Type} (r : result A) : Prop :=
  match r with
  | Ok _ => True
  | Throw e => has_message e
  end.

(** A client whose calls reject with such values only. *)
Definition rejects_with_message (client : McpServer.Client) : Prop :=
  forall params,
    raises_message (McpServer.generateText client params) /\
    raises_message (McpServer.listFoundationModelSpecs client params) /\
    raises_message (McpServer.embedText client params).

(** What the [try] block of the handler does over such a client: it
    returns a text result, or throws a value with a message. *)
Definition text_or_message (r : result McpServer.CallToolResult) : Prop :=
  match r with
  | Ok response => exists t, response = McpServer.text_content t
  | Throw e => has_message e
  end.

End Vocabulary.

(** ** Scenarios: concrete hosts, worlds and indexes *)

Module Scenarios.

Import Js EmbeddingIndex Vocabulary.
Local Open Scope string_scope.

(** A clock that prints the number of the read in the seconds. *)
Definition timestamp (n : nat) : string := "2025-01-01T00:00:0" ++ Str.of_nat n ++ ".000Z".

(** A world with no index file. *)
Definition no_index_yet : World :=
  {| index_file := None; console := []; embed_requests := [];
     generate_requests := []; clock := 0 |}.

(** A world whose index file holds [index]. *)
Definition indexed (index : value) : World :=
  {| index_file := Some (Parses index); console := []; embed_requests := [];
     generate_requests := []; clock := 0 |}.

(** A host over the directory [entries], whose service answers an
    embedding request with [answer]. *)
Definition host (entries : list (string * option string))
    (answer : list string -> EmbedResponse) : Host :=
  {| WATSONX_API_KEY := "key";
     WATSONX_SPACE_ID := "space";
     documents_dir := Some entries;
     now := timestamp;
     embedText := fun _ texts => Ok (answer texts);
     generateText := fun _ _ => Ok {| generate_results := None |};
     ToNumber := fun _ => PrimFloat.nan;
     ToString := fun _ => "[object Object]";
     toFixed := fun _ _ => "0.0000" |}.

(** The service returns the vector [q] for every text. *)
Definition each (q : list float) (texts : list string) : EmbedResponse :=
  {| embed_results := Some (map (fun _ => {| embedding := q |}) texts) |}.

(** The service returns no vector. *)
Definition none (texts : list string) : EmbedResponse := {| embed_results := None |}.

Definition quiet_host : Host := host [] none.

(** A directory with a file that is not a text file and a text file that
    cannot be read. *)
Definition empty_directory : Host :=
  host [("notes.md", Some "not a text file"); ("locked.txt", None)] (each [1; 0]%float).

(** A directory with one readable text file. *)
Definition one_file : Host := host [("a.txt", Some "alpha")] (each [1; 0]%float).

(** The same directory, with a service that returns no vector. *)
Definition without_vectors : Host := host [("a.txt", Some "alpha")] none.

(** A service that answers every query with the vector [q]. *)
Definition answering (q : list float) : Host := host [] (each q).

(** An index of one document: before [saveIndex], and after. *)
Definition freshly_built : value :=
  VObject [("documents", VArray [VObject [("filename", VString "a.txt");
                                          ("preview", VString "alpha");
                                          ("length", VNumber 5)]]);
           ("embeddings", VArray [vector [1; 0]%float]);
           ("metadata", VObject [("created", VString "2025-01-01T00:00:00.000Z")])].

Definition one_document : value :=
  built_index
    [VObject [("filename", VString "a.txt"); ("preview", VString "alpha");
              ("length", VNumber 5)]]
    [vector [1; 0]%float]
    "2025-01-01T00:00:00.000Z" "2025-01-01T00:00:01.000Z".

Definition after_save : World :=
  written (JSON_stringify one_document) (ticked (ticked no_index_yet)).

(** A query of 501 code units. *)
Definition long_query : string := Str.repeat "a" 501.

(** An index file with one document and no embedding. *)
Definition misaligned : value :=
  VObject [("documents", VArray [VObject [("filename", VString "a.txt")]]);
           ("embeddings", VArray []);
           ("metadata", VObject [])].

(** The index [buildIndex] holds, before [saveIndex], when the service
    returned no vector for its one document. *)
Definition missing_vector : value :=
  VObject [("documents", VArray [document_entry "a.txt" "alpha"]);
           ("embeddings", VArray [VUndefined]);
           ("metadata", VObject [("created", VString "2025-01-01T00:00:00.000Z")])].

(** The scenario of the specification: three documents with embeddings
    [[1,0]], [[0,1]] and [[0.9,0.1]], and a query whose embedding is
    [[1,0]]. *)
Definition named (name : string) : value := VObject [("filename", VString name)].

Definition three_documents : list value := [named "first"; named "second"; named "third"].

Definition three_vectors : list (list float) := [[1; 0]; [0; 1]; [0.9; 0.1]]%float.

Definition three_fields : list (string * value) :=
  [("documents", VArray three_documents);
   ("embeddings", VArray (map vector three_vectors));
   ("metadata", VObject [])].

Definition three_indexed : World := indexed (VObject three_fields).

(** An index whose first vector has norm zero. *)
Definition zero_then_unit : World :=
  indexed
    (VObject [("documents", VArray [named "zero"; named "unit"]);
              ("embeddings", VArray (map vector [[0; 0]; [1; 0]]%float));
              ("metadata", VObject [])]).

(** The handler: a configuration, the host's conversions, a client whose
    calls are all rejected, and a client that resolves every call to
    [response]. *)
Definition configured : McpServer.Config :=
  {| McpServer.WATSONX_API_KEY := "key";
     McpServer.WATSONX_PROJECT_ID := "";
     McpServer.WATSONX_SPACE_ID := "space" |}.

Definition unconfigured : McpServer.Config :=
  {| McpServer.WATSONX_API_KEY := "";
     McpServer.WATSONX_PROJECT_ID := "";
     McpServer.WATSONX_SPACE_ID := "" |}.

Definition plain : McpServer.Builtins :=
  {| McpServer.ToString := fun _ => "[object Object]";
     McpServer.stringify := fun _ => "{}" |}.

Definition failing : McpServer.Client :=
  {| McpServer.generateText := fun _ => Throw (ServiceError "Unauthorized");
     McpServer.listFoundationModelSpecs := fun _ => Throw (ServiceError "Unauthorized");
     McpServer.embedText := fun _ => Throw (ServiceError "Unauthorized") |}.

Definition resolving (response : value) : McpServer.Client :=
  {| McpServer.generateText := fun _ => Ok response;
     McpServer.listFoundationModelSpecs := fun _ => Ok response;
     McpServer.embedText := fun _ => Ok response |}.

End Scenarios.

(** ** The vocabulary of the further properties: the embedding index *)

Module IndexVocabulary.

Import Js EmbeddingIndex Vocabulary.
Local Open Scope string_scope.

(** *** Numbers *)

(** [x === 0]: either zero. *)
Definition is_zero (x : float) : bool := PrimFloat.eqb x 0.

(** A zero or NaN: what a product with a zero can be. *)
Definition zero_or_NaN (x : spec_float) : Prop :=
  match x with
  | S754_zero _ | S754_nan => True
  | _ => False
  end.

(** *** What a build reads and sends *)

(** The files of [files] that can be read, each with its content. *)
Definition readable (entries : list (string * option string)) (files : list string)
  : list (string * string) :=
  flat_map (fun f => match find_file f entries with
                     | Some content => [(f, content)]
                     | None => []
                     end) files.

(** The texts and the entries [buildIndex] makes of the files it read. *)
Definition texts_for (read : list (string * string)) : list string :=
  map (fun p => Str.substring0 500 (snd p)) read.

Definition entries_for (read : list (string * string)) : list value :=
  map (fun p => document_entry (fst p) (snd p)) read.

(** The batch that starts at [i]. *)
Definition batch_at (txtFiles : list string) (i : nat) : list string :=
  slice (Z.of_nat i) (Z.of_nat (i + batchSize)) txtFiles.

(** The request of a batch: none when no file of the batch can be read. *)
Definition request_of (entries : list (string * option string)) (batch : list string)
  : list (list string) :=
  match texts_for (readable entries batch) with
  | [] => []
  | texts => [texts]
  end.

(** The requests of a build, in order. *)
Definition requests_of (entries : list (string * option string)) (txtFiles : list string)
  : list (list string) :=
  flat_map (fun i => request_of entries (batch_at txtFiles i))
           (batch_starts (List.length txtFiles)).

(** Every embedding is a vector of the service. *)
Definition vectors_only (embeddings : list value) : Prop :=
  exists vectors : list (list float), embeddings = map vector vectors.

(** The service answers every request with one vector per text. *)
Definition one_vector_per_text (h : Host) : Prop :=
  forall w texts, exists items,
    embedText h w texts = Ok {| embed_results := Some items |} /\
    List.length items = List.length texts.

(** *** What a run leaves behind *)

(** [untouched w w']: nothing was sent and the index file is as it was. *)
Definition untouched (w w' : World) : Prop :=
  index_file w' = index_file w /\
  embed_requests w' = embed_requests w /\
  generate_requests w' = generate_requests w.

(** [searched query w w']: the index file is as it was, nothing went to the
    text-generation endpoint, and at most one request went to the
    embedding endpoint, holding the query alone. *)
Definition searched (query : string) (w w' : World) : Prop :=
  index_file w' = index_file w /\
  generate_requests w' = generate_requests w /\
  (embed_requests w' = embed_requests w \/
   embed_requests w' = (embed_requests w ++ [[query]])%list).

(** [printing w w' n]: [untouched], and at most [n] lines were printed. *)
Definition printing (w w' : World) (n : nat) : Prop :=
  index_file w' = index_file w /\
  embed_requests w' = embed_requests w /\
  generate_requests w' = generate_requests w /\
  List.length (console w') <= List.length (console w) + n.

(** *** Prompts *)

(** A context of at most 1500 code units. *)
Definition within_context (c : Context) : Prop := String.length (context_content c) <= 1500.

(** [contextText], as [ragQuery] joins it. *)
Definition context_text (h : Host) (contexts : list Context) : string :=
  Str.join (Str.nl ++ Str.nl ++ "---" ++ Str.nl ++ Str.nl) (map (context_block h) contexts).

(** *** The command line *)

(** [!arg]. *)
Definition absent (arg : option string) : Prop := arg = None \/ arg = Some "".

(** The commands [main] has a case for. *)
Definition known_commands : list string := ["build"; "search"; "rag"; "stats"].

End IndexVocabulary.

(** ** The vocabulary of the further properties: the MCP server *)

Module ServerVocabulary.

Import Js McpServer McpTools.
Local Open Scope string_scope.

(** The tools the handler has a case for, and the tools the server lists. *)
Definition implemented : list string :=
  ["watsonx_generate"; "watsonx_list_models"; "watsonx_embeddings"; "watsonx_chat"].

Definition listed : list string := map name_of tools.

(** The default the tool list advertises for a parameter of a tool:
    [tool.inputSchema.properties[param].default]. *)
Definition advertised_default (tool : value) (param : string) : option value :=
  match get tool "inputSchema" with
  | Ok schema =>
      match get schema "properties" with
      | Ok (VObject properties) =>
          match lookup param properties with
          | Some (VObject property) => lookup "default" property
          | _ => None
          end
      | _ => None
      end
  | _ => None
  end.

(** [same_but k d args args']: [args'] passes [d] for the parameter [k];
    [args] passes a falsy value for it, or leaves it out; they agree on
    everything else. *)
Definition same_but (k : string) (d : value) (args args' : value) : Prop :=
  exists fields,
    args' = VObject (assign k d fields) /\
    ((exists v, truthy v = false /\ args = VObject (assign k v fields)) \/
     (lookup k fields = None /\ args = VObject fields)).

(** The configuration with the project id unset. *)
Definition without_project (cfg : Config) : Config :=
  {| WATSONX_API_KEY := WATSONX_API_KEY cfg;
     WATSONX_PROJECT_ID := "";
     WATSONX_SPACE_ID := WATSONX_SPACE_ID cfg |}.

(** A client whose calls are all rejected with [e]. *)
Definition rejecting (e : error) : Client :=
  {| generateText := fun _ => Throw e;
     listFoundationModelSpecs := fun _ => Throw e;
     embedText := fun _ => Throw e |}.

End ServerVocabulary.

(** ** The vocabulary of the further properties: the document analyzer *)

Module AnalyzerVocabulary.

Import Js Exception EmbeddingIndex DocumentAnalyzer IndexVocabulary.
Local Open Scope string_scope.

(** The sample [readSampleDocuments] makes of the files it read. *)
Definition samples_of (read : list (string * string)) : list Document :=
  map (fun p => {| filename := fst p; content := Str.substring0 5000 (snd p) |}) read.

(** The result for the vector at index [i]. *)
Definition hit_at (documents : list Document) (vectors : list (list float)) (q : list float)
    (i : nat) : Hit :=
  {| index := i;
     similarity := cosineSimilarity q (nth i vectors []);
     document := nth_error documents i |}.

(** [b.similarity <= a.similarity]. *)
Definition ranks_above (a b : Hit) : Prop :=
  PrimFloat.leb (similarity b) (similarity a) = true.

(** [asked w w']: from [w] to [w'] at most one request went to the
    text-generation endpoint, none to the embedding endpoint, and the
    index file is as it was. *)
Definition asked (w w' : World) : Prop :=
  index_file w' = index_file w /\
  embed_requests w' = embed_requests w /\
  (generate_requests w' = generate_requests w \/
   exists prompt, generate_requests w' = List.app (generate_requests w) [prompt]).

(** The service rejected a request with [v]. *)
Definition rejected_with (h : Host) (v : value) : Prop :=
  exists w prompt, generateText h w prompt = Throw (Other v).

(** The body of a command: it asks at most once; when the file cannot be
    read it throws the error of the file system and asks nothing; a
    thrown value that is not an Error object is a rejection of the
    service. *)
Definition reads_then_asks (h : Host) (file : string) (body : A unit) : Prop :=
  forall w,
  exists r w',
    body w = (r, w') /\
    asked w w' /\
    (forall e, readFile_document h file w = (Throw e, w) ->
               r = Throws (Native e) /\ untouched w w') /\
    (forall v, r = Throws (Native (Other v)) -> rejected_with h v).

(** A command that reports its errors: after at most one request it
    returns with at most one line for the error stream, unless the
    service rejected the request with [null] or [undefined]: reading the
    [message] of that value throws, and the [TypeError] escapes the
    command. When the file cannot be read the command returns, the line
    carries the message of the file system, and nothing was asked. *)
Definition reports (h : Host) (file : string) (command : A (list string)) : Prop :=
  forall w,
  exists r w',
    command w = (r, w') /\
    asked w w' /\
    match r with
    | Returns errors => List.length errors <= 1
    | Throws t =>
        exists v,
          rejected_with h v /\ is_nullish v = true /\
          t = Native (TypeError ("Cannot read properties of " ++ nullish_name v
                                   ++ " (reading 'message')"))
    end /\
    (forall e : error_object,
       readFile_document h file w = (Throw e, w) ->
       r = Returns ["   Error: " ++ message e] /\ untouched w w').

End AnalyzerVocabulary.

(** ** Further scenarios *)

Module FurtherScenarios.

Import Js EmbeddingIndex Vocabulary Scenarios.
Local Open Scope string_scope.

(** A host whose documents directory cannot be listed. *)
Definition unlisted : Host :=
  {| WATSONX_API_KEY := "key";
     WATSONX_SPACE_ID := "space";
     documents_dir := None;
     now := timestamp;
     embedText := fun _ texts => Ok (each [1; 0]%float texts);
     generateText := fun _ _ => Ok {| generate_results := None |};
     ToNumber := fun _ => PrimFloat.nan;
     ToString := fun _ => "[object Object]";
     toFixed := fun _ _ => "0.0000" |}.

(** A host with no API key. *)
Definition keyless : Host :=
  {| WATSONX_API_KEY := "";
     WATSONX_SPACE_ID := "space";
     documents_dir := Some [];
     now := timestamp;
     embedText := fun _ texts => Ok (each [1; 0]%float texts);
     generateText := fun _ _ => Ok {| generate_results := None |};
     ToNumber := fun _ => PrimFloat.nan;
     ToString := fun _ => "[object Object]";
     toFixed := fun _ _ => "0.0000" |}.

(** A directory with one readable text file and a service that rejects
    every text-generation request with [null]. *)
Definition rejecting_null : Host :=
  {| WATSONX_API_KEY := "key";
     WATSONX_SPACE_ID := "space";
     documents_dir := Some [("a.txt", Some "alpha")];
     now := timestamp;
     embedText := fun _ texts => Ok (each [1; 0]%float texts);
     generateText := fun _ _ => Throw (Other VNull);
     ToNumber := fun _ => PrimFloat.nan;
     ToString := fun _ => "[object Object]";
     toFixed := fun _ _ => "0.0000" |}.

(** Two sample documents and their vectors. *)
Definition two_samples : list DocumentAnalyzer.Document :=
  [{| DocumentAnalyzer.filename := "a.txt"; DocumentAnalyzer.content := "alpha" |};
   {| DocumentAnalyzer.filename := "b.txt"; DocumentAnalyzer.content := "beta" |}].

Definition two_vectors : list (list float) := [[0; 1]; [1; 0]]%float.

End FurtherScenarios.

(* ===================================================================== *)
(** * Part II: properties *)
(* ===================================================================== *)

(** ** Facts about binary64 arithmetic

    What the sort comparator needs: on numbers other than NaN, comparison
    is the order of the integers [Number.key], and the sign of a
    difference [y - x] is the sign of the exact difference, since
    rounding never turns a non-zero result into zero. *)

Module NumberFacts.

Import Number.
Local Open Scope Z_scope.

Lemma digits2_pos_size (m : positive) : digits2_pos m = Pos.size m.
Proof. induction m; simpl; congruence. Qed.

Lemma digits_upper (m : positive) : Z.pos m < 2 ^ Z.pos (digits2_pos m).
Proof.
  rewrite digits2_pos_size.
  pose proof (Pos.size_gt m) as H.
  apply Pos2Z.pos_lt_pos in H. now rewrite Pos2Z.inj_pow in H.
Qed.

Lemma digits_lower (m : positive) : 2 ^ (Z.pos (digits2_pos m) - 1) <= Z.pos m.
Proof.
  rewrite digits2_pos_size.
  pose proof (Pos.size_le m) as H.
  apply Pos2Z.pos_le_pos in H. rewrite Pos2Z.inj_pow in H.
  replace (Z.pos (Pos.size m)) with (Z.succ (Z.pos (Pos.size m) - 1)) in H by lia.
  rewrite Z.pow_succ_r in H by lia. lia.
Qed.

Lemma iter_xO (d m : positive) : Z.pos (Pos.iter xO m d) = Z.pos m * 2 ^ Z.pos d.
Proof.
  induction d as [|d IH] using Pos.peano_ind.
  - simpl. lia.
  - rewrite Pos.iter_succ, Pos2Z.inj_xO, IH, Pos2Z.inj_succ, Z.pow_succ_r by lia. lia.
Qed.

(** The mantissa an operand contributes once aligned on a smaller exponent. *)
Lemma shl_align_fst (m : positive) (e ez : Z) :
  ez <= e -> Z.pos (fst (shl_align m e ez)) = Z.pos m * 2 ^ (e - ez).
Proof.
  intros Hle. unfold shl_align.
  destruct (ez - e) as [|d|d] eqn:E; cbn [fst].
  - replace (e - ez) with 0 by lia. rewrite Z.pow_0_r. lia.
  - lia.
  - rewrite iter_xO. f_equal. f_equal. lia.
Qed.

Lemma shl_align_snd (m : positive) (e ez : Z) :
  snd (shl_align m e ez) = Z.min e ez.
Proof.
  unfold shl_align. destruct (ez - e) as [|d|d] eqn:E; cbn [snd]; lia.
Qed.

Lemma shr_1_m (mrs : shr_record) :
  0 <= shr_m mrs -> shr_m (shr_1 mrs) = shr_m mrs / 2.
Proof.
  destruct mrs as [m r s]; simpl. intros Hm.
  destruct m as [|p|p]; try lia; simpl.
  - reflexivity.
  - destruct p; simpl.
    + rewrite Pos2Z.inj_xI. apply Z.div_unique with (r := 1); lia.
    + rewrite Pos2Z.inj_xO. apply Z.div_unique with (r := 0); lia.
    + reflexivity.
Qed.

Lemma iter_shr_1_m (p : positive) :
  forall mrs, 0 <= shr_m mrs ->
    shr_m (iter_pos shr_1 p mrs) = shr_m mrs / 2 ^ Z.pos p.
Proof.
  assert (Hpow : forall k, 0 < 2 ^ Z.pos k) by (intros; apply Z.pow_pos_nonneg; lia).
  assert (Hnn : forall m k, 0 <= m -> 0 <= m / 2 ^ Z.pos k).
  { intros m k Hm. apply Z.div_pos; [assumption | apply Hpow]. }
  induction p as [p IH|p IH|]; intros mrs Hm; cbn [iter_pos].
  - assert (H1 : 0 <= shr_m (shr_1 mrs)).
    { rewrite shr_1_m by assumption. apply Z.div_pos; lia. }
    assert (H2 : 0 <= shr_m (iter_pos shr_1 p (shr_1 mrs))).
    { rewrite IH by assumption. now apply Hnn. }
    rewrite IH, IH, shr_1_m by assumption.
    specialize (Hpow p).
    rewrite !Z.div_div by lia.
    f_equal. replace (Z.pos p~1) with (1 + Z.pos p + Z.pos p) by lia.
    rewrite !Z.pow_add_r by lia. lia.
  - assert (H2 : 0 <= shr_m (iter_pos shr_1 p mrs)).
    { rewrite IH by assumption. now apply Hnn. }
    rewrite IH, IH by assumption.
    specialize (Hpow p).
    rewrite !Z.div_div by lia.
    f_equal. replace (Z.pos p~0) with (Z.pos p + Z.pos p) by lia.
    rewrite !Z.pow_add_r by lia. lia.
  - rewrite shr_1_m by assumption. reflexivity.
Qed.


Ltac unfold_format := unfold emin, fexp, SpecFloat.emin, prec, emax in *.

Lemma shr_fexp_pos (m e : Z) (l : location) :
  0 < m -> emin <= e ->
  0 < shr_m (fst (shr_fexp prec emax m e l)) /\ emin <= snd (shr_fexp prec emax m e l).
Proof.
  intros Hm He. unfold shr_fexp, shr.
  destruct m as [|p|p]; try lia. cbn [Zdigits2].
  assert (Hloc : shr_m (shr_record_of_loc (Z.pos p) l) = Z.pos p)
    by (destruct l as [|[]]; reflexivity).
  destruct (fexp prec emax (Z.pos (digits2_pos p) + e) - e) as [|k|k] eqn:En;
    cbn [fst snd]; rewrite ?Hloc; try lia.
  rewrite iter_shr_1_m by lia. rewrite Hloc.
  assert (Hk : Z.pos k <= Z.pos (digits2_pos p) - 1) by (unfold_format; lia).
  split; [|lia].
  apply Z.lt_le_trans with (m := 1); [lia|].
  apply Z.div_le_lower_bound; [apply Z.pow_pos_nonneg; lia|].
  rewrite Z.mul_1_r.
  apply Z.le_trans with (m := 2 ^ (Z.pos (digits2_pos p) - 1)).
  - apply Z.pow_le_mono_r; lia.
  - apply digits_lower.
Qed.

Lemma round_nearest_even_ge (m : Z) (l : location) : m <= round_nearest_even m l.
Proof. destruct l as [|[]]; simpl; try lia. destruct (Z.even m); lia. Qed.

Lemma binary_round_aux_signed (s : bool) (m e : Z) (l : location) :
  0 < m -> emin <= e -> signed s (binary_round_aux prec emax s m e l).
Proof.
  intros Hm He. unfold binary_round_aux.
  destruct (shr_fexp_pos m e l Hm He) as [H1 H2].
  destruct (shr_fexp prec emax m e l) as [mrs' e']. cbn [fst snd] in H1, H2.
  pose proof (round_nearest_even_ge (shr_m mrs') (loc_of_shr_record mrs')) as Hr.
  set (m2 := round_nearest_even (shr_m mrs') (loc_of_shr_record mrs')) in *.
  assert (Hm2 : 0 < m2) by lia.
  destruct (shr_fexp_pos m2 e' loc_Exact Hm2 H2) as [H3 H4].
  destruct (shr_fexp prec emax m2 e' loc_Exact) as [mrs'' e'']. cbn [fst snd] in H3, H4.
  destruct (shr_m mrs'') as [|q|q]; try lia.
  destruct (e'' <=? emax - prec); constructor.
Qed.

Lemma binary_round_signed (s : bool) (m : positive) (e : Z) :
  emin <= e -> signed s (binary_round prec emax s m e).
Proof.
  intros He. unfold binary_round.
  pose proof (shl_align_snd m e (fexp prec emax (Z.pos (digits2_pos m) + e))) as Hs.
  destruct (shl_align m e _) as [mz ez]. cbn [snd] in Hs.
  apply binary_round_aux_signed; [lia|]. unfold_format; lia.
Qed.

Lemma binary_normalize_signed (z e : Z) (szero : bool) :
  z <> 0 -> emin <= e -> signed (z <? 0) (binary_normalize prec emax z e szero).
Proof.
  intros Hz He. destruct z as [|p|p]; [lia| |]; cbn [binary_normalize];
    now apply binary_round_signed.
Qed.

Lemma valid_finite (s : bool) (m : positive) (e : Z) :
  valid_binary (S754_finite s m e) = true ->
  emin <= e <= emax - prec /\ Z.pos (digits2_pos m) <= prec /\
  (e = emin \/ Z.pos (digits2_pos m) = prec).
Proof.
  cbn [SpecFloat.valid_binary]. unfold bounded, canonical_mantissa.
  rewrite andb_true_iff, Z.eqb_eq, Z.leb_le. unfold_format. lia.
Qed.

Lemma mag_pos (m : positive) (e : Z) : emin <= e -> 0 < mag m e.
Proof.
  intros He. unfold mag. apply Z.mul_pos_pos; [lia | apply Z.pow_pos_nonneg; lia].
Qed.

Lemma mag_lt_top (s : bool) (m : positive) (e : Z) :
  valid_binary (S754_finite s m e) = true -> 0 < mag m e < top.
Proof.
  intros Hv. apply valid_finite in Hv. destruct Hv as (He & Hd & _).
  split; [apply mag_pos; lia|].
  unfold mag, top.
  pose proof (digits_upper m) as Hu.
  assert (Hp : 2 ^ Z.pos (digits2_pos m) <= 2 ^ prec) by (apply Z.pow_le_mono_r; lia).
  assert (Hk : 0 < 2 ^ (e - emin)) by (apply Z.pow_pos_nonneg; lia).
  apply Z.lt_le_trans with (m := 2 ^ prec * 2 ^ (e - emin)).
  - apply Z.mul_lt_mono_pos_r; lia.
  - rewrite <- Z.pow_add_r by (unfold_format; lia).
    apply Z.pow_le_mono_r; unfold_format; lia.
Qed.

Lemma mag_lt_exp (s1 s2 : bool) (m1 m2 : positive) (e1 e2 : Z) :
  valid_binary (S754_finite s1 m1 e1) = true ->
  valid_binary (S754_finite s2 m2 e2) = true ->
  e1 < e2 -> mag m1 e1 < mag m2 e2.
Proof.
  intros H1 H2 Hlt.
  apply valid_finite in H1, H2.
  destruct H1 as (He1 & Hd1 & _), H2 as (He2 & Hd2 & Hn2).
  assert (Hd : Z.pos (digits2_pos m2) = prec) by lia.
  pose proof (digits_upper m1) as Hu. pose proof (digits_lower m2) as Hl.
  rewrite Hd in Hl.
  assert (Hp : 2 ^ Z.pos (digits2_pos m1) <= 2 ^ prec) by (apply Z.pow_le_mono_r; lia).
  unfold mag.
  replace (e2 - emin) with ((e2 - e1 - 1) + 1 + (e1 - emin)) by lia.
  rewrite !Z.pow_add_r by lia.
  assert (Hk : 0 < 2 ^ (e1 - emin)) by (apply Z.pow_pos_nonneg; lia).
  assert (Hj : 0 < 2 ^ (e2 - e1 - 1)) by (apply Z.pow_pos_nonneg; lia).
  replace (2 ^ prec) with (2 ^ (prec - 1) * 2) in Hp
    by (unfold prec; reflexivity).
  change (2 ^ 1) with 2.
  apply Z.lt_le_trans with (m := 2 ^ (prec - 1) * 2 * 2 ^ (e1 - emin)).
  - apply Z.mul_lt_mono_pos_r; lia.
  - rewrite !Z.mul_assoc. apply Z.mul_le_mono_nonneg_r; [lia|].
    apply Z.mul_le_mono_nonneg_r; [lia|].
    apply Z.le_trans with (m := Z.pos m2 * 1); [lia|].
    apply Z.mul_le_mono_nonneg_l; lia.
Qed.

Lemma mag_compare (m1 m2 : positive) (e : Z) :
  emin <= e -> (mag m1 e ?= mag m2 e) = Pos.compare_cont Eq m1 m2.
Proof.
  intros He. unfold mag.
  assert (Hk : 0 < 2 ^ (e - emin)) by (apply Z.pow_pos_nonneg; lia).
  change (Pos.compare_cont Eq m1 m2) with (m1 ?= m2)%positive.
  destruct (Pos.compare_spec m1 m2) as [E|E|E];
    [apply Z.compare_eq_iff | apply Z.compare_lt_iff | apply Z.compare_gt_iff]; nia.
Qed.

Ltac by_compare :=
  cbn [cond_Zopp];
  lazymatch goal with
  | |- _ = Eq => apply Z.compare_eq_iff
  | |- _ = Lt => apply Z.compare_lt_iff
  | |- _ = Gt => apply Z.compare_gt_iff
  end.

Lemma top_pos : 0 < top.
Proof. apply Z.pow_pos_nonneg; unfold_format; lia. Qed.

Lemma SFcompare_ord (x y : spec_float) :
  valid_binary x = true -> valid_binary y = true ->
  x <> S754_nan -> y <> S754_nan ->
  SFcompare x y = Some (ord x ?= ord y).
Proof.
  intros Hx Hy Nx Ny. pose proof top_pos as Ht.
  destruct x as [sx|sx| |sx mx ex]; [| |congruence|];
  destruct y as [sy|sy| |sy my ey]; try congruence;
    try pose proof (mag_lt_top _ _ _ Hx) as Bx;
    try pose proof (mag_lt_top _ _ _ Hy) as By;
    cbn [SFcompare ord]; f_equal; symmetry;
    try (try destruct sx; try destruct sy; by_compare; lia).
  pose proof (valid_finite _ _ _ Hx) as (Ex & _).
  destruct sx, sy; cbn [cond_Zopp]; try (by_compare; lia).
  - rewrite Z.compare_opp.
    destruct (Z.compare_spec ex ey) as [E|E|E].
    + subst ey. rewrite mag_compare by lia.
      apply (Pos.compare_antisym mx my).
    + by_compare. eapply mag_lt_exp; eauto.
    + by_compare. eapply mag_lt_exp; eauto.
  - destruct (Z.compare_spec ex ey) as [E|E|E].
    + subst ey. now rewrite mag_compare by lia.
    + by_compare. eapply mag_lt_exp; eauto.
    + by_compare. eapply mag_lt_exp; eauto.
Qed.

Lemma mag_split (m : positive) (e ez : Z) :
  emin <= ez <= e -> mag m e = Z.pos m * 2 ^ (e - ez) * 2 ^ (ez - emin).
Proof.
  intros H. unfold mag. rewrite <- Z.mul_assoc, <- Z.pow_add_r by lia.
  do 2 f_equal. lia.
Qed.

Lemma SFltb_zero_signed (s : bool) (r : spec_float) :
  signed s r -> SFltb (S754_zero false) r = negb s.
Proof. intros [m e|]; destruct s; reflexivity. Qed.

Ltac by_ltb :=
  cbn [cond_Zopp]; symmetry;
  lazymatch goal with
  | |- _ = true => apply Z.ltb_lt
  | |- _ = false => apply Z.ltb_ge
  end.

(** The sign of a rounded difference is the sign of the exact one: the
    comparator [b - a] never rounds two distinct numbers to zero. *)
Lemma SFsub_positive (x y : spec_float) :
  valid_binary x = true -> valid_binary y = true ->
  x <> S754_nan -> y <> S754_nan ->
  SFltb (S754_zero false) (SF64sub y x) = (ord x <? ord y).
Proof.
  intros Hx Hy Nx Ny. pose proof top_pos as Ht.
  destruct x as [sx|sx| |sx mx ex]; [| |congruence|];
  destruct y as [sy|sy| |sy my ey]; try congruence;
    try pose proof (mag_lt_top _ _ _ Hx) as Bx;
    try pose proof (mag_lt_top _ _ _ Hy) as By;
    cbn [SF64sub SFsub ord];
    try (try destruct sx; try destruct sy; cbn [SFltb SFcompare negb]; by_ltb; lia).
  pose proof (valid_finite _ _ _ Hx) as (Ex & _).
  pose proof (valid_finite _ _ _ Hy) as (Ey & _).
  set (ez := Z.min ey ex).
  rewrite !shl_align_fst by lia.
  rewrite (mag_split mx ex ez), (mag_split my ey ez) by lia.
  set (X := Z.pos mx * 2 ^ (ex - ez)). set (Y := Z.pos my * 2 ^ (ey - ez)).
  assert (HX : 0 < X) by (apply Z.mul_pos_pos; [lia | apply Z.pow_pos_nonneg; lia]).
  assert (HY : 0 < Y) by (apply Z.mul_pos_pos; [lia | apply Z.pow_pos_nonneg; lia]).
  assert (Hk : 0 < 2 ^ (ez - emin)) by (apply Z.pow_pos_nonneg; lia).
  set (K := 2 ^ (ez - emin)) in *.
  set (d := cond_Zopp sy Y - cond_Zopp sx X).
  assert (Hd : cond_Zopp sy (Y * K) - cond_Zopp sx (X * K) = d * K)
    by (unfold d; destruct sx, sy; cbn [cond_Zopp]; lia).
  destruct (Z.eq_dec d 0) as [E|E].
  - rewrite E. cbn [binary_normalize SFltb SFcompare]. by_ltb. lia.
  - rewrite (SFltb_zero_signed (d <? 0)) by (apply binary_normalize_signed; lia).
    destruct (Z.ltb_spec d 0); cbn [negb]; by_ltb; nia.
Qed.

(** *** The same facts on primitive floats *)

Lemma isNaN_false (x : float) : isNaN x = false -> Prim2SF x <> S754_nan.
Proof.
  unfold isNaN, PrimFloat.is_nan. rewrite eqb_spec. intros H E.
  rewrite E in H. discriminate H.
Qed.

Lemma ltb_key (x y : float) :
  isNaN x = false -> isNaN y = false -> PrimFloat.ltb x y = (key x <? key y).
Proof.
  intros Hx Hy. rewrite ltb_spec. unfold SFltb, key.
  rewrite SFcompare_ord by auto using Prim2SF_valid, isNaN_false.
  unfold Z.ltb. now destruct (ord (Prim2SF x) ?= ord (Prim2SF y)).
Qed.

Lemma leb_key (x y : float) :
  isNaN x = false -> isNaN y = false -> PrimFloat.leb x y = (key x <=? key y).
Proof.
  intros Hx Hy. rewrite leb_spec. unfold SFleb, key.
  rewrite SFcompare_ord by auto using Prim2SF_valid, isNaN_false.
  unfold Z.leb. now destruct (ord (Prim2SF x) ?= ord (Prim2SF y)).
Qed.

Lemma sub_positive_key (x y : float) :
  isNaN x = false -> isNaN y = false ->
  PrimFloat.ltb 0 (y - x) = (key x <? key y).
Proof.
  intros Hx Hy. rewrite ltb_spec, sub_spec.
  change (Prim2SF 0) with (S754_zero false).
  apply SFsub_positive; auto using Prim2SF_valid, isNaN_false.
Qed.

(** Multiplication of two numbers does not depend on their order. *)
Lemma SF64mul_comm (x y : spec_float) : SF64mul x y = SF64mul y x.
Proof.
  destruct x as [sx|sx| |sx mx ex], y as [sy|sy| |sy my ey]; simpl;
    try reflexivity; try (rewrite (xorb_comm sx sy); reflexivity).
  unfold SF64mul, SFmul.
  now rewrite (xorb_comm sx sy), (Pos.mul_comm mx my), (Z.add_comm ex ey).
Qed.

Lemma mul_comm (x y : float) : (x * y = y * x)%float.
Proof. apply Prim2SF_inj. rewrite !mul_spec. apply SF64mul_comm. Qed.

End NumberFacts.

(** ** Cosine similarity *)

Module SimilarityFacts.

Import EmbeddingIndex Vocabulary.

Lemma cosineSimilarity_fold (a b : list float) :
  cosineSimilarity a b =
  (let '(dot, normA, normB) := fold_left (step a b) (seq 0 (List.length a)) (0, 0, 0)%float in
   dot / (sqrt normA * sqrt normB))%float.
Proof. reflexivity. Qed.

(** Exchanging the operands exchanges the two norms and keeps the dot
    product, round after round. *)
Lemma fold_step_swap (a b : list float) (indices : list nat) :
  forall acc,
    fold_left (step b a) indices (swap_norms acc) =
    swap_norms (fold_left (step a b) indices acc).
Proof.
  induction indices as [|i rest IH]; intros [[dot normA] normB]; [reflexivity|].
  cbn [fold_left]. rewrite <- IH. f_equal.
  cbn [step swap_norms]. now rewrite (NumberFacts.mul_comm (elem b i) (elem a i)).
Qed.

(** The loop reads [b] only at the indices of [a]. *)
Lemma fold_step_ext (a b b' : list float) (indices : list nat) :
  (forall i, In i indices -> elem b i = elem b' i) ->
  forall acc, fold_left (step a b) indices acc = fold_left (step a b') indices acc.
Proof.
  induction indices as [|i rest IH]; intros Hext acc; [reflexivity|].
  cbn [fold_left]. rewrite IH by (intros; apply Hext; now right).
  f_equal. destruct acc as [[dot normA] normB]. cbn [step].
  now rewrite (Hext i) by now left.
Qed.

Lemma cosineSimilarity_ext (a b b' : list float) :
  (forall i, i < List.length a -> elem b i = elem b' i) ->
  cosineSimilarity a b = cosineSimilarity a b'.
Proof.
  intros Hext. rewrite !cosineSimilarity_fold.
  rewrite (fold_step_ext a b b'); [reflexivity|].
  intros i Hi. apply in_seq in Hi. apply Hext. lia.
Qed.

(** With the operands exchanged, the same loop runs and the two norms
    change places in the final product. *)
Lemma cosineSimilarity_swapped (a b : list float) :
  List.length a = List.length b ->
  cosineSimilarity b a =
  (let '(dot, normA, normB) := fold_left (step a b) (seq 0 (List.length a)) (0, 0, 0)%float in
   dot / (sqrt normB * sqrt normA))%float.
Proof.
  intros Hlen. rewrite cosineSimilarity_fold, <- Hlen.
  change (0, 0, 0)%float with (swap_norms (0, 0, 0)%float) at 1.
  rewrite fold_step_swap.
  now destruct (fold_left (step a b) (seq 0 (List.length a)) (0, 0, 0)%float)
    as [[dot normA] normB].
Qed.

(** C8. For all numeric vectors [a] and [b] of equal length,
    [cosineSimilarity(a, b)] and [cosineSimilarity(b, a)] are the same
    number (when one is NaN, so is the other). *)
Theorem cosineSimilarity_symmetric (a b : list float) :
  List.length a = List.length b ->
  cosineSimilarity a b = cosineSimilarity b a.
Proof.
  intros Hlen. rewrite (cosineSimilarity_swapped a b Hlen), cosineSimilarity_fold.
  destruct (fold_left (step a b) (seq 0 (List.length a)) (0, 0, 0)%float) as [[dot normA] normB].
  now rewrite (NumberFacts.mul_comm (sqrt normB) (sqrt normA)).
Qed.

Lemma cosineSimilarity_symmetric_witness :
  cosineSimilarity [1; 0]%float [0.9; 0.1]%float =
  cosineSimilarity [0.9; 0.1]%float [1; 0]%float.
Proof. apply (cosineSimilarity_symmetric [1; 0]%float [0.9; 0.1]%float). reflexivity. Defined.

(** Under [===], which NaN does not satisfy, the two calls compare equal
    exactly when the similarity is a number. *)
Lemma cosineSimilarity_strictly_equal (a b : list float) :
  List.length a = List.length b ->
  PrimFloat.eqb (cosineSimilarity a b) (cosineSimilarity b a)
  = negb (Number.isNaN (cosineSimilarity a b)).
Proof.
  intros Hlen. rewrite (cosineSimilarity_swapped a b Hlen), cosineSimilarity_fold.
  destruct (fold_left (step a b) (seq 0 (List.length a)) (0, 0, 0)%float) as [[dot normA] normB].
  rewrite (NumberFacts.mul_comm (sqrt normB) (sqrt normA)).
  unfold Number.isNaN, PrimFloat.is_nan. now rewrite negb_involutive.
Qed.

Example cosineSimilarity_of_zero_vector :
  cosineSimilarity [0; 0]%float [1; 0]%float = PrimFloat.nan.
Proof. reflexivity. Qed.

End SimilarityFacts.

(** ** The index: loading *)

Module LoadFacts.

Import Js EmbeddingIndex Vocabulary Scenarios.
Local Open Scope string_scope.

(** [loadIndex] returns in every state of the disk. *)
Lemma loadIndex_returns (h : Host) (w : World) :
  exists index w', loadIndex h w = (Ok index, w').
Proof.
  unfold loadIndex, try_catch, readFile_index. cbn.
  destruct (index_file w) as [[|v]|]; cbn; eauto.
Qed.

(** What a readable, well-formed file is loaded as. *)
Lemma loadIndex_parses (h : Host) (w : World) (v : value) :
  index_file w = Some (Parses v) -> loadIndex h w = (Ok v, w).
Proof.
  intros Hfile. unfold loadIndex, try_catch, readFile_index. cbn.
  now rewrite Hfile.
Qed.

(** The [catch] of [loadIndex]: a missing file and a syntax error both
    give the empty index, stamped with the clock read at that moment. *)
Lemma loadIndex_empty (h : Host) (w : World) :
  index_file w = None \/ index_file w = Some Unparsable ->
  loadIndex h w = (Ok (empty_index (now h (clock w))), ticked w).
Proof.
  intros Hfile. unfold loadIndex, try_catch, readFile_index. cbn.
  destruct Hfile as [-> | ->]; reflexivity.
Qed.

(** C3. When the index file is absent or does not parse as JSON,
    [loadIndex] does not raise: it returns the empty index, with no
    document, no embedding, a count of zero and the time of the call as
    its creation time. *)
Theorem loadIndex_absent_or_malformed (h : Host) (w : World) :
  index_file w = None \/ index_file w = Some Unparsable ->
  exists index,
    loadIndex h w = (Ok index, ticked w) /\
    get index "documents" = Ok (VArray []) /\
    get index "embeddings" = Ok (VArray []) /\
    get index "metadata"
      = Ok (VObject [("created", VString (now h (clock w))); ("count", VNumber 0)]).
Proof.
  intros Hfile. exists (empty_index (now h (clock w))).
  split; [now apply loadIndex_empty|]. repeat split.
Qed.

Lemma loadIndex_absent_or_malformed_witness :
  exists index,
    loadIndex quiet_host no_index_yet = (Ok index, ticked no_index_yet) /\
    get index "documents" = Ok (VArray []) /\
    get index "embeddings" = Ok (VArray []) /\
    get index "metadata"
      = Ok (VObject [("created", VString (timestamp 0)); ("count", VNumber 0)]).
Proof.
  apply (loadIndex_absent_or_malformed quiet_host no_index_yet). left. reflexivity.
Defined.

End LoadFacts.

(** ** Retrieval on an empty index *)

Module RagFacts.

Import Js EmbeddingIndex Vocabulary Scenarios.
Local Open Scope string_scope.
Local Arguments String.append : simpl never.

(** On an index with zero documents [queryIndex] returns no result and
    sends nothing to the service. *)
Lemma queryIndex_zero_documents (h : Host) (w : World) (query : string) (topK : Z) :
  zero_documents w ->
  exists w',
    queryIndex h query topK w = (Ok [], w') /\
    embed_requests w' = embed_requests w /\
    generate_requests w' = generate_requests w /\
    console w' = List.app (console w)
                   ["🔍 Searching: " ++ Str.quote ++ query ++ Str.quote;
                    "   Index is empty. Run 'build' first."].
Proof.
  intros [Hfile | [Hfile | (index & Hfile & Hdocs)]];
    unfold queryIndex, loadIndex, try_catch, readFile_index; cbn; rewrite Hfile; cbn.
  - eexists; repeat split. cbn. now rewrite <- app_assoc.
  - eexists; repeat split. cbn. now rewrite <- app_assoc.
  - rewrite Hdocs. cbn. eexists; repeat split. cbn. now rewrite <- app_assoc.
Qed.

(** C6. For every question, [rag] on an index with zero documents sends
    no request to the text-generation endpoint (nor to the embedding
    endpoint), prints that no documents were found, and returns. *)
Theorem ragQuery_zero_documents (h : Host) (w : World) (question : string) (topK : Z) :
  zero_documents w ->
  exists w',
    ragQuery h question topK w = (Ok tt, w') /\
    generate_requests w' = generate_requests w /\
    embed_requests w' = embed_requests w /\
    console w' = List.app (console w)
                   ["💡 RAG Query: " ++ Str.quote ++ question ++ Str.quote;
                    "🔍 Searching: " ++ Str.quote ++ question ++ Str.quote;
                    "   Index is empty. Run 'build' first.";
                    "   No documents found. Build index first."].
Proof.
  intros Hzero.
  set (w1 := printed ("💡 RAG Query: " ++ Str.quote ++ question ++ Str.quote) w).
  assert (Hzero1 : zero_documents w1) by exact Hzero.
  destruct (queryIndex_zero_documents h w1 question topK Hzero1)
    as (w2 & Hrun & Hembed & Hgenerate & Hconsole).
  exists (printed "   No documents found. Build index first." w2).
  unfold ragQuery. cbn -[queryIndex]. fold w1. rewrite Hrun. cbn.
  repeat split; try assumption.
  rewrite Hconsole. cbn. now rewrite <- !app_assoc.
Qed.

Lemma ragQuery_zero_documents_witness :
  exists w',
    ragQuery quiet_host "What is watsonx?" 3 no_index_yet = (Ok tt, w') /\
    generate_requests w' = [] /\
    embed_requests w' = [] /\
    console w' = ["💡 RAG Query: " ++ Str.quote ++ "What is watsonx?" ++ Str.quote;
                  "🔍 Searching: " ++ Str.quote ++ "What is watsonx?" ++ Str.quote;
                  "   Index is empty. Run 'build' first.";
                  "   No documents found. Build index first."].
Proof.
  apply (ragQuery_zero_documents quiet_host no_index_yet
           "What is watsonx?" 3).
  left. reflexivity.
Defined.

End RagFacts.

(** ** The tool-call handler *)

Module HandlerFacts.

Import Js McpServer Vocabulary Scenarios ServerVocabulary.
Local Open Scope string_scope.
Local Open Scope seq_scope.
Local Arguments String.append : simpl never.

(** *** What the expressions of the handler throw *)

Lemma error_object_has_message (e : error_object) : has_message e.
Proof. now exists (VString (message e)). Qed.

Lemma raises_get (v : value) (k : string) : raises_message (get v k).
Proof. destruct v; cbn; auto using error_object_has_message. Qed.

Lemma raises_at_index (v : value) (i : nat) : raises_message (at_index v i).
Proof. destruct v; cbn; auto using error_object_has_message. Qed.

Lemma raises_bind {A B : Type} (c : result A) (k : A -> result B) :
  raises_message c -> (forall a, raises_message (k a)) -> raises_message (x <- c ;; k x).
Proof. intros Hc Hk. destruct c as [a|e]; cbn; [apply Hk | exact Hc]. Qed.

Lemma raises_ret {A : Type} (a : A) : raises_message (ret a : result A).
Proof. exact I. Qed.

Lemma raises_map_from {A : Type} (callback : value -> nat -> result A) (items : list value) :
  (forall m i, raises_message (callback m i)) ->
  forall i, raises_message (map_from callback i items).
Proof.
  intros Hcallback. induction items as [|x items IH]; intros i; [exact I|].
  cbn [map_from]. apply raises_bind; [apply Hcallback|]. intros y.
  apply raises_bind; [apply IH|]. intros ys. exact I.
Qed.

Lemma raises_array_map {A : Type} (v : value) (callback : value -> nat -> result A) :
  (forall m i, raises_message (callback m i)) -> raises_message (array_map v callback).
Proof.
  intros Hcallback.
  destruct v; cbn [array_map]; try apply error_object_has_message.
  now apply raises_map_from.
Qed.

Create HintDb handler.
#[local] Hint Resolve raises_get raises_at_index raises_ret error_object_has_message : handler.

Ltac raises :=
  repeat first
    [ apply raises_bind; [|intros ?]
    | apply raises_array_map; intros ? ?
    | match goal with
      | |- raises_message (if ?c then _ else _) => destruct c
      | |- raises_message (Ok _) => exact I
      end
    | solve [auto with handler] ].

Lemma raises_generated_text (response : value) : raises_message (generated_text response).
Proof. unfold generated_text. raises. Qed.

Lemma raises_trim_method (v : value) : raises_message (trim_method v).
Proof. destruct v; cbn; auto with handler. Qed.

Lemma raises_format_message (b : Builtins) (m : value) : raises_message (format_message b m).
Proof. unfold format_message. raises. Qed.

#[local] Hint Resolve raises_generated_text raises_trim_method raises_format_message : handler.

(** *** The [try] block *)

Lemma text_or_message_bind {A : Type} (c : result A) (k : A -> result CallToolResult) :
  raises_message c -> (forall a, text_or_message (k a)) -> text_or_message (x <- c ;; k x).
Proof. intros Hc Hk. destruct c as [a|e]; cbn; [apply Hk | exact Hc]. Qed.

Lemma text_or_message_ret (t : value) : text_or_message (ret (text_content t)).
Proof. cbn. now exists t. Qed.

#[local] Hint Resolve text_or_message_ret : handler.

Section Client.

Variable client : Client.
Hypothesis Hrejects : rejects_with_message client.

Lemma generateText_raises (params : value) : raises_message (generateText client params).
Proof. apply Hrejects. Qed.

Lemma listFoundationModelSpecs_raises (params : value) :
  raises_message (listFoundationModelSpecs client params).
Proof. apply Hrejects. Qed.

Lemma embedText_raises (params : value) : raises_message (embedText client params).
Proof. apply Hrejects. Qed.

Ltac through :=
  repeat (apply text_or_message_bind;
          [first [ apply generateText_raises
                 | apply listFoundationModelSpecs_raises
                 | apply embedText_raises
                 | raises ]
          | intros ?]);
  auto with handler.

Lemma watsonx_generate_text (cfg : Config) (args : value) :
  text_or_message (watsonx_generate cfg client args).
Proof. unfold watsonx_generate. through. Qed.

Lemma watsonx_list_models_text (b : Builtins) :
  text_or_message (watsonx_list_models b client).
Proof. unfold watsonx_list_models. through. Qed.

Lemma watsonx_embeddings_text (cfg : Config) (b : Builtins) (args : value) :
  text_or_message (watsonx_embeddings cfg b client args).
Proof. unfold watsonx_embeddings. through. Qed.

Lemma watsonx_chat_text (cfg : Config) (b : Builtins) (args : value) :
  text_or_message (watsonx_chat cfg b client args).
Proof. unfold watsonx_chat. through. Qed.

Lemma call_tool_text (cfg : Config) (b : Builtins) (name : string) (args : value) :
  text_or_message (call_tool cfg b client name args).
Proof.
  unfold call_tool.
  destruct (String.eqb name "watsonx_generate"); [apply watsonx_generate_text|].
  destruct (String.eqb name "watsonx_list_models"); [apply watsonx_list_models_text|].
  destruct (String.eqb name "watsonx_embeddings"); [apply watsonx_embeddings_text|].
  destruct (String.eqb name "watsonx_chat"); [apply watsonx_chat_text|].
  cbn. eauto.
Qed.

End Client.

(** C9. For every tool name, every argument value and every response of
    the remote service, the handler returns a result made of one text
    item (the tool's text, or the text of an error) and does not throw,
    in two cases: no API key is configured; or the client could be made
    and rejects its calls only with values whose [message] can be read
    (every value but [null] and [undefined]). *)
Theorem handler_returns_text (cfg : Config) (b : Builtins) (watsonx : result Client)
    (name : string) (args : value) :
  WATSONX_API_KEY cfg = "" \/
  (exists client, watsonx = Ok client /\ rejects_with_message client) ->
  exists t : value, handler cfg b watsonx name args = Ok (text_content t).
Proof.
  intros [Hkey | (client & -> & Hclient)]; unfold handler, getWatsonxClient.
  - rewrite Hkey. cbn. eauto.
  - destruct (String.eqb (WATSONX_API_KEY cfg) ""); cbn [bind ret Sequencing_result]; [eauto|].
    pose proof (call_tool_text client Hclient cfg b name args) as Htext.
    destruct (call_tool cfg b client name args) as [response|error].
    + destruct Htext as [t ->]. eauto.
    + destruct Htext as [m ->]. cbn. eauto.
Qed.

Lemma handler_returns_text_witness :
  exists t : value,
    handler configured plain (Ok failing) "watsonx_generate"
      (VObject [("prompt", VString "hi")]) = Ok (text_content t).
Proof.
  apply (handler_returns_text configured plain (Ok failing)).
  right. exists failing. split; [reflexivity|].
  intros params. repeat split; now exists (VString "Unauthorized").
Defined.

(** C9, where it fails. A call the client rejects with [null] makes the
    [catch] block throw when it reads [error.message]; and what the
    constructors of the client throw, before the [try], is not caught.
    Both leave the handler as exceptions. *)
Example handler_propagates :
  handler configured plain (Ok (rejecting (Other VNull))) "watsonx_list_models" VUndefined
  = Throw (TypeError "Cannot read properties of null (reading 'message')") /\
  handler configured plain (Throw (TypeError "apikey is required")) "watsonx_list_models"
    VUndefined
  = Throw (TypeError "apikey is required").
Proof. split; reflexivity. Qed.

(** The ways a call ends, each as a text: a request with no arguments, a
    rejected call, a response of an unexpected shape, an unknown tool, a
    missing API key, and a generated answer. *)
Example handler_without_arguments :
  handler configured plain (Ok failing) "watsonx_generate" VUndefined
  = Ok (text_content
          (VString "Error calling watsonx.ai: Cannot read properties of undefined (reading 'prompt')")).
Proof. reflexivity. Qed.

Example handler_service_failure :
  handler configured plain (Ok failing) "watsonx_list_models" (VObject [])
  = Ok (text_content (VString "Error calling watsonx.ai: Unauthorized")).
Proof. reflexivity. Qed.

Example handler_unexpected_response :
  handler configured plain (Ok (resolving VNull)) "watsonx_chat"
    (VObject [("messages", VArray [VObject [("role", VString "user");
                                             ("content", VString "hello")]])])
  = Ok (text_content
          (VString "Error calling watsonx.ai: Cannot read properties of null (reading 'result')")).
Proof. reflexivity. Qed.

Example handler_unknown_tool :
  handler configured plain (Ok failing) "watsonx_translate" VUndefined
  = Ok (text_content (VString "Unknown tool: watsonx_translate")).
Proof. reflexivity. Qed.

Example handler_not_configured :
  handler unconfigured plain (Ok failing) "watsonx_generate" (VObject [("prompt", VString "hi")])
  = Ok (text_content
          (VString "Error: watsonx.ai not configured. Set WATSONX_API_KEY environment variable.")).
Proof. reflexivity. Qed.

Example handler_generates :
  handler configured plain
    (Ok (resolving (VObject [("result",
       VObject [("results", VArray [VObject [("generated_text", VString " Hi there. ")]])])])))
    "watsonx_chat"
    (VObject [("messages", VArray [VObject [("role", VString "user");
                                             ("content", VString "hello")]])])
  = Ok (text_content (VString "Hi there.")).
Proof. reflexivity. Qed.

End HandlerFacts.

(** ** Running the script: how each call changes the world *)

Module RunFacts.

Import Js EmbeddingIndex Vocabulary.
Local Open Scope string_scope.
Local Open Scope seq_scope.
Local Arguments String.append : simpl never.

Lemma run_bind {A B : Type} (c : M A) (k : A -> M B) (w : World) :
  (x <- c ;; k x) w =
  match c w with
  | (Ok a, w') => k a w'
  | (Throw e, w') => (Throw e, w')
  end.
Proof. reflexivity. Qed.

Lemma sends_nothing (w : World) : sends w w [].
Proof. split; [now rewrite app_nil_r | reflexivity]. Qed.

Lemma sends_then (w1 w2 w3 : World) (s1 s2 : list (list string)) :
  sends w1 w2 s1 -> sends w2 w3 s2 -> sends w1 w3 (s1 ++ s2).
Proof.
  intros [H1 G1] [H2 G2]. split.
  - now rewrite H2, H1, app_assoc.
  - now rewrite G2.
Qed.

Lemma sends_printed (w w' : World) (sent : list (list string)) (line : string) :
  sends w w' sent -> sends w (printed line w') sent.
Proof. intros H. exact H. Qed.

Lemma sends_from_printed (w w' : World) (sent : list (list string)) (line : string) :
  sends (printed line w) w' sent -> sends w w' sent.
Proof. intros H. exact H. Qed.

Lemma sends_ticked (w w' : World) (sent : list (list string)) :
  sends w w' sent -> sends w (ticked w') sent.
Proof. intros H. exact H. Qed.

Lemma sends_written (w w' : World) (sent : list (list string)) (t : text) :
  sends w w' sent -> sends w (written t w') sent.
Proof. intros H. exact H. Qed.

Lemma substring_length (n m : nat) (s : string) :
  String.length (String.substring n m s) <= m.
Proof.
  revert n m. induction s as [|c s IH]; intros [|n] [|m]; cbn; try lia.
  - specialize (IH 0 m). lia.
  - apply IH.
  - apply IH.
Qed.

Lemma substring0_within_budget (content : string) :
  within_budget (Str.substring0 500 content).
Proof. apply substring_length. Qed.

(** Reading a document changes nothing. *)
Lemma readFile_document_run (h : Host) (name : string) (w : World) :
  exists r, readFile_document h name w = (r, w).
Proof.
  unfold readFile_document, throw.
  destruct (documents_dir h) as [entries|]; [destruct (find_file name entries)|];
    cbn; eauto.
Qed.

(** The inner loop never throws and changes nothing; it adds one text
    and one entry per file it could read, each text within the budget. *)
Lemma read_batch_run (h : Host) (batch : list string) :
  forall (texts : list string) (docs : list value) (w : World),
  exists texts' docs',
    read_batch h batch texts docs w = (Ok ((texts ++ texts')%list, (docs ++ docs')%list), w) /\
    List.length texts' = List.length docs' /\
    List.length docs' <= List.length batch /\
    Forall within_budget texts'.
Proof.
  induction batch as [|file rest IH]; intros texts docs w.
  - exists [], []. rewrite !app_nil_r. repeat split; auto.
  - cbn [read_batch]. rewrite run_bind. unfold try_catch at 1. rewrite run_bind.
    destruct (readFile_document_run h file w) as [[content|e] ->]; cbn [ret Sequencing_M fst snd].
    + destruct (IH (texts ++ [Str.substring0 500 content])%list
                   (docs ++ [document_entry file content])%list w)
        as (texts' & docs' & -> & Hlen & Hle & Hbudget).
      exists (Str.substring0 500 content :: texts'), (document_entry file content :: docs').
      rewrite <- !app_assoc. cbn [app List.length]. repeat split; try lia.
      constructor; [apply substring0_within_budget | assumption].
    + destruct (IH texts docs w) as (texts' & docs' & -> & Hlen & Hle & Hbudget).
      exists texts', docs'. cbn [List.length]. repeat split; auto.
Qed.

(** [generateEmbeddings] forwards its texts to the endpoint as they are:
    with a client, one request is sent, holding exactly [texts]. *)
Lemma generateEmbeddings_run (h : Host) (texts : list string) (w : World) :
  getClient h = true ->
  generateEmbeddings h texts w =
  (match embedText h w texts with
   | Ok response => Ok (match embed_results response with
                        | Some results => map embedding results
                        | None => []
                        end)
   | Throw e => Throw e
   end,
   embed_requested texts w).
Proof.
  intros Hclient. unfold generateEmbeddings. rewrite Hclient, run_bind.
  unfold request_embedText. now destruct (embedText h w texts).
Qed.

Lemma generateEmbeddings_no_client (h : Host) (texts : list string) (w : World) :
  getClient h = false ->
  generateEmbeddings h texts w =
  (Throw (TypeError "Cannot read properties of null (reading 'embedText')"), w).
Proof. intros Hclient. unfold generateEmbeddings. now rewrite Hclient. Qed.

Lemma generateEmbeddings_sends (h : Host) (texts : list string) (w : World) :
  exists r w' sent,
    generateEmbeddings h texts w = (r, w') /\
    sends w w' sent /\
    (sent = [] \/ sent = [texts]).
Proof.
  destruct (getClient h) eqn:Hclient.
  - rewrite generateEmbeddings_run by assumption.
    do 3 eexists. split; [reflexivity|]. split; [|now right]. now split.
  - rewrite generateEmbeddings_no_client by assumption.
    do 3 eexists. split; [reflexivity|]. split; [apply sends_nothing | now left].
Qed.

(** *** Slices *)

Lemma firstn_skipn_In {A : Type} (n m : nat) (l : list A) (x : A) :
  In x (firstn n (skipn m l)) -> In x l.
Proof.
  intros H.
  rewrite <- (firstn_skipn m l). apply in_or_app. right.
  rewrite <- (firstn_skipn n (skipn m l)). apply in_or_app. now left.
Qed.

Lemma slice_In {A : Type} (start stop : Z) (l : list A) (x : A) :
  In x (slice start stop l) -> In x l.
Proof. unfold slice. apply firstn_skipn_In. Qed.

Lemma slice_length {A : Type} (start stop : Z) (l : list A) :
  List.length (slice start stop l)
  = clamp_index (List.length l) stop - clamp_index (List.length l) start.
Proof.
  unfold slice. rewrite length_firstn, length_skipn.
  assert (H : forall i, clamp_index (List.length l) i <= List.length l).
  { intros i. unfold clamp_index. destruct (i <? 0)%Z eqn:E; lia. }
  specialize (H stop). lia.
Qed.

Lemma clamp_index_nat (len i : nat) : clamp_index len (Z.of_nat i) = Nat.min i len.
Proof.
  unfold clamp_index. destruct (Z.of_nat i <? 0)%Z eqn:E; [lia|].
  now rewrite Nat2Z.id.
Qed.

Lemma slice_all {A : Type} (l : list A) (stop : Z) :
  (Z.of_nat (List.length l) <= stop)%Z -> slice 0 stop l = l.
Proof.
  intros H. unfold slice, clamp_index. cbn [Z.ltb Z.compare Z.to_nat Nat.min skipn].
  destruct (stop <? 0)%Z eqn:E; [lia|].
  rewrite Nat.sub_0_r. apply firstn_all2. lia.
Qed.

Lemma slice_prefix {A : Type} (l : list A) (stop : Z) :
  (0 <= stop)%Z -> slice 0 stop l = firstn (Z.to_nat stop) l.
Proof.
  intros H. unfold slice, clamp_index. cbn [Z.ltb Z.compare Z.to_nat Nat.min skipn].
  destruct (stop <? 0)%Z eqn:E; [lia|].
  rewrite Nat.sub_0_r.
  destruct (Nat.le_ge_cases (Z.to_nat stop) (List.length l)) as [Hle|Hge].
  - now rewrite Nat.min_l.
  - rewrite Nat.min_r by assumption. now rewrite !firstn_all2 by lia.
Qed.

(** *** The outer loop of [buildIndex] *)

Lemma process_batch_run (h : Host) (txtFiles : list string) (i : nat)
    (acc : list value * list value) (w : World) :
  exists r w' sent,
    process_batch h txtFiles i acc w = (r, w') /\
    sends w w' sent /\
    Forall (Forall within_budget) sent /\
    (forall acc', r = Ok acc' -> grows acc acc' (batch_length txtFiles i)).
Proof.
  unfold process_batch. rewrite run_bind.
  destruct (read_batch_run h (slice (Z.of_nat i) (Z.of_nat (i + batchSize)) txtFiles) [] [] w)
    as (texts & docs & -> & Hlen & Hle & Hbudget).
  cbn [app fst snd].
  destruct texts as [|t texts].
  - exists (Ok acc), w, []. repeat split; auto using sends_nothing.
    + apply sends_nothing.
    + intros acc' [= <-]. exists [], []. rewrite !app_nil_r.
      destruct acc; repeat split; cbn; lia.
  - rewrite run_bind. unfold log at 1. rewrite run_bind.
    set (w1 := printed _ w).
    destruct (generateEmbeddings_sends h (t :: texts) w1) as (r & w2 & sent & -> & Hsends & Hsent).
    destruct r as [embeddings|e].
    + exists (Ok ((fst acc ++ docs)%list,
                  (snd acc ++ map (embedding_at embeddings) (seq 0 (List.length docs)))%list)),
        w2, sent.
      repeat split; try apply Hsends.
      * destruct Hsent as [-> | ->]; [constructor | constructor; [assumption | constructor]].
      * intros acc' [= <-]. eexists _, _. split; [reflexivity|].
        rewrite length_map, length_seq. split; [reflexivity | exact Hle].
    + exists (Throw e), w2, sent. repeat split; try apply Hsends.
      * destruct Hsent as [-> | ->]; [constructor | constructor; [assumption | constructor]].
      * intros acc' [=].
Qed.

Lemma grows_refl (acc : list value * list value) : grows acc acc 0.
Proof. exists [], []. rewrite !app_nil_r. destruct acc; repeat split; cbn; lia. Qed.

Lemma grows_trans (a b c : list value * list value) (n m : nat) :
  grows a b n -> grows b c m -> grows a c (n + m).
Proof.
  intros (d1 & e1 & -> & L1 & B1) (d2 & e2 & -> & L2 & B2). cbn [fst snd].
  exists (d1 ++ d2)%list, (e1 ++ e2)%list. rewrite <- !app_assoc, !length_app.
  repeat split; lia.
Qed.

Lemma process_batches_run (h : Host) (txtFiles : list string) (starts : list nat) :
  forall (acc : list value * list value) (w : World),
  exists r w' sent,
    process_batches h txtFiles starts acc w = (r, w') /\
    sends w w' sent /\
    Forall (Forall within_budget) sent /\
    (forall acc', r = Ok acc' ->
       grows acc acc' (list_sum (map (batch_length txtFiles) starts))).
Proof.
  induction starts as [|i rest IH]; intros acc w.
  - exists (Ok acc), w, []. repeat split; try apply sends_nothing; auto.
    intros acc' [= <-]. apply grows_refl.
  - cbn [process_batches]. rewrite run_bind.
    destruct (process_batch_run h txtFiles i acc w) as (r & w1 & s1 & -> & Hs1 & Hb1 & Hg1).
    destruct r as [acc1|e].
    + destruct (IH acc1 w1) as (r & w2 & s2 & -> & Hs2 & Hb2 & Hg2).
      exists r, w2, (s1 ++ s2)%list. repeat split.
      * apply (sends_then w w1 w2 s1 s2 Hs1 Hs2).
      * apply (sends_then w w1 w2 s1 s2 Hs1 Hs2).
      * apply Forall_app. now split.
      * intros acc' Hr. cbn [map list_sum].
        apply (grows_trans acc acc1 acc'); auto.
    + exists (Throw e), w1, s1. repeat split; try apply Hs1; auto.
      intros acc' [=].
Qed.

(** With a client and a service that answers every request, no round of
    the loop throws. *)
Lemma process_batch_returns (h : Host) (txtFiles : list string) (i : nat)
    (acc : list value * list value) (w : World) :
  getClient h = true ->
  (forall w0 texts, exists response, embedText h w0 texts = Ok response) ->
  exists acc' w', process_batch h txtFiles i acc w = (Ok acc', w').
Proof.
  intros Hclient Hanswers. unfold process_batch. rewrite run_bind.
  destruct (read_batch_run h (slice (Z.of_nat i) (Z.of_nat (i + batchSize)) txtFiles) [] [] w)
    as (texts & docs & -> & _).
  cbn [app fst snd].
  destruct texts as [|t texts]; [now exists acc, w|].
  rewrite run_bind. unfold log at 1.
  rewrite run_bind, generateEmbeddings_run by exact Hclient.
  destruct (Hanswers (printed
      ("   Processing batch " ++ Str.of_nat (i / batchSize + 1) ++ "/"
         ++ Str.of_nat ((List.length txtFiles + batchSize - 1) / batchSize) ++ "...") w)
      (t :: texts)) as [response ->].
  do 2 eexists. reflexivity.
Qed.

Lemma process_batches_returns (h : Host) (txtFiles : list string) (starts : list nat) :
  getClient h = true ->
  (forall w0 texts, exists response, embedText h w0 texts = Ok response) ->
  forall (acc : list value * list value) (w : World),
  exists acc' w', process_batches h txtFiles starts acc w = (Ok acc', w').
Proof.
  intros Hclient Hanswers.
  induction starts as [|i rest IH]; intros acc w; [now exists acc, w|].
  cbn [process_batches]. rewrite run_bind.
  destruct (process_batch_returns h txtFiles i acc w Hclient Hanswers) as (acc1 & w1 & ->).
  apply IH.
Qed.

End RunFacts.

(** ** JSON images *)

Module JsonFacts.

Import Js Vocabulary.
Local Open Scope string_scope.

(** Induction on data, with the hypothesis on every element of an array
    and on every property value of an object. *)
Lemma value_induction (P : value -> Prop) :
  P VUndefined -> P VNull ->
  (forall b, P (VBool b)) ->
  (forall x, P (VNumber x)) ->
  (forall s, P (VString s)) ->
  (forall items, Forall P items -> P (VArray items)) ->
  (forall fields, Forall (fun p => P (snd p)) fields -> P (VObject fields)) ->
  forall v, P v.
Proof.
  intros Hu Hn Hb Hx Hs Ha Ho.
  fix IH 1. intros [| |b|x|s|items|fields].
  - exact Hu.
  - exact Hn.
  - apply Hb.
  - apply Hx.
  - apply Hs.
  - apply Ha. induction items as [|v items IHitems]; constructor.
    + apply IH.
    + exact IHitems.
  - apply Ho. induction fields as [|[k v] fields IHfields]; constructor.
    + apply IH.
    + exact IHfields.
Qed.

Lemma jsonify_defined (v : value) : jsonify v <> VUndefined.
Proof.
  destruct v; cbn; try discriminate.
  unfold json_number. destruct (_ || _); [discriminate|].
  destruct (PrimFloat.eqb x 0); discriminate.
Qed.

Lemma jsonify_object (fields : list (string * value)) :
  jsonify (VObject fields) = VObject (json_fields fields).
Proof. reflexivity. Qed.

Lemma json_fields_cons (k : string) (v : value) (fields : list (string * value)) :
  v <> VUndefined ->
  json_fields ((k, v) :: fields) = (k, jsonify v) :: json_fields fields.
Proof. intros Hv. unfold json_fields. cbn. now destruct v. Qed.

(** A property that holds data keeps its name and its place among the
    properties that are kept. *)
Lemma lookup_json_fields (k : string) (fields : list (string * value)) (v : value) :
  lookup k fields = Some v -> v <> VUndefined ->
  lookup k (json_fields fields) = Some (jsonify v).
Proof.
  induction fields as [|[k' v'] fields IH]; cbn [lookup]; [discriminate|].
  destruct (String.eqb k k') eqn:E.
  - intros [= ->] Hv. rewrite json_fields_cons by assumption. cbn [lookup]. now rewrite E.
  - intros Hlookup Hv. specialize (IH Hlookup Hv).
    destruct v'; try (rewrite json_fields_cons by discriminate; cbn [lookup]; now rewrite E).
    exact IH.
Qed.

Lemma lookup_assign_other (k k' : string) (x : value) (fields : list (string * value)) :
  String.eqb k k' = false -> lookup k (assign k' x fields) = lookup k fields.
Proof.
  intros Hne. induction fields as [|[k0 v0] fields IH]; cbn.
  - now rewrite Hne.
  - destruct (String.eqb k' k0) eqn:E0; cbn.
    + rewrite Hne. apply String.eqb_eq in E0. subst k0. now rewrite Hne.
    + now rewrite IH.
Qed.

Lemma lookup_assign_same (k : string) (x : value) (fields : list (string * value)) :
  lookup k (assign k x fields) = Some x.
Proof.
  induction fields as [|[k0 v0] fields IH]; cbn.
  - now rewrite String.eqb_refl.
  - destruct (String.eqb k k0) eqn:E0; cbn.
    + now rewrite String.eqb_refl.
    + now rewrite E0.
Qed.

(** An array of exact data is its own JSON image. *)
Lemma jsonify_array_exact (items : list value) :
  Forall json_exact items -> jsonify (VArray items) = VArray items.
Proof.
  intros Hitems. cbn [jsonify]. f_equal.
  induction Hitems as [|v items Hv _ IH]; cbn [map]; [reflexivity|].
  now rewrite Hv, IH.
Qed.

Lemma json_number_exact (x : float) : json_exact (json_number x).
Proof.
  unfold json_exact, json_number.
  destruct (Number.isNaN x || PrimFloat.eqb (abs x) infinity) eqn:E1; [reflexivity|].
  destruct (PrimFloat.eqb x 0) eqn:E2; [reflexivity|].
  cbn [jsonify]. unfold json_number. now rewrite E1, E2.
Qed.

(** A JSON image is exact: saving what was loaded changes nothing. *)
Lemma jsonify_exact (v : value) : json_exact (jsonify v).
Proof.
  induction v as [| |b|x|s|items IH|fields IH] using value_induction;
    try reflexivity.
  - apply json_number_exact.
  - unfold json_exact. cbn [jsonify]. f_equal. rewrite map_map.
    induction IH as [|v items Hv _ IHitems]; cbn [map]; [reflexivity|].
    now rewrite Hv, IHitems.
  - unfold json_exact. rewrite !jsonify_object. f_equal.
    induction IH as [|[k v] fields Hv _ IHfields]; [reflexivity|].
    cbn [snd] in Hv.
    destruct (match v with VUndefined => true | _ => false end) eqn:Eu.
    + destruct v; try discriminate Eu. exact IHfields.
    + rewrite (json_fields_cons k v) by (intros ->; discriminate Eu).
      rewrite json_fields_cons by apply jsonify_defined.
      now rewrite Hv, IHfields.
Qed.

End JsonFacts.

(** ** The index: saving and building *)

Module BuildFacts.

Import Js EmbeddingIndex Vocabulary Scenarios RunFacts JsonFacts.
Local Open Scope string_scope.
Local Open Scope seq_scope.
Local Arguments String.append : simpl never.

Lemma saveIndex_fresh (h : Host) (documents embeddings : list value) (created : string)
    (w : World) :
  saveIndex h
    (VObject [("documents", VArray documents);
              ("embeddings", VArray embeddings);
              ("metadata", VObject [("created", VString created)])]) w
  = (Ok (built_index documents embeddings created (now h (clock w))),
     written (JSON_stringify (built_index documents embeddings created (now h (clock w))))
       (ticked w)).
Proof. reflexivity. Qed.

(** When [saveIndex] returns, its argument was an object; the object is
    returned with its [metadata] replaced, and its JSON text is on disk. *)
Lemma saveIndex_run (h : Host) (index saved : value) (w w' : World) :
  saveIndex h index w = (Ok saved, w') ->
  exists fields metadata,
    index = VObject fields /\
    saved = VObject (assign "metadata" metadata fields) /\
    w' = written (JSON_stringify saved) (ticked w).
Proof.
  unfold saveIndex.
  destruct index as [| |b|x|s|items|fields]; cbn; try discriminate.
  destruct (set _ "updated" _) as [metadata1|e]; [|discriminate].
  destruct (get _ "length") as [count|e]; [|discriminate].
  destruct (set metadata1 "count" count) as [metadata2|e]; [|discriminate].
  intros [= <- <-]. exists fields, metadata2. repeat split.
Qed.

Lemma saved_arrays (fields : list (string * value)) (metadata : value)
    (documents embeddings : list value) :
  arrays (VObject fields) documents embeddings ->
  arrays (VObject (assign "metadata" metadata fields)) documents embeddings.
Proof.
  unfold arrays. cbn [get].
  now rewrite !lookup_assign_other by reflexivity.
Qed.

Lemma stored_arrays (fields : list (string * value)) (documents embeddings : list value) :
  arrays (VObject fields) documents embeddings ->
  arrays (jsonify (VObject fields)) (map jsonify documents) (map jsonify embeddings).
Proof.
  unfold arrays. rewrite jsonify_object. cbn [get].
  intros [Hd He].
  destruct (lookup "documents" fields) as [d|] eqn:Ed; [|discriminate Hd].
  destruct (lookup "embeddings" fields) as [e|] eqn:Ee; [|discriminate He].
  injection Hd as ->. injection He as ->.
  rewrite (lookup_json_fields _ _ _ Ed), (lookup_json_fields _ _ _ Ee) by discriminate.
  split; reflexivity.
Qed.

(** What a run of [buildIndex] does: every text it sends is within the
    budget, and when it returns, the index it returns is the index it
    saved, with as many embeddings as documents. *)
Lemma buildIndex_run (h : Host) (maxDocs : Z) (w : World) :
  exists r w' sent,
    buildIndex h maxDocs w = (r, w') /\
    sends w w' sent /\
    Forall (Forall within_budget) sent /\
    (forall index, r = Ok index ->
       exists entries documents embeddings created updated,
         documents_dir h = Some entries /\
         index = built_index documents embeddings created updated /\
         List.length documents = List.length embeddings /\
         index_file w' = Some (JSON_stringify index) /\
         List.length documents
         <= list_sum (map (batch_length (txtFiles_of entries maxDocs))
                          (batch_starts (List.length (txtFiles_of entries maxDocs))))).
Proof.
  unfold buildIndex.
  do 3 (rewrite run_bind; unfold log at 1).
  rewrite run_bind. unfold readdir_documents.
  destruct (documents_dir h) as [entries|] eqn:Hdir.
  - cbn [ret Sequencing_M]. fold (txtFiles_of entries maxDocs).
    set (txtFiles := txtFiles_of entries maxDocs).
    rewrite run_bind; unfold log at 1.
    rewrite run_bind; unfold new_Date_toISOString at 1.
    rewrite run_bind.
    match goal with
    | |- context [process_batches h txtFiles ?starts ?acc ?w0] =>
        destruct (process_batches_run h txtFiles starts acc w0)
          as (r & w1 & sent & -> & Hsends & Hbudget & Hgrows)
    end.
    destruct r as [built|e].
    + specialize (Hgrows built eq_refl). destruct Hgrows as (docs & embs & -> & Hlen & Hbound).
      cbn [fst snd app]. rewrite run_bind, saveIndex_fresh.
      do 2 (rewrite run_bind; unfold log at 1). cbn [ret Sequencing_M].
      do 3 eexists. split; [reflexivity|]. split; [exact Hsends|]. split; [exact Hbudget|].
      intros index [= <-].
      exists entries, docs, embs. do 2 eexists. repeat split; auto.
    + do 3 eexists. split; [reflexivity|]. split; [exact Hsends|]. split; [exact Hbudget|].
      intros index [=].
  - unfold throw. do 3 eexists. split; [reflexivity|].
    split; [exact (sends_nothing w)|]. split; [constructor|]. intros index [=].
Qed.

(** [buildIndex] returns when the directory can be listed, the client
    is configured and the service answers every request. *)
Lemma buildIndex_returns (h : Host) (maxDocs : Z) (w : World)
    (entries : list (string * option string)) :
  documents_dir h = Some entries ->
  getClient h = true ->
  (forall w0 texts, exists response, embedText h w0 texts = Ok response) ->
  exists index w', buildIndex h maxDocs w = (Ok index, w').
Proof.
  intros Hdir Hclient Hanswers. unfold buildIndex.
  do 3 (rewrite run_bind; unfold log at 1).
  rewrite run_bind. unfold readdir_documents. rewrite Hdir.
  cbn [ret Sequencing_M]. fold (txtFiles_of entries maxDocs).
  rewrite run_bind; unfold log at 1.
  rewrite run_bind; unfold new_Date_toISOString at 1.
  rewrite run_bind.
  match goal with
  | |- context [process_batches h ?files ?starts ?acc ?w0] =>
      destruct (process_batches_returns h files starts Hclient Hanswers acc w0)
        as (built & w1 & ->)
  end.
  rewrite run_bind, saveIndex_fresh.
  do 2 (rewrite run_bind; unfold log at 1). cbn [ret Sequencing_M].
  do 2 eexists. reflexivity.
Qed.

(** *** The batches cover the files once *)

Lemma batch_length_min (txtFiles : list string) (i : nat) :
  batch_length txtFiles i
  = Nat.min (i + batchSize) (List.length txtFiles) - Nat.min i (List.length txtFiles).
Proof. unfold batch_length. now rewrite slice_length, !clamp_index_nat. Qed.

Lemma batches_sum (txtFiles : list string) (m : nat) :
  list_sum (map (batch_length txtFiles) (map (fun k => k * batchSize) (seq 0 m)))
  = Nat.min (m * batchSize) (List.length txtFiles).
Proof.
  induction m as [|m IH]; [reflexivity|].
  rewrite seq_S, !map_app, list_sum_app, IH. cbn [map list_sum Nat.add].
  rewrite batch_length_min. unfold batchSize. cbn [list_sum fold_right]. lia.
Qed.

Lemma batches_total (txtFiles : list string) :
  list_sum (map (batch_length txtFiles) (batch_starts (List.length txtFiles)))
  <= List.length txtFiles.
Proof. unfold batch_starts. rewrite batches_sum. lia. Qed.

Lemma txtFiles_of_length (entries : list (string * option string)) (maxDocs : Z) :
  (0 <= maxDocs)%Z -> List.length (txtFiles_of entries maxDocs) <= Z.to_nat maxDocs.
Proof.
  intros H. unfold txtFiles_of. rewrite slice_prefix by assumption.
  apply firstn_le_length.
Qed.

(** *** Nothing to index *)

Lemma find_file_unreadable (entries : list (string * option string)) (name : string) :
  (forall content, In (name, content) entries -> content = None) ->
  find_file name entries = None.
Proof.
  induction entries as [|[n c] entries IH]; intros Hnone; [reflexivity|].
  cbn [find_file]. destruct (String.eqb name n) eqn:E.
  - apply String.eqb_eq in E. subst n. apply Hnone. now left.
  - apply IH. intros content Hin. apply Hnone. now right.
Qed.

Lemma read_batch_unreadable (h : Host) (entries : list (string * option string))
    (batch : list string) (texts : list string) (docs : list value) (w : World) :
  documents_dir h = Some entries ->
  (forall f, In f batch -> find_file f entries = None) ->
  read_batch h batch texts docs w = (Ok (texts, docs), w).
Proof.
  intros Hdir. induction batch as [|file rest IH]; intros Hnone; [reflexivity|].
  cbn [read_batch]. rewrite run_bind. unfold try_catch at 1. rewrite run_bind.
  unfold readFile_document. rewrite Hdir, (Hnone file) by now left.
  unfold throw. cbn [ret Sequencing_M fst snd].
  apply IH. intros f Hf. apply Hnone. now right.
Qed.

Lemma process_batches_unreadable (h : Host) (entries : list (string * option string))
    (txtFiles : list string) (starts : list nat) (acc : list value * list value) (w : World) :
  documents_dir h = Some entries ->
  (forall f, In f txtFiles -> find_file f entries = None) ->
  process_batches h txtFiles starts acc w = (Ok acc, w).
Proof.
  intros Hdir Hnone. induction starts as [|i rest IH]; [reflexivity|].
  cbn [process_batches]. rewrite run_bind. unfold process_batch. rewrite run_bind.
  rewrite (read_batch_unreadable h entries) by
    (auto; intros f Hf; apply Hnone; now apply slice_In in Hf).
  cbn [fst snd ret Sequencing_M]. exact IH.
Qed.

(** C7. For every content of the source directory, [buildIndex] with
    [maxDocs = 0], or over a directory where no [.txt] file can be read,
    returns and saves an index with no document, no embedding and a
    count of zero (and sends nothing to the service). *)
Theorem buildIndex_nothing_to_index (h : Host) (maxDocs : Z) (w : World)
    (entries : list (string * option string)) :
  documents_dir h = Some entries ->
  maxDocs = 0%Z \/
  (forall name content,
     In (name, content) entries -> Str.endsWith name ".txt" = true -> content = None) ->
  exists index w' created updated,
    buildIndex h maxDocs w = (Ok index, w') /\
    index = VObject [("documents", VArray []);
                     ("embeddings", VArray []);
                     ("metadata", VObject [("created", VString created);
                                           ("updated", VString updated);
                                           ("count", VNumber 0)])] /\
    index_file w' = Some (Parses index) /\
    embed_requests w' = embed_requests w.
Proof.
  intros Hdir Hnothing.
  assert (Hnone : forall f, In f (txtFiles_of entries maxDocs) -> find_file f entries = None).
  { destruct Hnothing as [-> | Hunreadable].
    - unfold txtFiles_of. rewrite slice_prefix by lia. intros f [].
    - intros f Hf. unfold txtFiles_of in Hf. apply slice_In, filter_In in Hf.
      destruct Hf as [_ Htxt]. apply find_file_unreadable.
      intros content Hin. now apply (Hunreadable f content). }
  unfold buildIndex.
  do 3 (rewrite run_bind; unfold log at 1).
  rewrite run_bind. unfold readdir_documents. rewrite Hdir.
  cbn [ret Sequencing_M]. fold (txtFiles_of entries maxDocs).
  rewrite run_bind; unfold log at 1.
  rewrite run_bind; unfold new_Date_toISOString at 1.
  rewrite run_bind, (process_batches_unreadable h entries) by assumption.
  cbn [fst snd]. rewrite run_bind, saveIndex_fresh.
  do 2 (rewrite run_bind; unfold log at 1). cbn [ret Sequencing_M].
  do 4 eexists. split; [reflexivity|]. repeat split.
Qed.

Lemma buildIndex_nothing_to_index_witness :
  exists index w' created updated,
    buildIndex empty_directory 100 no_index_yet = (Ok index, w') /\
    index = VObject [("documents", VArray []);
                     ("embeddings", VArray []);
                     ("metadata", VObject [("created", VString created);
                                           ("updated", VString updated);
                                           ("count", VNumber 0)])] /\
    index_file w' = Some (Parses index) /\
    embed_requests w' = [].
Proof.
  apply (buildIndex_nothing_to_index empty_directory 100 no_index_yet
           [("notes.md", Some "not a text file"); ("locked.txt", None)]).
  - reflexivity.
  - right. intros name content [[= <- <-] | [[= <- <-] | []]] Htxt.
    + discriminate Htxt.
    + reflexivity.
Defined.

(** *** The character budget *)

(** [queryIndex] on an index that is not empty sends the query to the
    embedding endpoint as it is. *)
Lemma queryIndex_sends_query (h : Host) (query : string) (topK : Z) (w : World)
    (index documents : value) :
  index_file w = Some (Parses index) ->
  get index "documents" = Ok documents ->
  length_is_zero documents = Ok false ->
  getClient h = true ->
  embed_requests (snd (queryIndex h query topK w)) = (embed_requests w ++ [[query]])%list.
Proof.
  intros Hfile Hdocs Hsome Hclient.
  unfold queryIndex. rewrite run_bind; unfold log at 1.
  rewrite run_bind, (LoadFacts.loadIndex_parses h _ index) by exact Hfile.
  rewrite run_bind. unfold lift at 1. rewrite Hdocs.
  rewrite run_bind. unfold lift at 1. rewrite Hsome.
  rewrite run_bind. unfold lift at 1.
  destruct (get documents "length") as [count|e] eqn:Hcount.
  - rewrite run_bind; unfold log at 1.
    rewrite run_bind, generateEmbeddings_run by exact Hclient.
    destruct (embedText h _ [query]) as [response|e]; [|reflexivity].
    rewrite run_bind. unfold lift at 1.
    destruct (get index "embeddings") as [embeddings|e]; [|reflexivity].
    rewrite run_bind. unfold lift at 1.
    now destruct (array_map embeddings _).
  - destruct documents; cbn in Hsome, Hcount; discriminate.
Qed.

(** C5, as the code has it. Every text that [buildIndex] sends to the
    embedding endpoint holds at most 500 code units: [buildIndex] cuts
    each document before the call. [generateEmbeddings] itself forwards
    its texts unchanged, and [queryIndex] sends the search query whole. *)
Theorem buildIndex_texts_within_budget (h : Host) (w : World) :
  (forall maxDocs,
     exists sent,
       embed_requests (snd (buildIndex h maxDocs w)) = (embed_requests w ++ sent)%list /\
       forall texts text, In texts sent -> In text texts -> String.length text <= 500) /\
  (forall texts,
     getClient h = true ->
     embed_requests (snd (generateEmbeddings h texts w)) = (embed_requests w ++ [texts])%list) /\
  (forall query topK index documents,
     index_file w = Some (Parses index) ->
     get index "documents" = Ok documents ->
     length_is_zero documents = Ok false ->
     getClient h = true ->
     embed_requests (snd (queryIndex h query topK w)) = (embed_requests w ++ [[query]])%list).
Proof.
  split; [|split].
  - intros maxDocs.
    destruct (buildIndex_run h maxDocs w) as (r & w' & sent & -> & [Hsent _] & Hbudget & _).
    exists sent. split; [exact Hsent|].
    intros texts text Htexts Htext.
    rewrite Forall_forall in Hbudget. specialize (Hbudget texts Htexts).
    rewrite Forall_forall in Hbudget. exact (Hbudget text Htext).
  - intros texts Hclient. now rewrite generateEmbeddings_run.
  - intros query topK index documents. apply queryIndex_sends_query.
Qed.

Lemma buildIndex_texts_within_budget_witness :
  embed_requests (snd (generateEmbeddings empty_directory ["alpha"; "beta"]
                         no_index_yet))
  = [["alpha"; "beta"]].
Proof.
  apply (proj1 (proj2 (buildIndex_texts_within_budget empty_directory no_index_yet))).
  reflexivity.
Defined.

(** The claim as stated fails: a query of 501 code units reaches the
    embedding endpoint whole. *)
Lemma queryIndex_sends_untruncated_query :
  embed_requests (snd (queryIndex empty_directory long_query 5 (indexed one_document)))
  = [[long_query]] /\
  500 < String.length long_query.
Proof. split; [vm_compute; reflexivity | vm_compute; lia]. Qed.

(** *** The alignment of the two arrays *)

Lemma built_index_arrays (documents embeddings : list value) (created updated : string) :
  arrays (built_index documents embeddings created updated) documents embeddings.
Proof. split; reflexivity. Qed.

Lemma map_jsonify_aligned (documents embeddings : list value) :
  List.length documents = List.length embeddings ->
  List.length (map jsonify documents) = List.length (map jsonify embeddings).
Proof. intros H. now rewrite !length_map. Qed.

(** C2, as the code has it. [buildIndex] returns and saves an index with
    as many embeddings as documents; [saveIndex] keeps the two arrays of
    the index it is given, in memory and on disk; [loadIndex] yields an
    aligned index when the file is absent, when it does not parse, and
    when it holds an aligned index. [loadIndex] does not check the file:
    it returns whatever the file holds. [buildIndex] does return when the
    directory can be listed and the service answers. *)
Theorem index_arrays_aligned (h : Host) (w : World) :
  (forall maxDocs index w',
     buildIndex h maxDocs w = (Ok index, w') ->
     aligned index /\
     exists stored, index_file w' = Some (Parses stored) /\ aligned stored) /\
  (forall index saved w',
     aligned index ->
     saveIndex h index w = (Ok saved, w') ->
     aligned saved /\
     exists stored, index_file w' = Some (Parses stored) /\ aligned stored) /\
  (forall index w',
     index_file w = None \/
     index_file w = Some Unparsable \/
     (exists stored, index_file w = Some (Parses stored) /\ aligned stored) ->
     loadIndex h w = (Ok index, w') ->
     aligned index) /\
  (forall maxDocs entries,
     documents_dir h = Some entries ->
     getClient h = true ->
     (forall w0 texts, exists response, embedText h w0 texts = Ok response) ->
     exists index w', buildIndex h maxDocs w = (Ok index, w')).
Proof.
  split; [|split; [|split]]; [| | |intros maxDocs entries; apply buildIndex_returns].
  - intros maxDocs index w' Hrun.
    destruct (buildIndex_run h maxDocs w) as (r & w1 & sent & Hrun1 & _ & _ & Hok).
    rewrite Hrun in Hrun1. injection Hrun1 as <- <-.
    destruct (Hok index eq_refl)
      as (entries & docs & embs & created & updated & _ & -> & Hlen & Hfile & _).
    split.
    + exists docs, embs. split; [apply built_index_arrays | exact Hlen].
    + eexists. split; [exact Hfile|].
      exists (map jsonify docs), (map jsonify embs).
      split; [|now apply map_jsonify_aligned].
      apply (stored_arrays _ docs embs), built_index_arrays.
  - intros index saved w' (docs & embs & Harrays & Hlen) Hrun.
    apply saveIndex_run in Hrun. destruct Hrun as (fields & metadata & -> & -> & ->).
    pose proof (saved_arrays fields metadata docs embs Harrays) as Hsaved.
    split.
    + now exists docs, embs.
    + eexists. split; [reflexivity|].
      exists (map jsonify docs), (map jsonify embs).
      split; [|now apply map_jsonify_aligned].
      now apply stored_arrays.
  - intros index w' [Hfile | [Hfile | (stored & Hfile & Haligned)]] Hrun.
    + rewrite (LoadFacts.loadIndex_empty h w (or_introl Hfile)) in Hrun.
      injection Hrun as <- <-. now exists [], [].
    + rewrite (LoadFacts.loadIndex_empty h w (or_intror Hfile)) in Hrun.
      injection Hrun as <- <-. now exists [], [].
    + rewrite (LoadFacts.loadIndex_parses h w stored Hfile) in Hrun.
      now injection Hrun as <- <-.
Qed.

Lemma index_arrays_aligned_witness :
  aligned (built_index
             [document_entry "a.txt" "alpha"] [vector [1; 0]%float]
             "2025-01-01T00:00:00.000Z" "2025-01-01T00:00:01.000Z").
Proof.
  refine (proj1 (proj1 (index_arrays_aligned one_file no_index_yet) 100%Z _
                   (snd (buildIndex one_file 100 no_index_yet)) _)).
  vm_compute. reflexivity.
Defined.

(** Where the claim as stated fails: [loadIndex] does not check what it
    reads. A file that holds one document and no embedding is loaded as
    it is. *)
Lemma loadIndex_keeps_misaligned_file :
  loadIndex quiet_host (indexed misaligned) = (Ok misaligned, indexed misaligned) /\
  ~ aligned misaligned.
Proof.
  split; [reflexivity|].
  intros (docs & embs & [Hd He] & Hlen).
  injection Hd as <-. injection He as <-. discriminate Hlen.
Qed.

(** *** Saving, then loading *)

Lemma map_jsonify_exact (items : list value) :
  Forall json_exact items -> map jsonify items = items.
Proof.
  induction 1 as [|v items Hv _ IH]; cbn [map]; [reflexivity|].
  now rewrite Hv, IH.
Qed.

(** C4, as the code has it. After [saveIndex], [loadIndex] yields the
    JSON images of the documents and of the embeddings, element by element
    and in order; the arrays are equal to the originals when they hold
    only data that JSON represents exactly (no [undefined] entry, no NaN
    or infinite number, no negative zero). *)
Theorem save_then_load (h : Host) (index saved : value) (w w' : World)
    (documents embeddings : list value) :
  saveIndex h index w = (Ok saved, w') ->
  arrays index documents embeddings ->
  exists loaded,
    loadIndex h w' = (Ok loaded, w') /\
    arrays loaded (map jsonify documents) (map jsonify embeddings) /\
    (Forall json_exact documents -> Forall json_exact embeddings ->
     arrays loaded documents embeddings).
Proof.
  intros Hrun Harrays.
  apply saveIndex_run in Hrun. destruct Hrun as (fields & metadata & -> & -> & ->).
  pose proof (saved_arrays fields metadata documents embeddings Harrays) as Hsaved.
  apply stored_arrays in Hsaved.
  eexists. split; [apply LoadFacts.loadIndex_parses; reflexivity|].
  split; [exact Hsaved|].
  intros Hd He. now rewrite (map_jsonify_exact documents), (map_jsonify_exact embeddings) in Hsaved.
Qed.

Lemma save_then_load_witness :
  exists loaded,
    loadIndex one_file after_save = (Ok loaded, after_save) /\
    arrays loaded
      (map jsonify [VObject [("filename", VString "a.txt"); ("preview", VString "alpha");
                             ("length", VNumber 5)]])
      (map jsonify [vector [1; 0]%float]) /\
    (Forall json_exact [VObject [("filename", VString "a.txt"); ("preview", VString "alpha");
                                 ("length", VNumber 5)]] ->
     Forall json_exact [vector [1; 0]%float] ->
     arrays loaded
       [VObject [("filename", VString "a.txt"); ("preview", VString "alpha");
                 ("length", VNumber 5)]]
       [vector [1; 0]%float]).
Proof.
  apply (save_then_load one_file freshly_built one_document (ticked no_index_yet)).
  - vm_compute. reflexivity.
  - split; reflexivity.
Defined.

(** Where the claim as stated fails. When the service returns fewer
    vectors than texts, [buildIndex] stores [undefined] for the missing
    ones and hands this index to [saveIndex]. *)
Example buildIndex_stores_undefined :
  exists saved,
    fst (buildIndex without_vectors 100 no_index_yet) = Ok saved /\
    fst (saveIndex without_vectors missing_vector (ticked no_index_yet)) = Ok saved.
Proof. eexists. split; vm_compute; reflexivity. Qed.

(** The file then holds [null] at that place, and so does the index once
    reloaded. *)
Lemma save_then_load_changes_undefined :
  exists saved w' loaded,
    saveIndex without_vectors missing_vector no_index_yet = (Ok saved, w') /\
    loadIndex without_vectors w' = (Ok loaded, w') /\
    get missing_vector "embeddings" = Ok (VArray [VUndefined]) /\
    get loaded "embeddings" = Ok (VArray [VNull]) /\
    VArray [VNull] <> VArray [VUndefined].
Proof.
  do 3 eexists. split; [lazy; reflexivity|]. split; [lazy; reflexivity|].
  split; [reflexivity|]. split; [reflexivity|]. discriminate.
Qed.

(** *** The [build] case of [main] *)

Lemma buildIndex_at_most (h : Host) (maxDocs : Z) (w w' : World) (index : value) :
  (0 <= maxDocs)%Z ->
  buildIndex h maxDocs w = (Ok index, w') ->
  exists documents embeddings,
    arrays index documents embeddings /\
    List.length documents <= Z.to_nat maxDocs.
Proof.
  intros Hmax Hrun.
  destruct (buildIndex_run h maxDocs w) as (r & w1 & sent & Hrun1 & _ & _ & Hok).
  rewrite Hrun in Hrun1. injection Hrun1 as <- <-.
  destruct (Hok index eq_refl)
    as (entries & docs & embs & created & updated & _ & -> & _ & _ & Hbound).
  exists docs, embs. split; [apply built_index_arrays|].
  pose proof (batches_total (txtFiles_of entries maxDocs)).
  pose proof (txtFiles_of_length entries maxDocs Hmax). lia.
Qed.

(** C10. The [build] subcommand reads its argument with
    [parseInt(arg) || 100]: the argument ["0"], and every argument that
    [parseInt] reads as NaN, gives [maxDocs = 100]. So [build 0] runs
    [buildIndex(100)], which indexes up to 100 documents, and not
    [buildIndex(0)], whose index is empty. *)
Theorem build_zero_is_build_100 (h : Host) (w : World) :
  build_maxDocs (Some "0") = 100%Z /\
  (forall arg, parseInt arg = None -> build_maxDocs arg = 100%Z) /\
  main_build h (Some "0") w = buildIndex h 100 w /\
  (forall index w',
     main_build h (Some "0") w = (Ok index, w') ->
     exists documents embeddings,
       arrays index documents embeddings /\ List.length documents <= 100) /\
  (forall index w',
     buildIndex h 0 w = (Ok index, w') -> arrays index [] []).
Proof.
  split; [reflexivity|]. split; [|split; [reflexivity|split]].
  - intros arg Hnan. unfold build_maxDocs. now rewrite Hnan.
  - intros index w' Hrun.
    change (main_build h (Some "0") w) with (buildIndex h 100 w) in Hrun.
    apply buildIndex_at_most in Hrun; [exact Hrun | lia].
  - intros index w' Hrun.
    destruct (buildIndex_run h 0 w) as (r & w1 & sent & Hrun1 & _ & _ & Hok).
    rewrite Hrun in Hrun1. injection Hrun1 as <- <-.
    destruct (Hok index eq_refl)
      as (entries & docs & embs & created & updated & _ & -> & Hlen & _ & Hbound).
    pose proof (batches_total (txtFiles_of entries 0)).
    pose proof (txtFiles_of_length entries 0 (Z.le_refl 0)).
    destruct docs; [|cbn in *; lia]. destruct embs; [|discriminate Hlen].
    apply built_index_arrays.
Qed.

Lemma build_zero_is_build_100_witness : build_maxDocs (Some "all") = 100%Z.
Proof.
  apply (proj1 (proj2 (build_zero_is_build_100 one_file no_index_yet))).
  reflexivity.
Defined.

(** On a directory with one text file, [build 0] indexes it, and
    [buildIndex(0)] indexes nothing. *)
Example build_zero_indexes_a_document :
  (exists index w', main_build one_file (Some "0") no_index_yet = (Ok index, w') /\
                    arrays index [document_entry "a.txt" "alpha"] [vector [1; 0]%float]) /\
  (exists index w', buildIndex one_file 0 no_index_yet = (Ok index, w') /\
                    arrays index [] []).
Proof.
  split; do 2 eexists; (split; [vm_compute; reflexivity | split; reflexivity]).
Qed.

(** What [parseInt] reads. *)
Example parseInt_examples :
  parseInt (Some "0") = Some 0%Z /\
  parseInt (Some "-0") = Some 0%Z /\
  parseInt (Some "25") = Some 25%Z /\
  parseInt (Some "  42px") = Some 42%Z /\
  parseInt (Some "0x1f") = Some 31%Z /\
  parseInt (Some "-7") = Some (-7)%Z /\
  parseInt (Some "all") = None /\
  parseInt (Some "") = None /\
  parseInt None = None.
Proof. repeat split. Qed.

End BuildFacts.

(** ** Sorting *)

Module SortFacts.

Import EmbeddingIndex Vocabulary.

Section Insertion.

Context {A : Type}.
Variable after : A -> A -> bool.

Lemma insert_permutation (x : A) (l : list A) : Permutation (insert after x l) (x :: l).
Proof.
  induction l as [|y l IH]; cbn [insert]; [reflexivity|].
  destruct (after x y); [|reflexivity].
  rewrite IH. apply perm_swap.
Qed.

Lemma sort_permutation (l : list A) : Permutation (sort after l) l.
Proof.
  induction l as [|x l IH]; cbn [sort fold_right]; [reflexivity|].
  fold (sort after l). rewrite insert_permutation. now constructor.
Qed.

Lemma sort_In (l : list A) (x : A) : In x (sort after l) <-> In x l.
Proof.
  split; apply Permutation_in; [|symmetry]; apply sort_permutation.
Qed.

(** When the comparator tests a strict order of integer keys, the sort
    puts the keys in descending order. *)
Variable rank : A -> Z.

Lemma insert_descending (x : A) (l : list A) :
  (forall y, In y l -> after x y = (rank x <? rank y)%Z) ->
  StronglySorted (descending rank) l ->
  StronglySorted (descending rank) (insert after x l).
Proof.
  intros Hafter Hsorted.
  induction Hsorted as [|y l Hsorted IH Hall]; cbn [insert].
  - repeat constructor.
  - rewrite (Hafter y) by now left.
    destruct (Z.ltb_spec (rank x) (rank y)) as [Hlt|Hge].
    + constructor.
      * apply IH. intros z Hz. apply Hafter. now right.
      * rewrite Forall_forall. intros z Hz.
        apply (Permutation_in _ (insert_permutation x l)) in Hz.
        destruct Hz as [<-|Hz]; [unfold descending; lia|].
        rewrite Forall_forall in Hall. now apply Hall.
    + constructor; [now constructor|].
      constructor; [exact Hge|].
      rewrite Forall_forall in Hall |- *. intros z Hz.
      specialize (Hall z Hz). unfold descending in *. lia.
Qed.

Lemma sort_descending (l : list A) :
  (forall x y, In x l -> In y l -> after x y = (rank x <? rank y)%Z) ->
  StronglySorted (descending rank) (sort after l).
Proof.
  induction l as [|x l IH]; intros Hafter; cbn [sort fold_right]; [constructor|].
  fold (sort after l). apply insert_descending.
  - intros y Hy. apply (proj1 (sort_In l y)) in Hy. apply Hafter; [now left | now right].
  - apply IH. intros y z Hy Hz. apply Hafter; now right.
Qed.

End Insertion.

(** Sorting the images of a list sorts the list. *)
Lemma insert_map {A B : Type} (f : A -> B) (after : B -> B -> bool) (x : A) (l : list A) :
  insert after (f x) (map f l) = map f (insert (fun a b => after (f a) (f b)) x l).
Proof.
  induction l as [|y l IH]; cbn [insert map]; [reflexivity|].
  destruct (after (f x) (f y)); cbn [map]; [now rewrite IH | reflexivity].
Qed.

Lemma sort_map {A B : Type} (f : A -> B) (after : B -> B -> bool) (l : list A) :
  sort after (map f l) = map f (sort (fun a b => after (f a) (f b)) l).
Proof.
  induction l as [|x l IH]; cbn [sort fold_right map]; [reflexivity|].
  fold (sort after (map f l)). fold (sort (fun a b => after (f a) (f b)) l).
  now rewrite IH, insert_map.
Qed.

(** In a sorted list, what comes first dominates what comes after. *)
Lemma firstn_dominates {A : Type} (R : A -> A -> Prop) (l : list A) :
  StronglySorted R l ->
  forall n x y, In x (firstn n l) -> In y (skipn n l) -> R x y.
Proof.
  induction 1 as [|a l Hsorted IH Hall]; intros n x y Hx Hy.
  - destruct n; contradiction.
  - destruct n as [|n]; [contradiction|].
    cbn [firstn skipn] in Hx, Hy. destruct Hx as [<-|Hx].
    + rewrite Forall_forall in Hall. apply Hall.
      rewrite <- (firstn_skipn n l). apply in_or_app. now right.
    + now apply (IH n).
Qed.

Lemma firstn_sorted {A : Type} (R : A -> A -> Prop) (l : list A) (n : nat) :
  StronglySorted R l -> StronglySorted R (firstn n l).
Proof.
  intros Hsorted. revert n.
  induction Hsorted as [|a l Hsorted IH Hall]; intros [|n]; cbn [firstn]; try constructor.
  - apply IH.
  - rewrite Forall_forall in Hall |- *. intros x Hx. apply Hall.
    rewrite <- (firstn_skipn n l). apply in_or_app. now left.
Qed.

Lemma map_sorted {A B : Type} (f : A -> B) (R : B -> B -> Prop) (l : list A) :
  StronglySorted (fun a b => R (f a) (f b)) l -> StronglySorted R (map f l).
Proof.
  induction 1 as [|a l Hsorted IH Hall]; cbn [map]; constructor; [assumption|].
  rewrite Forall_forall in Hall |- *. intros y Hy.
  apply in_map_iff in Hy. destruct Hy as (x & <- & Hx). now apply Hall.
Qed.

End SortFacts.

(** ** Search *)

Module QueryFacts.

Import Js EmbeddingIndex Vocabulary Scenarios RunFacts JsonFacts SimilarityFacts SortFacts.
Local Open Scope string_scope.
Local Open Scope seq_scope.
Local Arguments String.append : simpl never.

(** *** The similarity of the query to a stored vector *)

Lemma to_number_nth (h : Host) (v : list float) (i : nat) :
  to_number (ToNumber h) (nth i (map VNumber v) VUndefined) = elem v i.
Proof.
  unfold elem. revert i. induction v as [|x v IH]; intros [|i]; cbn; auto.
Qed.

Lemma elem_numbers (h : Host) (v : list float) (n i : nat) :
  i < n -> elem (numbers h (vector v) n) i = elem v i.
Proof.
  intros Hi. unfold elem at 1, numbers.
  rewrite (nth_indep _ PrimFloat.nan
             (to_number (ToNumber h) (element (vector v) 0)))
    by now rewrite length_map, length_seq.
  rewrite (map_nth (fun i => to_number (ToNumber h) (element (vector v) i))).
  rewrite seq_nth by assumption. cbn [Nat.add].
  apply to_number_nth.
Qed.

Lemma similarity_with_vector (h : Host) (q v : list float) :
  similarity_with h (Some q) (vector v) = Ok (cosineSimilarity q v).
Proof.
  unfold similarity_with.
  destruct q as [|x q]; cbn [is_nullish vector]; f_equal;
    apply cosineSimilarity_ext; intros i Hi; now apply elem_numbers.
Qed.

(** *** The results before sorting *)

Lemma similarity_entry (documents : list value) (vectors : list (list float))
    (q : list float) (i : nat) :
  similarity (entry documents vectors q i) = cosineSimilarity q (nth i vectors []).
Proof. unfold similarity, entry. now rewrite lookup_assign_same. Qed.

Lemma map_from_vectors (h : Host) (documents : list value) (vectors : list (list float))
    (q : list float) (vs : list (list float)) :
  forall i,
    (forall j, j < List.length vs -> nth (i + j) vectors [] = nth j vs []) ->
    map_from
      (fun emb i =>
         s <- similarity_with h (Some q) emb ;;
         ret (VObject (assign "similarity" (VNumber s)
                         (spread (element (VArray documents) i)))))
      i (map vector vs)
    = Ok (map (entry documents vectors q) (seq i (List.length vs))).
Proof.
  induction vs as [|v vs IH]; intros i Hnth; [reflexivity|].
  cbn [map map_from List.length seq]. rewrite similarity_with_vector.
  cbn [bind ret Sequencing_result].
  rewrite IH.
  - cbn [bind ret Sequencing_result]. do 2 f_equal.
    unfold entry. specialize (Hnth 0 (Nat.lt_0_succ _)).
    rewrite Nat.add_0_r in Hnth. now rewrite Hnth.
  - intros j Hj. specialize (Hnth (S j) (proj1 (Nat.succ_lt_mono _ _) Hj)).
    now rewrite Nat.add_succ_r in Hnth.
Qed.

(** *** A run of [queryIndex] on a well-formed index *)

Lemma queryIndex_run (h : Host) (w : World) (query : string) (topK : Z)
    (fields : list (string * value)) (documents : list value)
    (vectors : list (list float)) (response : EmbedResponse) (q : list float)
    (more : list EmbeddingItem) :
  index_file w = Some (Parses (VObject fields)) ->
  lookup "documents" fields = Some (VArray documents) ->
  lookup "embeddings" fields = Some (VArray (map vector vectors)) ->
  getClient h = true ->
  (forall w', embedText h w' [query] = Ok response) ->
  embed_results response = Some ({| embedding := q |} :: more) ->
  exists w',
    queryIndex h query topK w =
    (Ok (match documents with
         | [] => []
         | _ :: _ =>
             slice 0 topK
               (sort by_similarity
                  (map (entry documents vectors q) (seq 0 (List.length vectors))))
         end), w').
Proof.
  intros Hfile Hdocs Hembs Hclient Hservice Hresponse.
  unfold queryIndex. rewrite run_bind; unfold log at 1.
  rewrite run_bind, (LoadFacts.loadIndex_parses h _ (VObject fields)) by exact Hfile.
  rewrite run_bind. unfold lift at 1. cbn [get]. rewrite Hdocs.
  rewrite run_bind. unfold lift at 1. cbn [length_is_zero].
  destruct documents as [|d documents].
  - rewrite run_bind; unfold log at 1. cbn [ret Sequencing_M]. eauto.
  - set (docs := d :: documents) in *.
    rewrite run_bind. unfold lift at 1. cbn [get].
    rewrite run_bind; unfold log at 1.
    rewrite run_bind, generateEmbeddings_run by exact Hclient.
    rewrite Hservice, Hresponse. cbn [map hd_error embedding].
    rewrite run_bind. unfold lift at 1. rewrite Hembs.
    rewrite run_bind. unfold lift at 1. cbn [array_map].
    rewrite (map_from_vectors h docs vectors q vectors 0) by reflexivity.
    cbn [ret Sequencing_M]. eauto.
Qed.

(** *** The order of the results *)

Lemma sorted_weaken {A : Type} (R R' : A -> A -> Prop) (l : list A) :
  (forall x y, In x l -> In y l -> R x y -> R' x y) ->
  StronglySorted R l -> StronglySorted R' l.
Proof.
  intros Himpl Hsorted.
  induction Hsorted as [|a l Hsorted IH Hall]; constructor.
  - apply IH. intros x y Hx Hy. apply Himpl; now right.
  - rewrite Forall_forall in Hall |- *. intros y Hy.
    apply Himpl; [now left | now right | now apply Hall].
Qed.

Section Ranking.

Variables (documents : list value) (vectors : list (list float)) (q : list float).

Hypothesis no_NaN : forall v, In v vectors -> Number.isNaN (cosineSimilarity q v) = false.

Lemma result_not_NaN (i : nat) :
  i < List.length vectors ->
  Number.isNaN (similarity (entry documents vectors q i)) = false.
Proof.
  intros Hi. rewrite similarity_entry. apply no_NaN. now apply nth_In.
Qed.

Lemma after_rank (i j : nat) :
  i < List.length vectors -> j < List.length vectors ->
  result_after documents vectors q i j
  = (result_rank documents vectors q i <? result_rank documents vectors q j)%Z.
Proof.
  intros Hi Hj. unfold result_after, by_similarity, result_rank.
  apply NumberFacts.sub_positive_key; now apply result_not_NaN.
Qed.

Lemma descending_at_least (i j : nat) :
  i < List.length vectors -> j < List.length vectors ->
  descending (result_rank documents vectors q) i j ->
  at_least (entry documents vectors q i) (entry documents vectors q j).
Proof.
  intros Hi Hj Hdesc. unfold at_least.
  rewrite NumberFacts.leb_key by now apply result_not_NaN.
  now apply Z.leb_le.
Qed.

Lemma ranking_In (i : nat) :
  In i (ranking documents vectors q) <-> i < List.length vectors.
Proof.
  unfold ranking. rewrite sort_In, in_seq. lia.
Qed.

Lemma ranking_NoDup : NoDup (ranking documents vectors q).
Proof.
  apply (Permutation_NoDup (l := seq 0 (List.length vectors))); [|apply seq_NoDup].
  symmetry. apply sort_permutation.
Qed.

Lemma ranking_length : List.length (ranking documents vectors q) = List.length vectors.
Proof.
  unfold ranking. rewrite (Permutation_length (sort_permutation _ _)).
  apply length_seq.
Qed.

Lemma ranking_descending :
  StronglySorted (descending (result_rank documents vectors q)) (ranking documents vectors q).
Proof.
  apply sort_descending. intros i j Hi Hj.
  apply in_seq in Hi, Hj. apply after_rank; lia.
Qed.

Lemma sorted_results :
  sort by_similarity (map (entry documents vectors q) (seq 0 (List.length vectors)))
  = map (entry documents vectors q) (ranking documents vectors q).
Proof.
  exact (sort_map (entry documents vectors q) by_similarity (seq 0 (List.length vectors))).
Qed.

End Ranking.

(** C1, as the code has it. Take an index file that holds [N] documents
    and [N] numeric vectors, a service that answers the query with a
    vector, a [topK] that is not negative, and suppose that no similarity
    is NaN. Then [queryIndex] returns [min(topK, N)] results; they are the
    results of distinct documents of the index, each with its own
    similarity; they are in descending order of similarity; and every
    document that is not returned has a similarity at most that of every
    result returned. *)
Theorem queryIndex_top_k (h : Host) (w : World) (query : string) (topK : Z)
    (fields : list (string * value)) (documents : list value)
    (vectors : list (list float)) (response : EmbedResponse) (q : list float)
    (more : list EmbeddingItem) :
  index_file w = Some (Parses (VObject fields)) ->
  lookup "documents" fields = Some (VArray documents) ->
  lookup "embeddings" fields = Some (VArray (map vector vectors)) ->
  List.length documents = List.length vectors ->
  getClient h = true ->
  (forall w', embedText h w' [query] = Ok response) ->
  embed_results response = Some ({| embedding := q |} :: more) ->
  (0 <= topK)%Z ->
  (forall v, In v vectors -> Number.isNaN (cosineSimilarity q v) = false) ->
  exists (order : list nat) (w' : World),
    queryIndex h query topK w = (Ok (map (entry documents vectors q) order), w') /\
    List.length order = Nat.min (Z.to_nat topK) (List.length documents) /\
    NoDup order /\
    (forall i, In i order -> i < List.length documents) /\
    StronglySorted at_least (map (entry documents vectors q) order) /\
    (forall i j,
       In i order -> j < List.length documents -> ~ In j order ->
       at_least (entry documents vectors q i) (entry documents vectors q j)).
Proof.
  intros Hfile Hdocs Hembs Hlen Hclient Hservice Hresponse HtopK HnoNaN.
  destruct (queryIndex_run h w query topK fields documents vectors response q more
              Hfile Hdocs Hembs Hclient Hservice Hresponse) as [w' Hrun].
  destruct documents as [|d documents].
  - exists [], w'. split; [exact Hrun|]. cbn [List.length]. rewrite Nat.min_0_r.
    repeat split; try constructor; intros i; contradiction.
  - set (docs := d :: documents) in *.
    set (k := Z.to_nat topK).
    rewrite sorted_results, slice_prefix, firstn_map in Hrun by assumption.
    fold k in Hrun.
    pose proof (ranking_descending docs vectors q HnoNaN) as Hsorted.
    exists (firstn k (ranking docs vectors q)), w'.
    split; [exact Hrun|].
    split; [now rewrite length_firstn, ranking_length, Hlen|].
    split.
    { apply (NoDup_app_remove_r _ (skipn k (ranking docs vectors q))).
      rewrite firstn_skipn. apply ranking_NoDup. }
    split.
    { intros i Hi. rewrite Hlen. apply (ranking_In docs vectors q).
      rewrite <- (firstn_skipn k (ranking docs vectors q)). apply in_or_app. now left. }
    assert (Hin : forall i, In i (firstn k (ranking docs vectors q)) ->
                            i < List.length vectors).
    { intros i Hi. apply (ranking_In docs vectors q).
      rewrite <- (firstn_skipn k (ranking docs vectors q)). apply in_or_app. now left. }
    split.
    { apply map_sorted.
      apply (sorted_weaken
               (descending (result_rank docs vectors q))).
      - intros i j Hi Hj. apply descending_at_least; auto.
      - apply firstn_sorted. exact Hsorted. }
    intros i j Hi Hj Hnot.
    apply descending_at_least; auto; [lia|].
    apply (firstn_dominates _ _ Hsorted k); [exact Hi|].
    assert (Hj' : In j (ranking docs vectors q)) by (apply ranking_In; lia).
    rewrite <- (firstn_skipn k (ranking docs vectors q)) in Hj'.
    apply in_app_or in Hj'. now destruct Hj'.
Qed.

(** The scenario of the specification, with [topK = 2]. *)
Lemma queryIndex_top_k_witness :
  exists (order : list nat) (w' : World),
    queryIndex (answering [1; 0]%float) "query" 2 three_indexed
    = (Ok (map (entry three_documents three_vectors [1; 0]%float) order), w') /\
    List.length order = Nat.min (Z.to_nat 2) (List.length three_documents) /\
    NoDup order /\
    (forall i, In i order -> i < List.length three_documents) /\
    StronglySorted at_least (map (entry three_documents three_vectors [1; 0]%float) order) /\
    (forall i j,
       In i order -> j < List.length three_documents -> ~ In j order ->
       at_least (entry three_documents three_vectors [1; 0]%float i)
                (entry three_documents three_vectors [1; 0]%float j)).
Proof.
  apply (queryIndex_top_k (answering [1; 0]%float) three_indexed "query" 2 three_fields
           three_documents three_vectors
           {| embed_results := Some [{| embedding := [1; 0]%float |}] |} [1; 0]%float []).
  - reflexivity.
  - reflexivity.
  - reflexivity.
  - reflexivity.
  - reflexivity.
  - intros w'. reflexivity.
  - reflexivity.
  - lia.
  - intros v [<- | [<- | [<- | []]]]; vm_compute; reflexivity.
Defined.

(** The first document (similarity 1) and the third (similarity about
    0.994), in this order. *)
Example queryIndex_scenario :
  fst (queryIndex (answering [1; 0]%float) "query" 2 three_indexed)
  = Ok [VObject [("filename", VString "first"); ("similarity", VNumber 1)];
        VObject [("filename", VString "third");
                 ("similarity", VNumber 0.9938837346736189)]].
Proof. vm_compute. reflexivity. Qed.

(** Where the claim as stated fails. A stored vector of norm zero has
    similarity NaN. The comparator then returns NaN, which the sort reads
    as [+0]: the document keeps its place, ahead of a document of
    similarity 1. With two results there is one pair to compare, so every
    stable sort leaves the array as it is. *)
Lemma queryIndex_returns_NaN_first :
  exists returned,
    fst (queryIndex (answering [1; 0]%float) "query" 1 zero_then_unit) = Ok [returned] /\
    get returned "filename" = Ok (VString "zero") /\
    Number.isNaN (similarity returned) = true /\
    cosineSimilarity [1; 0]%float [1; 0]%float = 1%float /\
    PrimFloat.leb 1 (similarity returned) = false.
Proof.
  eexists. split; [vm_compute; reflexivity|].
  repeat split; vm_compute; reflexivity.
Qed.

(** With [topK = 2] both documents are returned, NaN first. *)
Example queryIndex_unsorted_with_NaN :
  map similarity
    (match fst (queryIndex (answering [1; 0]%float) "query" 2 zero_then_unit) with
     | Ok results => results
     | Throw _ => []
     end)
  = [PrimFloat.nan; 1%float].
Proof. vm_compute. reflexivity. Qed.

(** A negative [topK] counts from the end: [slice(0, -1)] drops the last
    result. *)
Example queryIndex_negative_topK :
  fst (queryIndex (answering [1; 0]%float) "query" (-1) three_indexed)
  = Ok [VObject [("filename", VString "first"); ("similarity", VNumber 1)];
        VObject [("filename", VString "third");
                 ("similarity", VNumber 0.9938837346736189)]].
Proof. vm_compute. reflexivity. Qed.

End QueryFacts.

(** ** Vectors of norm zero, vectors of different lengths *)

Module VectorFacts.

Import Number EmbeddingIndex Vocabulary IndexVocabulary NumberFacts SimilarityFacts.

Lemma is_zero_spec (x : float) : is_zero x = true -> exists s, Prim2SF x = S754_zero s.
Proof.
  unfold is_zero. rewrite eqb_spec.
  change (Prim2SF 0) with (S754_zero false).
  destruct (Prim2SF x) as [s|s| |s m e]; try discriminate; eauto;
    destruct s; discriminate.
Qed.

Lemma isNaN_true (x : float) : Prim2SF x = S754_nan -> isNaN x = true.
Proof.
  intros H. unfold isNaN, PrimFloat.is_nan. rewrite eqb_spec, H. reflexivity.
Qed.

(** *** Arithmetic on zeros and NaN *)

Lemma mul_zero_l (x y : spec_float) : zero_or_NaN x -> zero_or_NaN (SF64mul x y).
Proof. unfold SF64mul, SFmul. destruct x, y; simpl; auto; contradiction. Qed.

Lemma mul_zero_r (x y : spec_float) : zero_or_NaN y -> zero_or_NaN (SF64mul x y).
Proof. rewrite SF64mul_comm. apply mul_zero_l. Qed.

Lemma add_zero (x y : spec_float) :
  zero_or_NaN x -> zero_or_NaN y -> zero_or_NaN (SF64add x y).
Proof.
  unfold SF64add, SFadd.
  destruct x as [[]|[]| |], y as [[]|[]| |]; simpl; auto; contradiction.
Qed.

Lemma sqrt_zero (x : spec_float) : zero_or_NaN x -> zero_or_NaN (SF64sqrt x).
Proof. unfold SF64sqrt, SFsqrt. destruct x; simpl; auto; contradiction. Qed.

Lemma div_zero (x y : spec_float) :
  zero_or_NaN x -> zero_or_NaN y -> SF64div x y = S754_nan.
Proof. unfold SF64div, SFdiv. destruct x, y; simpl; intros; auto; contradiction. Qed.

Lemma add_nan_l (x y : float) : Prim2SF x = S754_nan -> Prim2SF (x + y) = S754_nan.
Proof. intros H. rewrite add_spec, H. reflexivity. Qed.

Lemma add_nan_r (x y : float) : Prim2SF y = S754_nan -> Prim2SF (x + y) = S754_nan.
Proof.
  intros H. rewrite add_spec, H. unfold SF64add, SFadd. now destruct (Prim2SF x).
Qed.

Lemma mul_nan_r (x y : float) : Prim2SF y = S754_nan -> Prim2SF (x * y) = S754_nan.
Proof.
  intros H. rewrite mul_spec, H. unfold SF64mul, SFmul. now destruct (Prim2SF x).
Qed.

Lemma div_nan_l (x y : float) : Prim2SF x = S754_nan -> Prim2SF (x / y) = S754_nan.
Proof. intros H. rewrite div_spec, H. reflexivity. Qed.

(** *** The loop over a vector of zeros *)

(** A component of a vector of zeros is a zero, or [undefined] past its
    end, which arithmetic reads as NaN. *)
Lemma elem_zero (a : list float) (i : nat) :
  Forall (fun x => is_zero x = true) a -> zero_or_NaN (Prim2SF (elem a i)).
Proof.
  intros Hzero. unfold elem.
  destruct (nth_in_or_default i a PrimFloat.nan) as [Hin | ->]; [|exact I].
  rewrite Forall_forall in Hzero.
  destruct (is_zero_spec _ (Hzero _ Hin)) as [s ->]. exact I.
Qed.

Lemma fold_zero_left (a b : list float) (l : list nat) :
  (forall i, zero_or_NaN (Prim2SF (elem a i))) ->
  forall dot normA normB,
    zero_or_NaN (Prim2SF dot) -> zero_or_NaN (Prim2SF normA) ->
    zero_or_NaN (Prim2SF (fst (fst (fold_left (step a b) l (dot, normA, normB))))) /\
    zero_or_NaN (Prim2SF (snd (fst (fold_left (step a b) l (dot, normA, normB))))).
Proof.
  intros Hzero.
  induction l as [|i l IH]; intros dot normA normB Hdot HnormA; cbn [fold_left]; [auto|].
  unfold step at 2 4.
  apply IH; rewrite add_spec, mul_spec;
    (apply add_zero; [assumption | apply mul_zero_l, Hzero]).
Qed.

Lemma fold_zero_right (a b : list float) (l : list nat) :
  (forall i, zero_or_NaN (Prim2SF (elem b i))) ->
  forall dot normA normB,
    zero_or_NaN (Prim2SF dot) -> zero_or_NaN (Prim2SF normB) ->
    zero_or_NaN (Prim2SF (fst (fst (fold_left (step a b) l (dot, normA, normB))))) /\
    zero_or_NaN (Prim2SF (snd (fold_left (step a b) l (dot, normA, normB)))).
Proof.
  intros Hzero.
  induction l as [|i l IH]; intros dot normA normB Hdot HnormB; cbn [fold_left]; [auto|].
  unfold step at 2 4.
  apply IH; rewrite add_spec, mul_spec;
    (apply add_zero; [assumption | apply mul_zero_r, Hzero]).
Qed.

(** X1. [cosineSimilarity] has no guard for a zero norm: when every
    component of one operand is zero (the empty vector included), the
    result is NaN, whatever the other operand and on either side. *)
Theorem cosineSimilarity_of_zeros (a b : list float) :
  Forall (fun x => is_zero x = true) a ->
  isNaN (cosineSimilarity a b) = true /\ isNaN (cosineSimilarity b a) = true.
Proof.
  intros Hzero. split; rewrite cosineSimilarity_fold.
  - destruct (fold_zero_left a b (seq 0 (List.length a))
                (fun i => elem_zero a i Hzero) 0 0 0 I I)%float as [Hdot Hnorm].
    destruct (fold_left (step a b) (seq 0 (List.length a)) (0, 0, 0)%float)
      as [[dot normA] normB]. cbn [fst snd] in Hdot, Hnorm.
    apply isNaN_true. rewrite div_spec, mul_spec, !sqrt_spec.
    apply div_zero; [assumption|]. now apply mul_zero_l, sqrt_zero.
  - destruct (fold_zero_right b a (seq 0 (List.length b))
                (fun i => elem_zero a i Hzero) 0 0 0 I I)%float as [Hdot Hnorm].
    destruct (fold_left (step b a) (seq 0 (List.length b)) (0, 0, 0)%float)
      as [[dot normA] normB]. cbn [fst snd] in Hdot, Hnorm.
    apply isNaN_true. rewrite div_spec, mul_spec, !sqrt_spec.
    apply div_zero; [assumption|]. now apply mul_zero_r, sqrt_zero.
Qed.

Lemma cosineSimilarity_of_zeros_witness :
  isNaN (cosineSimilarity [0; -0]%float [1; 2]%float) = true /\
  isNaN (cosineSimilarity [1; 2]%float [0; -0]%float) = true.
Proof.
  apply (cosineSimilarity_of_zeros [0; -0]%float [1; 2]%float).
  repeat constructor.
Defined.

(** *** The loop past the end of the second operand *)

Lemma fold_keeps_nan (a b : list float) (l : list nat) :
  forall dot normA normB,
    Prim2SF dot = S754_nan ->
    Prim2SF (fst (fst (fold_left (step a b) l (dot, normA, normB)))) = S754_nan.
Proof.
  induction l as [|i l IH]; intros dot normA normB Hdot; cbn [fold_left]; [exact Hdot|].
  unfold step at 2. apply IH. now apply add_nan_l.
Qed.

Lemma fold_meets_nan (a b : list float) (l : list nat) (i : nat) :
  In i l -> Prim2SF (elem b i) = S754_nan ->
  forall dot normA normB,
    Prim2SF (fst (fst (fold_left (step a b) l (dot, normA, normB)))) = S754_nan.
Proof.
  intros Hin Hnan. induction l as [|j l IH]; intros dot normA normB; [contradiction|].
  cbn [fold_left]. unfold step at 2. destruct Hin as [-> | Hin].
  - apply fold_keeps_nan. now apply add_nan_r, mul_nan_r.
  - now apply IH.
Qed.

Lemma elem_firstn (b : list float) (n i : nat) : i < n -> elem (firstn n b) i = elem b i.
Proof.
  unfold elem. revert n i. induction b as [|x b IH]; intros n i H.
  - now rewrite firstn_nil.
  - destruct n as [|n]; [lia|]. destruct i as [|i]; cbn [firstn nth]; [reflexivity|].
    apply IH. lia.
Qed.

(** X2. The loop of [cosineSimilarity] runs over the indices of its first
    operand: when the second is shorter the result is NaN (a component
    read past its end is [undefined]); when it is longer, the components
    past [a.length] are not read. *)
Theorem cosineSimilarity_other_lengths (a b : list float) :
  (List.length b < List.length a -> isNaN (cosineSimilarity a b) = true) /\
  cosineSimilarity a b = cosineSimilarity a (firstn (List.length a) b).
Proof.
  split.
  - intros Hshort. rewrite cosineSimilarity_fold.
    pose proof (fold_meets_nan a b (seq 0 (List.length a)) (List.length b)) as Hfold.
    destruct (fold_left (step a b) (seq 0 (List.length a)) (0, 0, 0)%float)
      as [[dot normA] normB] eqn:E.
    apply isNaN_true, div_nan_l.
    specialize (Hfold ltac:(apply in_seq; lia)).
    assert (Hnan : Prim2SF (elem b (List.length b)) = S754_nan).
    { unfold elem. now rewrite nth_overflow. }
    specialize (Hfold Hnan 0 0 0)%float. now rewrite E in Hfold.
  - apply cosineSimilarity_ext. intros i Hi. symmetry. now apply elem_firstn.
Qed.

End VectorFacts.

(** ** What a build indexes *)

Module IndexingFacts.

Import Js EmbeddingIndex Vocabulary Scenarios IndexVocabulary FurtherScenarios.
Import RunFacts JsonFacts BuildFacts.
Local Open Scope string_scope.
Local Open Scope seq_scope.
Local Arguments String.append : simpl never.

(** *** The inner loop, exactly *)

Lemma read_batch_exact (h : Host) (entries : list (string * option string))
    (batch : list string) :
  documents_dir h = Some entries ->
  forall (texts : list string) (docs : list value) (w : World),
    read_batch h batch texts docs w
    = (Ok ((texts ++ texts_for (readable entries batch))%list,
           (docs ++ entries_for (readable entries batch))%list), w).
Proof.
  intros Hdir. induction batch as [|file rest IH]; intros texts docs w.
  - cbn. now rewrite !app_nil_r.
  - cbn [read_batch]. rewrite run_bind. unfold try_catch at 1. rewrite run_bind.
    unfold readFile_document. rewrite Hdir.
    unfold readable. cbn [flat_map]. fold (readable entries rest).
    destruct (find_file file entries) as [content|].
    + cbn [ret Sequencing_M fst snd]. rewrite IH.
      unfold texts_for, entries_for. cbn [app map fst snd].
      now rewrite <- !app_assoc.
    + unfold throw. cbn [ret Sequencing_M fst snd app]. apply IH.
Qed.

Lemma readable_length (entries : list (string * option string)) (files : list string) :
  List.length (readable entries files) <= List.length files.
Proof.
  induction files as [|f files IH]; [reflexivity|].
  unfold readable. cbn [flat_map]. fold (readable entries files).
  destruct (find_file f entries); rewrite length_app; cbn [List.length]; lia.
Qed.

Lemma readable_In (entries : list (string * option string)) (files : list string)
    (file content : string) :
  In (file, content) (readable entries files) <->
  In file files /\ find_file file entries = Some content.
Proof.
  unfold readable. rewrite in_flat_map. split.
  - intros (f & Hf & Hin). destruct (find_file f entries) as [c|] eqn:E; [|contradiction].
    destruct Hin as [[= <- <-]|[]]. auto.
  - intros [Hf Hfind]. exists file. split; [assumption|]. rewrite Hfind. now left.
Qed.

(** *** The outer loop, exactly *)

(** One round: the documents it adds, the request it sends, and the file
    it leaves alone. *)
Lemma process_batch_exact (h : Host) (entries : list (string * option string))
    (txtFiles : list string) (i : nat) (acc : list value * list value) (w : World) :
  documents_dir h = Some entries ->
  exists r w',
    process_batch h txtFiles i acc w = (r, w') /\
    index_file w' = index_file w /\
    (forall acc', r = Ok acc' ->
       fst acc' = (fst acc ++ entries_for (readable entries (batch_at txtFiles i)))%list /\
       sends w w' (request_of entries (batch_at txtFiles i))).
Proof.
  intros Hdir. unfold process_batch. rewrite run_bind.
  fold (batch_at txtFiles i).
  rewrite (read_batch_exact h entries) by assumption.
  cbn [app fst snd]. unfold request_of.
  destruct (texts_for (readable entries (batch_at txtFiles i))) as [|t texts] eqn:Htexts.
  - exists (Ok acc), w. split; [reflexivity|]. split; [reflexivity|].
    intros acc' [= <-]. split; [|apply sends_nothing].
    unfold texts_for in Htexts. apply map_eq_nil in Htexts. rewrite Htexts.
    cbn. now rewrite app_nil_r.
  - rewrite run_bind. unfold log at 1. rewrite run_bind.
    unfold generateEmbeddings.
    destruct (getClient h).
    + rewrite run_bind. unfold request_embedText at 1.
      destruct (embedText h _ (t :: texts)) as [response|e].
      * cbn [ret Sequencing_M]. do 2 eexists. split; [reflexivity|]. split; [reflexivity|].
        intros acc' [= <-]. cbn [fst]. split; [reflexivity|]. split; reflexivity.
      * do 2 eexists. split; [reflexivity|]. split; [reflexivity|]. intros acc' [=].
    + unfold throw. do 2 eexists. split; [reflexivity|]. split; [reflexivity|]. intros acc' [=].
Qed.

Lemma process_batches_exact (h : Host) (entries : list (string * option string))
    (txtFiles : list string) (starts : list nat) :
  documents_dir h = Some entries ->
  forall (acc : list value * list value) (w : World),
  exists r w',
    process_batches h txtFiles starts acc w = (r, w') /\
    index_file w' = index_file w /\
    (forall acc', r = Ok acc' ->
       fst acc' = (fst acc ++ entries_for (readable entries
                                 (flat_map (batch_at txtFiles) starts)))%list /\
       sends w w' (flat_map (fun i => request_of entries (batch_at txtFiles i)) starts)).
Proof.
  intros Hdir. induction starts as [|i rest IH]; intros acc w.
  - exists (Ok acc), w. split; [reflexivity|]. split; [reflexivity|].
    intros acc' [= <-]. split; [|apply sends_nothing].
    cbn. now rewrite app_nil_r.
  - cbn [process_batches]. rewrite run_bind.
    destruct (process_batch_exact h entries txtFiles i acc w Hdir)
      as (r & w1 & -> & Hfile1 & Hok1).
    destruct r as [acc1|e].
    + destruct (IH acc1 w1) as (r & w2 & -> & Hfile2 & Hok2).
      exists r, w2. split; [reflexivity|]. split; [congruence|].
      intros acc' ->. destruct (Hok1 acc1 eq_refl) as [Hd1 Hs1].
      destruct (Hok2 acc' eq_refl) as [Hd2 Hs2].
      split.
      * rewrite Hd2, Hd1. cbn [flat_map]. unfold readable, entries_for.
        now rewrite flat_map_app, map_app, app_assoc.
      * cbn [flat_map]. apply (sends_then w w1 w2); assumption.
    + exists (Throw e), w1. split; [reflexivity|]. split; [assumption|]. intros acc' [=].
Qed.

(** *** The batches cover the files, in order *)

Lemma firstn_plus {A : Type} (a k : nat) (l : list A) :
  firstn (a + k) l = (firstn a l ++ firstn k (skipn a l))%list.
Proof.
  revert l. induction a as [|a IH]; intros l; [reflexivity|].
  destruct l as [|x l]; cbn [Nat.add firstn skipn app].
  - now rewrite firstn_nil.
  - now rewrite IH.
Qed.

Lemma batch_at_firstn (l : list string) (i : nat) :
  batch_at l i = firstn batchSize (skipn i l).
Proof.
  unfold batch_at, slice. rewrite !clamp_index_nat.
  destruct (Nat.le_gt_cases (List.length l) i) as [Hle|Hgt].
  - rewrite !Nat.min_r by lia. rewrite Nat.sub_diag.
    rewrite !skipn_all2 by lia. now rewrite !firstn_nil.
  - rewrite (Nat.min_l i) by lia.
    destruct (Nat.le_gt_cases (List.length l) (i + batchSize)).
    + rewrite Nat.min_r by lia.
      rewrite !firstn_all2; rewrite ?length_skipn; try lia. reflexivity.
    + rewrite Nat.min_l by lia. f_equal. lia.
Qed.

Lemma batch_at_length (txtFiles : list string) (i : nat) :
  List.length (batch_at txtFiles i) <= batchSize.
Proof. rewrite batch_at_firstn. apply firstn_le_length. Qed.

Lemma flat_map_batches (l : list string) (m : nat) :
  flat_map (batch_at l) (map (fun k => k * batchSize) (seq 0 m)) = firstn (m * batchSize) l.
Proof.
  induction m as [|m IH]; [reflexivity|].
  rewrite seq_S, map_app, flat_map_app, IH. cbn [map flat_map Nat.add]. rewrite app_nil_r.
  rewrite batch_at_firstn.
  replace (S m * batchSize) with (m * batchSize + batchSize) by lia.
  now rewrite firstn_plus.
Qed.

Lemma batches_cover (l : list string) :
  flat_map (batch_at l) (batch_starts (List.length l)) = l.
Proof.
  unfold batch_starts. rewrite flat_map_batches. apply firstn_all2.
  unfold batchSize.
  pose proof (Nat.div_mod_eq (List.length l + 10 - 1) 10).
  pose proof (Nat.mod_upper_bound (List.length l + 10 - 1) 10). lia.
Qed.

(** *** A run of [buildIndex], exactly *)

(** Over a directory that can be listed: a failure leaves the index file
    as it was; a success saves the entries of the readable files, in
    order, after one request per batch that has a readable file. *)
Lemma buildIndex_exact (h : Host) (maxDocs : Z) (w : World)
    (entries : list (string * option string)) :
  documents_dir h = Some entries ->
  exists r w',
    buildIndex h maxDocs w = (r, w') /\
    (forall e, r = Throw e -> index_file w' = index_file w) /\
    (forall index, r = Ok index ->
       exists embeddings created updated,
         index = built_index
                   (entries_for (readable entries (txtFiles_of entries maxDocs)))
                   embeddings created updated /\
         sends w w' (requests_of entries (txtFiles_of entries maxDocs)) /\
         index_file w' = Some (JSON_stringify index)).
Proof.
  intros Hdir. unfold buildIndex.
  do 3 (rewrite run_bind; unfold log at 1).
  rewrite run_bind. unfold readdir_documents. rewrite Hdir.
  cbn [ret Sequencing_M]. fold (txtFiles_of entries maxDocs).
  set (txtFiles := txtFiles_of entries maxDocs).
  rewrite run_bind; unfold log at 1.
  rewrite run_bind; unfold new_Date_toISOString at 1.
  rewrite run_bind.
  match goal with
  | |- context [process_batches h txtFiles ?starts ?acc ?w0] =>
      destruct (process_batches_exact h entries txtFiles starts Hdir acc w0)
        as (r & w1 & -> & Hfile & Hok)
  end.
  destruct r as [built|e].
  - destruct (Hok built eq_refl) as [Hdocs Hsends]. destruct built as [docs embs].
    cbn [fst snd app] in *. rewrite batches_cover in Hdocs. subst docs.
    rewrite run_bind, saveIndex_fresh.
    do 2 (rewrite run_bind; unfold log at 1). cbn [ret Sequencing_M].
    do 2 eexists. split; [reflexivity|]. split; [intros e [=]|].
    intros index [= <-]. do 3 eexists. split; [reflexivity|].
    split; [exact Hsends | reflexivity].
  - do 2 eexists. split; [reflexivity|]. split; [|intros index [=]].
    intros _ _. exact Hfile.
Qed.

(** X3. [buildIndex] indexes exactly the [.txt] files it can read among
    those it considers, in the order of the directory listing: one
    document per readable file, as many embeddings, and a count equal to
    that number. It returns whenever the directory can be listed, the
    client is configured and the service answers. *)
Theorem buildIndex_indexes_readable_files (h : Host) (maxDocs : Z) (w : World)
    (entries : list (string * option string)) :
  documents_dir h = Some entries ->
  (getClient h = true ->
   (forall w0 texts, exists response, embedText h w0 texts = Ok response) ->
   exists index w', buildIndex h maxDocs w = (Ok index, w')) /\
  (forall index w',
     buildIndex h maxDocs w = (Ok index, w') ->
     exists embeddings metadata,
       arrays index (entries_for (readable entries (txtFiles_of entries maxDocs))) embeddings /\
       List.length embeddings
       = List.length (readable entries (txtFiles_of entries maxDocs)) /\
       get index "metadata" = Ok metadata /\
       get metadata "count"
       = Ok (VNumber (Number.of_nat
                        (List.length (readable entries (txtFiles_of entries maxDocs)))))).
Proof.
  intros Hdir. split; [exact (buildIndex_returns h maxDocs w entries Hdir)|].
  intros index w' Hrun.
  destruct (buildIndex_exact h maxDocs w entries Hdir) as (r & w1 & Hrun1 & _ & Hok).
  rewrite Hrun in Hrun1. injection Hrun1 as <- <-.
  destruct (Hok index eq_refl) as (embeddings & created & updated & Hindex & _).
  destruct (buildIndex_run h maxDocs w) as (r & w1 & sent & Hrun1 & _ & _ & Hok').
  rewrite Hrun in Hrun1. injection Hrun1 as <- <-.
  destruct (Hok' index eq_refl)
    as (entries' & docs & embs & created' & updated' & _ & Hindex' & Hlen & _).
  rewrite Hindex in Hindex'. injection Hindex' as Hd He _ _ _. subst docs embs.
  unfold entries_for in Hlen. rewrite length_map in Hlen.
  exists embeddings. eexists. subst index. split; [apply built_index_arrays|].
  split; [now symmetry|]. split; [reflexivity|].
  cbn. unfold entries_for. now rewrite length_map.
Qed.

Lemma buildIndex_indexes_readable_files_witness :
  exists index w', buildIndex empty_directory 100 no_index_yet = (Ok index, w').
Proof.
  refine (proj1 (buildIndex_indexes_readable_files empty_directory 100 no_index_yet
                   [("notes.md", Some "not a text file"); ("locked.txt", None)] eq_refl)
            eq_refl _).
  intros w0 texts. eexists. reflexivity.
Defined.

(** *** The requests of a build *)

Lemma request_of_shape (entries : list (string * option string)) (batch : list string) :
  Forall (fun texts => texts <> [] /\ List.length texts <= List.length batch /\
                       Forall within_budget texts)
         (request_of entries batch).
Proof.
  unfold request_of.
  destruct (texts_for (readable entries batch)) as [|t texts] eqn:E; constructor; [|constructor].
  split; [discriminate|]. rewrite <- E. split.
  - unfold texts_for. rewrite length_map. apply readable_length.
  - unfold texts_for. apply Forall_forall. intros x Hx.
    apply in_map_iff in Hx. destruct Hx as (p & <- & _). apply substring0_within_budget.
Qed.

(** X4. A build that returns has sent one embedding request per batch of
    ten files in which a file could be read, in order, and nothing else:
    no request is empty, none holds more than ten texts, each text is the
    first 500 code units of a readable file, and nothing goes to the
    text-generation endpoint. *)
Theorem buildIndex_one_request_per_batch (h : Host) (maxDocs : Z) (w w' : World)
    (entries : list (string * option string)) (index : value) :
  documents_dir h = Some entries ->
  buildIndex h maxDocs w = (Ok index, w') ->
  embed_requests w'
  = (embed_requests w ++ requests_of entries (txtFiles_of entries maxDocs))%list /\
  generate_requests w' = generate_requests w /\
  Forall (fun texts => texts <> [] /\ List.length texts <= 10 /\ Forall within_budget texts)
         (requests_of entries (txtFiles_of entries maxDocs)).
Proof.
  intros Hdir Hrun.
  destruct (buildIndex_exact h maxDocs w entries Hdir) as (r & w1 & Hrun1 & _ & Hok).
  rewrite Hrun in Hrun1. injection Hrun1 as <- <-.
  destruct (Hok index eq_refl) as (embeddings & created & updated & _ & [Hsent Hgen] & _).
  split; [exact Hsent|]. split; [exact Hgen|].
  unfold requests_of. apply Forall_flat_map, Forall_forall. intros i _.
  apply (Forall_impl _ (P := fun texts => texts <> [] /\
            List.length texts <= List.length (batch_at (txtFiles_of entries maxDocs) i) /\
            Forall within_budget texts)); [|apply request_of_shape].
  intros texts (Hne & Hlen & Hbudget). repeat split; auto.
  pose proof (batch_at_length (txtFiles_of entries maxDocs) i). unfold batchSize in *. lia.
Qed.

Lemma buildIndex_one_request_per_batch_witness :
  embed_requests (snd (buildIndex one_file 100 no_index_yet)) = [["alpha"]] /\
  generate_requests (snd (buildIndex one_file 100 no_index_yet)) = [] /\
  Forall (fun texts => texts <> [] /\ List.length texts <= 10 /\ Forall within_budget texts)
         [["alpha"]].
Proof.
  refine (buildIndex_one_request_per_batch one_file 100 no_index_yet
            (snd (buildIndex one_file 100 no_index_yet)) [("a.txt", Some "alpha")]
            one_document eq_refl _).
  vm_compute. reflexivity.
Defined.

(** X5. A build that fails (the directory cannot be listed, the client is
    missing, or the service rejects a request) leaves the index file as
    it was: the file is written once, at the end. *)
Theorem buildIndex_failure_keeps_index_file (h : Host) (maxDocs : Z) (w w' : World)
    (e : error) :
  buildIndex h maxDocs w = (Throw e, w') ->
  index_file w' = index_file w /\ generate_requests w' = generate_requests w.
Proof.
  intros Hrun. split.
  - destruct (documents_dir h) as [entries|] eqn:Hdir.
    + destruct (buildIndex_exact h maxDocs w entries Hdir) as (r & w1 & Hrun1 & Hfail & _).
      rewrite Hrun in Hrun1. injection Hrun1 as <- <-. now apply (Hfail e).
    + unfold buildIndex in Hrun.
      do 3 (rewrite run_bind in Hrun; unfold log at 1 in Hrun).
      rewrite run_bind in Hrun. unfold readdir_documents in Hrun. rewrite Hdir in Hrun.
      unfold throw in Hrun. now injection Hrun as _ <-.
  - destruct (buildIndex_run h maxDocs w) as (r & w1 & sent & Hrun1 & [_ Hgen] & _).
    rewrite Hrun in Hrun1. now injection Hrun1 as <- <-.
Qed.

Lemma buildIndex_failure_keeps_index_file_witness :
  index_file (snd (buildIndex unlisted 100 (indexed one_document)))
  = Some (Parses one_document) /\
  generate_requests (snd (buildIndex unlisted 100 (indexed one_document))) = [].
Proof.
  refine (buildIndex_failure_keeps_index_file unlisted 100 (indexed one_document)
            (snd (buildIndex unlisted 100 (indexed one_document)))
            (SystemError ("ENOENT: no such file or directory, scandir '"
                            ++ DOCUMENTS_PATH ++ "'")) _).
  vm_compute. reflexivity.
Defined.

(** *** The vectors of a build *)

Lemma embedding_at_all (vectors : list (list float)) :
  map (embedding_at vectors) (seq 0 (List.length vectors)) = map vector vectors.
Proof.
  induction vectors as [|v vectors IH]; [reflexivity|].
  cbn [List.length seq map]. f_equal.
  rewrite <- seq_shift, map_map. exact IH.
Qed.

Lemma process_batch_vectors (h : Host) (entries : list (string * option string))
    (txtFiles : list string) (i : nat) (acc : list value * list value) (w : World) :
  documents_dir h = Some entries ->
  getClient h = true ->
  one_vector_per_text h ->
  vectors_only (snd acc) ->
  exists acc' w', process_batch h txtFiles i acc w = (Ok acc', w') /\ vectors_only (snd acc').
Proof.
  intros Hdir Hclient Hservice [vs Hvs]. unfold process_batch. rewrite run_bind.
  rewrite (read_batch_exact h entries) by assumption. cbn [app fst snd].
  destruct (texts_for (readable entries _)) as [|t texts] eqn:Htexts.
  - exists acc, w. split; [reflexivity | now exists vs].
  - rewrite run_bind. unfold log at 1.
    rewrite run_bind, generateEmbeddings_run by exact Hclient.
    match goal with
    | |- context [embedText h ?w0 (t :: texts)] =>
        destruct (Hservice w0 (t :: texts)) as (items & -> & Hlen)
    end.
    cbn [embed_results ret Sequencing_M]. do 2 eexists. split; [reflexivity|].
    cbn [snd]. exists (vs ++ map embedding items)%list.
    rewrite map_app, Hvs. f_equal.
    replace (List.length (entries_for (readable entries
               (slice (Z.of_nat i) (Z.of_nat (i + batchSize)) txtFiles))))
      with (List.length (map embedding items)).
    + apply embedding_at_all.
    + rewrite length_map, Hlen, <- Htexts. unfold texts_for, entries_for.
      now rewrite !length_map.
Qed.

Lemma process_batches_vectors (h : Host) (entries : list (string * option string))
    (txtFiles : list string) (starts : list nat) :
  documents_dir h = Some entries ->
  getClient h = true ->
  one_vector_per_text h ->
  forall (acc : list value * list value) (w : World),
    vectors_only (snd acc) ->
    exists acc' w', process_batches h txtFiles starts acc w = (Ok acc', w') /\
                    vectors_only (snd acc').
Proof.
  intros Hdir Hclient Hservice.
  induction starts as [|i rest IH]; intros acc w Hacc; [now exists acc, w|].
  cbn [process_batches]. rewrite run_bind.
  destruct (process_batch_vectors h entries txtFiles i acc w Hdir Hclient Hservice Hacc)
    as (acc1 & w1 & -> & Hacc1).
  now apply IH.
Qed.

(** X6. When the service answers every request with one vector per text,
    [buildIndex] returns an index whose embeddings are all vectors of the
    service, one per document: no entry of the array is [undefined]. *)
Theorem buildIndex_stores_vectors (h : Host) (maxDocs : Z) (w : World)
    (entries : list (string * option string)) :
  documents_dir h = Some entries ->
  getClient h = true ->
  one_vector_per_text h ->
  exists index w' documents vectors,
    buildIndex h maxDocs w = (Ok index, w') /\
    arrays index documents (map vector vectors) /\
    List.length vectors = List.length documents /\
    ~ In VUndefined (map vector vectors).
Proof.
  intros Hdir Hclient Hservice.
  assert (Hreturns : exists index w', buildIndex h maxDocs w = (Ok index, w')).
  { apply (buildIndex_returns h maxDocs w entries Hdir Hclient).
    intros w0 texts. destruct (Hservice w0 texts) as (items & -> & _). eauto. }
  destruct Hreturns as (index & w' & Hrun).
  destruct (buildIndex_run h maxDocs w) as (r & w1 & sent & Hrun1 & _ & _ & Hok).
  rewrite Hrun in Hrun1. injection Hrun1 as <- <-.
  destruct (Hok index eq_refl)
    as (entries' & docs & embs & created & updated & _ & Hindex & Hlen & _).
  assert (Hvectors : vectors_only embs).
  { revert Hrun. unfold buildIndex.
    do 3 (rewrite run_bind; unfold log at 1).
    rewrite run_bind. unfold readdir_documents. rewrite Hdir.
    cbn [ret Sequencing_M].
    rewrite run_bind; unfold log at 1.
    rewrite run_bind; unfold new_Date_toISOString at 1.
    rewrite run_bind.
    match goal with
    | |- context [process_batches h ?files ?starts ?acc ?w0] =>
        destruct (process_batches_vectors h entries files starts Hdir Hclient Hservice acc w0)
          as (built & w1 & -> & Hbuilt); [now exists []|]
    end.
    rewrite run_bind, saveIndex_fresh.
    do 2 (rewrite run_bind; unfold log at 1). cbn [ret Sequencing_M].
    intros [= Hsaved _]. rewrite Hindex in Hsaved.
    injection Hsaved as _ He _. now rewrite <- He. }
  destruct Hvectors as [vectors ->].
  exists index, w', docs, vectors. split; [exact Hrun|].
  split; [rewrite Hindex; apply built_index_arrays|].
  split; [now rewrite length_map in Hlen|].
  intros Hin. apply in_map_iff in Hin. destruct Hin as (v & Hv & _). discriminate Hv.
Qed.

Lemma buildIndex_stores_vectors_witness :
  exists index w' documents vectors,
    buildIndex one_file 100 no_index_yet = (Ok index, w') /\
    arrays index documents (map vector vectors) /\
    List.length vectors = List.length documents /\
    ~ In VUndefined (map vector vectors).
Proof.
  refine (buildIndex_stores_vectors one_file 100 no_index_yet [("a.txt", Some "alpha")]
            eq_refl eq_refl _).
  intros w texts. eexists. split; [reflexivity|]. apply length_map.
Defined.

(** *** A negative count *)

Lemma slice_drop_last {A : Type} (l : list A) (stop : Z) :
  (stop < 0)%Z -> slice 0 stop l = firstn (List.length l - Z.to_nat (- stop)) l.
Proof.
  intros H. unfold slice, clamp_index. cbn [Z.ltb Z.compare Z.to_nat Nat.min skipn].
  destruct (stop <? 0)%Z eqn:E; [|lia].
  rewrite Nat.sub_0_r. f_equal. lia.
Qed.

(** X7. A negative [maxDocs] does not bound the build: [slice(0, maxDocs)]
    then drops that many [.txt] files from the end of the listing, and
    the build indexes the readable files among the others. *)
Theorem buildIndex_negative_maxDocs (h : Host) (maxDocs : Z) (w w' : World)
    (entries : list (string * option string)) (index : value) :
  documents_dir h = Some entries ->
  (maxDocs < 0)%Z ->
  buildIndex h maxDocs w = (Ok index, w') ->
  get index "documents"
  = Ok (VArray (entries_for (readable entries
          (firstn (List.length (filter (fun f => Str.endsWith f ".txt") (map fst entries))
                   - Z.to_nat (- maxDocs))
                  (filter (fun f => Str.endsWith f ".txt") (map fst entries)))))).
Proof.
  intros Hdir Hneg Hrun.
  destruct (buildIndex_exact h maxDocs w entries Hdir) as (r & w1 & Hrun1 & _ & Hok).
  rewrite Hrun in Hrun1. injection Hrun1 as <- <-.
  destruct (Hok index eq_refl) as (embeddings & created & updated & -> & _).
  unfold txtFiles_of. now rewrite slice_drop_last.
Qed.

Lemma buildIndex_negative_maxDocs_witness :
  match fst (buildIndex one_file (-1) no_index_yet) with
  | Ok index => get index "documents" = Ok (VArray [])
  | Throw _ => False
  end.
Proof.
  destruct (buildIndex one_file (-1) no_index_yet) as [[index|e] w'] eqn:Hrun.
  - exact (buildIndex_negative_maxDocs one_file (-1) no_index_yet w'
             [("a.txt", Some "alpha")] index eq_refl eq_refl Hrun).
  - vm_compute in Hrun. discriminate Hrun.
Defined.

(** *** The entries of a build *)

Lemma replace_newlines_length (s : string) :
  String.length (Str.replace_newlines s) = String.length s.
Proof. induction s as [|c s IH]; cbn; congruence. Qed.

Lemma replace_newlines_get (s : string) (i : nat) :
  String.get i (Str.replace_newlines s) <> Some Str.newline_char.
Proof.
  revert i. induction s as [|c s IH]; intros i; [destruct i; discriminate|].
  cbn [Str.replace_newlines]. destruct i as [|i]; cbn [String.get]; [|apply IH].
  destruct (Ascii.eqb c Str.newline_char) eqn:E; [discriminate|].
  intros [= ->]. now rewrite Ascii.eqb_refl in E.
Qed.

Lemma substring_shorter (n m : nat) (s : string) :
  String.length (String.substring n m s) <= String.length s.
Proof.
  revert n m. induction s as [|c s IH]; intros [|n] [|m]; cbn; try lia.
  - specialize (IH 0 m). lia.
  - specialize (IH n 0). lia.
  - specialize (IH n (S m)). lia.
Qed.

(** X8. Every document of a built index describes a [.txt] file of the
    directory that could be read: its [length] is the length of the whole
    file, and its [preview] has at most 200 code units, no more than the
    file, and no line feed. *)
Theorem buildIndex_document_entries (h : Host) (maxDocs : Z) (w w' : World)
    (entries : list (string * option string)) (index : value) (documents : list value)
    (d : value) :
  documents_dir h = Some entries ->
  buildIndex h maxDocs w = (Ok index, w') ->
  get index "documents" = Ok (VArray documents) ->
  In d documents ->
  exists file content preview,
    d = VObject [("filename", VString file);
                 ("preview", VString preview);
                 ("length", VNumber (Number.of_nat (String.length content)))] /\
    Str.endsWith file ".txt" = true /\
    find_file file entries = Some content /\
    String.length preview <= 200 /\
    String.length preview <= String.length content /\
    (forall i, String.get i preview <> Some Str.newline_char).
Proof.
  intros Hdir Hrun Hdocs Hd.
  destruct (buildIndex_exact h maxDocs w entries Hdir) as (r & w1 & Hrun1 & _ & Hok).
  rewrite Hrun in Hrun1. injection Hrun1 as <- <-.
  destruct (Hok index eq_refl) as (embeddings & created & updated & -> & _).
  injection Hdocs as <-.
  unfold entries_for in Hd. apply in_map_iff in Hd. destruct Hd as ([file content] & <- & Hin).
  apply readable_In in Hin. destruct Hin as [Hfile Hfind].
  unfold txtFiles_of in Hfile. apply slice_In, filter_In in Hfile.
  exists file, content. eexists. split; [reflexivity|].
  split; [apply Hfile|]. split; [exact Hfind|].
  rewrite replace_newlines_length. repeat split.
  - apply substring_length.
  - cbn [snd]. unfold Str.substring0.
    etransitivity; [apply substring_shorter|]. apply substring_shorter.
  - apply replace_newlines_get.
Qed.

Lemma buildIndex_document_entries_witness :
  exists file content preview,
    document_entry "a.txt" "alpha"
    = VObject [("filename", VString file);
               ("preview", VString preview);
               ("length", VNumber (Number.of_nat (String.length content)))] /\
    Str.endsWith file ".txt" = true /\
    find_file file [("a.txt", Some "alpha")] = Some content /\
    String.length preview <= 200 /\
    String.length preview <= String.length content /\
    (forall i, String.get i preview <> Some Str.newline_char).
Proof.
  refine (buildIndex_document_entries one_file 100 no_index_yet
            (snd (buildIndex one_file 100 no_index_yet)) [("a.txt", Some "alpha")]
            one_document [document_entry "a.txt" "alpha"] (document_entry "a.txt" "alpha")
            eq_refl _ _ _).
  - vm_compute. reflexivity.
  - vm_compute. reflexivity.
  - left. reflexivity.
Defined.

(** *** The count of [build] *)

Ltac read_digit :=
  match goal with
  | |- context [digit 10 ?c] =>
      let v := eval vm_compute in (digit 10 c) in change (digit 10 c) with v
  end.

(** Reading the digits of a numeral, most significant first. *)
Lemma digits_numeral (d : Decimal.uint) (n : nat) :
  digits 10 (NilEmpty.string_of_uint d) (Some (Z.of_nat n))
  = Some (Z.of_nat (Nat.of_uint_acc d n)).
Proof.
  revert n. induction d as [|d IH|d IH|d IH|d IH|d IH|d IH|d IH|d IH|d IH|d IH]; intros n;
    [reflexivity|..];
    cbn [NilEmpty.string_of_uint digits Nat.of_uint_acc]; read_digit;
    rewrite <- IH; do 2 f_equal; rewrite Nat.tail_mul_spec; lia.
Qed.

Lemma digits_first (d : Decimal.uint) :
  d <> Decimal.Nil ->
  digits 10 (NilEmpty.string_of_uint d) None
  = Some (Z.of_nat (Nat.of_uint d)).
Proof.
  unfold Nat.of_uint. rewrite <- digits_numeral.
  destruct d; [congruence|..]; intros _;
    cbn [NilEmpty.string_of_uint digits]; read_digit; reflexivity.
Qed.

(** A numeral has no white space, no sign and no [0x] in front. *)
Lemma parseInt_string_numeral (d : Decimal.uint) :
  d <> Decimal.Nil ->
  parseInt_string (NilEmpty.string_of_uint d) = digits 10 (NilEmpty.string_of_uint d) None.
Proof.
  intros Hd. unfold parseInt_string.
  assert (Htrim : Str.trimStart (NilEmpty.string_of_uint d) = NilEmpty.string_of_uint d)
    by (destruct d; [congruence|..]; reflexivity).
  rewrite Htrim.
  destruct d as [|d|d|d|d|d|d|d|d|d|d]; [congruence|..];
    cbn [NilEmpty.string_of_uint]; cbv iota.
  2-10: now destruct (digits 10 _ None); cbn [option_map]; rewrite ?Z.mul_1_l.
  destruct d; cbn [NilEmpty.string_of_uint]; cbv iota;
    now destruct (digits 10 _ None); cbn [option_map]; rewrite ?Z.mul_1_l.
Qed.

Lemma parseInt_of_nat (n : nat) : parseInt_string (Str.of_nat n) = Some (Z.of_nat n).
Proof.
  unfold Str.of_nat, NilZero.string_of_uint.
  destruct (Nat.to_uint n) as [|d|d|d|d|d|d|d|d|d|d] eqn:E.
  1: { pose proof (DecimalNat.Unsigned.of_to n) as H. rewrite E in H. now subst n. }
  all: rewrite parseInt_string_numeral, digits_first by discriminate;
    now rewrite <- E, DecimalNat.Unsigned.of_to.
Qed.

(** A numeral after a minus sign. *)
Lemma parseInt_string_minus (d : Decimal.uint) :
  d <> Decimal.Nil ->
  parseInt_string (String "-" (NilEmpty.string_of_uint d))
  = option_map (Z.mul (-1)) (digits 10 (NilEmpty.string_of_uint d) None).
Proof.
  intros Hd. unfold parseInt_string.
  change (Str.trimStart (String "-" (NilEmpty.string_of_uint d)))
    with (String "-" (NilEmpty.string_of_uint d)).
  cbv iota beta.
  destruct d as [|d|d|d|d|d|d|d|d|d|d]; [congruence|..];
    cbn [NilEmpty.string_of_uint]; cbv iota; try reflexivity.
  destruct d; cbn [NilEmpty.string_of_uint]; cbv iota; reflexivity.
Qed.

Lemma parseInt_minus_nat (n : nat) :
  parseInt_string ("-" ++ Str.of_nat n) = Some (- Z.of_nat n)%Z.
Proof.
  unfold Str.of_nat, NilZero.string_of_uint.
  destruct (Nat.to_uint n) as [|d|d|d|d|d|d|d|d|d|d] eqn:E.
  1: { pose proof (DecimalNat.Unsigned.of_to n) as H. rewrite E in H. now subst n. }
  all: change ("-" ++ ?s) with (String "-" s);
    rewrite parseInt_string_minus, digits_first by discriminate;
    rewrite <- E, DecimalNat.Unsigned.of_to; cbn [option_map]; f_equal; lia.
Qed.

(** X9. [build <n>] with the decimal numeral of a positive [n] of at
    most 2^53 (the integers [parseInt] returns as they are written)
    builds with [maxDocs = n]: the count of the command line is the bound
    of the build. With a minus sign in front of the numeral the build
    runs with [maxDocs = -n]: the sign is passed on, not rejected. *)
Theorem build_count_is_honoured (h : Host) (n : nat) (w : World) :
  0 < n ->
  (Z.of_nat n <= 2 ^ 53)%Z ->
  build_maxDocs (Some (Str.of_nat n)) = Z.of_nat n /\
  main_build h (Some (Str.of_nat n)) w = buildIndex h (Z.of_nat n) w /\
  build_maxDocs (Some ("-" ++ Str.of_nat n)) = (- Z.of_nat n)%Z /\
  main_build h (Some ("-" ++ Str.of_nat n)) w = buildIndex h (- Z.of_nat n) w.
Proof.
  intros Hn _.
  assert (H : build_maxDocs (Some (Str.of_nat n)) = Z.of_nat n).
  { unfold build_maxDocs, parseInt. rewrite parseInt_of_nat.
    destruct (Z.eqb_spec (Z.of_nat n) 0); [lia | reflexivity]. }
  assert (H' : build_maxDocs (Some ("-" ++ Str.of_nat n)) = (- Z.of_nat n)%Z).
  { unfold build_maxDocs, parseInt. rewrite parseInt_minus_nat.
    destruct (Z.eqb_spec (- Z.of_nat n) 0); [lia | reflexivity]. }
  split; [exact H|]. split; [unfold main_build; now rewrite H|].
  split; [exact H'|]. unfold main_build. now rewrite H'.
Qed.

Lemma build_count_is_honoured_witness :
  build_maxDocs (Some "200") = 200%Z /\
  main_build one_file (Some "200") no_index_yet = buildIndex one_file 200 no_index_yet /\
  build_maxDocs (Some "-200") = (-200)%Z /\
  main_build one_file (Some "-200") no_index_yet = buildIndex one_file (-200) no_index_yet.
Proof.
  apply (build_count_is_honoured one_file 200 no_index_yet); [lia|].
  vm_compute. discriminate.
Defined.

End IndexingFacts.

(** ** What a search and a RAG query do to the world *)

Module SearchFacts.

Import Js EmbeddingIndex Vocabulary Scenarios IndexVocabulary FurtherScenarios.
Import RunFacts JsonFacts BuildFacts QueryFacts SortFacts.
Local Open Scope string_scope.
Local Open Scope seq_scope.
Local Arguments String.append : simpl never.

Lemma loadIndex_world (h : Host) (w : World) :
  exists index w',
    loadIndex h w = (Ok index, w') /\ (w' = w \/ w' = ticked w).
Proof.
  unfold loadIndex, try_catch, readFile_index. cbn.
  destruct (index_file w) as [[|v]|]; cbn; eauto.
Qed.

Lemma generateEmbeddings_world (h : Host) (texts : list string) (w : World) :
  exists r w',
    generateEmbeddings h texts w = (r, w') /\ (w' = w \/ w' = embed_requested texts w).
Proof.
  destruct (getClient h) eqn:Hclient.
  - rewrite generateEmbeddings_run by assumption. eauto.
  - rewrite generateEmbeddings_no_client by assumption. eauto.
Qed.

Lemma queryIndex_world (h : Host) (query : string) (topK : Z) (w : World) :
  exists r w', queryIndex h query topK w = (r, w') /\ searched query w w'.
Proof.
  unfold queryIndex. rewrite run_bind; unfold log at 1. rewrite run_bind.
  match goal with
  | |- context [loadIndex h ?w0] =>
      destruct (loadIndex_world h w0) as (index & w1 & -> & Hw1)
  end.
  assert (H1 : index_file w1 = index_file w /\ generate_requests w1 = generate_requests w /\
               embed_requests w1 = embed_requests w)
    by (destruct Hw1 as [-> | ->]; repeat split).
  clear Hw1. destruct H1 as (Hfile & Hgen & Hemb).
  assert (Hsame : searched query w w1) by (unfold searched; auto).
  rewrite run_bind. unfold lift at 1.
  destruct (get index "documents") as [documents|e]; [|eauto].
  rewrite run_bind. unfold lift at 1.
  destruct (length_is_zero documents) as [[|]|e]; [| |eauto].
  - rewrite run_bind; unfold log at 1. cbn [ret Sequencing_M]. eauto.
  - rewrite run_bind. unfold lift at 1.
    destruct (get documents "length") as [count|e]; [|eauto].
    rewrite run_bind; unfold log at 1. rewrite run_bind.
    match goal with
    | |- context [generateEmbeddings h [query] ?w0] =>
        destruct (generateEmbeddings_world h [query] w0) as (r & w2 & -> & Hw2)
    end.
    assert (H2 : searched query w w2).
    { destruct Hw2 as [-> | ->]; [exact Hsame|].
      split; [exact Hfile|]. split; [exact Hgen|]. right.
      cbn [embed_requests embed_requested printed]. now rewrite Hemb. }
    destruct r as [vectors|e]; [|eauto].
    rewrite run_bind. unfold lift at 1.
    destruct (get index "embeddings") as [embeddings|e]; [|eauto].
    rewrite run_bind. unfold lift at 1.
    destruct (array_map embeddings _) as [results|e]; cbn [ret Sequencing_M]; eauto.
Qed.

(** X10. A search writes nothing and sends only the query: whatever it returns,
    the index file is as it was, nothing went to the text-generation
    endpoint, and at most one request went to the embedding endpoint,
    holding the query alone. *)
Theorem queryIndex_reads_only (h : Host) (query : string) (topK : Z) (w : World) :
  index_file (snd (queryIndex h query topK w)) = index_file w /\
  generate_requests (snd (queryIndex h query topK w)) = generate_requests w /\
  (embed_requests (snd (queryIndex h query topK w)) = embed_requests w \/
   embed_requests (snd (queryIndex h query topK w)) = (embed_requests w ++ [[query]])%list).
Proof.
  destruct (queryIndex_world h query topK w) as (r & w' & -> & H). exact H.
Qed.

(** X11. When the service answers the query with no vector (no [results]
    field, or an empty one) and the index has a document and an
    embedding, a search does not return: [cosineSimilarity] reads the
    length of [undefined] and the [TypeError] escapes [queryIndex]. *)
Theorem queryIndex_without_query_vector (h : Host) (w : World) (query : string) (topK : Z)
    (fields : list (string * value)) (d e : value) (documents embeddings : list value)
    (response : EmbedResponse) :
  index_file w = Some (Parses (VObject fields)) ->
  lookup "documents" fields = Some (VArray (d :: documents)) ->
  lookup "embeddings" fields = Some (VArray (e :: embeddings)) ->
  getClient h = true ->
  (forall w', embedText h w' [query] = Ok response) ->
  embed_results response = None \/ embed_results response = Some [] ->
  fst (queryIndex h query topK w)
  = Throw (TypeError "Cannot read properties of undefined (reading 'length')").
Proof.
  intros Hfile Hdocs Hembs Hclient Hservice Hnone.
  unfold queryIndex. rewrite run_bind; unfold log at 1.
  rewrite run_bind, (LoadFacts.loadIndex_parses h _ (VObject fields)) by exact Hfile.
  rewrite run_bind. unfold lift at 1. cbn [get]. rewrite Hdocs.
  rewrite run_bind. unfold lift at 1. cbn [length_is_zero].
  rewrite run_bind. unfold lift at 1. cbn [get].
  rewrite run_bind; unfold log at 1.
  rewrite run_bind, generateEmbeddings_run by exact Hclient.
  rewrite Hservice.
  assert (Hvectors : match embed_results response with
                     | Some results => map embedding results
                     | None => []
                     end = []) by (destruct Hnone as [-> | ->]; reflexivity).
  rewrite Hvectors.
  rewrite run_bind. unfold lift at 1. rewrite Hembs.
  rewrite run_bind. unfold lift at 1. reflexivity.
Qed.

Lemma queryIndex_without_query_vector_witness :
  fst (queryIndex without_vectors "alpha" 5 (indexed one_document))
  = Throw (TypeError "Cannot read properties of undefined (reading 'length')").
Proof.
  refine (queryIndex_without_query_vector without_vectors (indexed one_document) "alpha" 5
            _ _ _ _ _ (none ["alpha"]) eq_refl eq_refl eq_refl eq_refl
            (fun _ => eq_refl) (or_introl eq_refl)).
Defined.

Lemma slice_bound {A : Type} (l : list A) (stop : Z) :
  (0 <= stop)%Z -> List.length (slice 0 stop l) <= Z.to_nat stop.
Proof. intros H. rewrite slice_prefix by assumption. apply firstn_le_length. Qed.

Lemma queryIndex_at_most (h : Host) (query : string) (topK : Z) (w w' : World)
    (results : list value) :
  (0 <= topK)%Z ->
  queryIndex h query topK w = (Ok results, w') ->
  List.length results <= Z.to_nat topK.
Proof.
  intros HtopK. unfold queryIndex. rewrite run_bind; unfold log at 1. rewrite run_bind.
  match goal with
  | |- context [loadIndex h ?w0] =>
      destruct (loadIndex_world h w0) as (index & w1 & -> & _)
  end.
  rewrite run_bind. unfold lift at 1.
  destruct (get index "documents") as [documents|e]; [|discriminate].
  rewrite run_bind. unfold lift at 1.
  destruct (length_is_zero documents) as [[|]|e]; [| |discriminate].
  - rewrite run_bind; unfold log at 1. cbn [ret Sequencing_M].
    intros [= <- _]. cbn. lia.
  - rewrite run_bind. unfold lift at 1.
    destruct (get documents "length") as [count|e]; [|discriminate].
    rewrite run_bind; unfold log at 1. rewrite run_bind.
    destruct (generateEmbeddings h [query] _) as [[vectors|e] w2]; [|discriminate].
    rewrite run_bind. unfold lift at 1.
    destruct (get index "embeddings") as [embeddings|e]; [|discriminate].
    rewrite run_bind. unfold lift at 1.
    destruct (array_map embeddings _) as [found|e]; [|discriminate].
    cbn [ret Sequencing_M]. intros [= <- _]. now apply slice_bound.
Qed.

Lemma load_contexts_run (h : Host) (results : list value) :
  forall (contexts : list Context) (w : World),
  exists more,
    load_contexts h results contexts w = (Ok (contexts ++ more)%list, w) /\
    List.length more <= List.length results /\
    Forall within_context more.
Proof.
  induction results as [|result rest IH]; intros contexts w.
  - exists []. rewrite app_nil_r. repeat split; auto.
  - cbn [load_contexts]. rewrite run_bind. unfold try_catch at 1. rewrite run_bind.
    unfold lift at 1.
    destruct (get result "filename") as [filename|e].
    + rewrite run_bind.
      destruct (readFile_document_run h (to_string (ToString h) filename) w)
        as [[content|e] ->]; cbn [ret Sequencing_M].
      * destruct (IH (contexts ++ [{| context_filename := filename;
                                      context_content := Str.substring0 1500 content;
                                      context_similarity := similarity result |}])%list w)
          as (more & -> & Hlen & Hall).
        eexists (_ :: more). rewrite <- app_assoc. split; [reflexivity|].
        cbn [List.length]. split; [lia|]. constructor; [|assumption].
        apply substring_length.
      * destruct (IH contexts w) as (more & -> & Hlen & Hall).
        exists more. cbn [List.length]. repeat split; auto.
    + cbn [ret Sequencing_M].
      destruct (IH contexts w) as (more & -> & Hlen & Hall).
      exists more. cbn [List.length]. repeat split; auto.
Qed.

Lemma log_each_world {A : Type} (line : A -> nat -> string) (items : list A) :
  forall (i : nat) (w : World),
  exists w', log_each line i items w = (Ok tt, w') /\
             index_file w' = index_file w /\
             embed_requests w' = embed_requests w /\
             generate_requests w' = generate_requests w.
Proof.
  induction items as [|x items IH]; intros i w; [now exists w|].
  cbn [log_each]. rewrite run_bind. unfold log at 1.
  destruct (IH (S i) (printed (line x i) w)) as (w' & -> & H). now exists w'.
Qed.

(** X12. Whatever [ragQuery] returns, it leaves the index file as it was
    and sends at most one prompt to the text-generation endpoint; the
    prompt is [rag_prompt] over contexts whose contents hold at most 1500
    code units each, and, for a non-negative [topK], over at most [topK]
    contexts. *)
Theorem ragQuery_prompt (h : Host) (question : string) (topK : Z) (w : World) :
  exists r w',
    ragQuery h question topK w = (r, w') /\
    index_file w' = index_file w /\
    (generate_requests w' = generate_requests w \/
     exists contexts,
       generate_requests w'
       = (generate_requests w ++ [rag_prompt (context_text h contexts) question])%list /\
       Forall within_context contexts /\
       ((0 <= topK)%Z -> List.length contexts <= Z.to_nat topK)).
Proof.
  unfold ragQuery. rewrite run_bind; unfold log at 1. rewrite run_bind.
  match goal with
  | |- context [queryIndex h question topK ?w0] =>
      destruct (queryIndex_world h question topK w0) as (r & w1 & Hrun & Hfile & Hgen & _);
      rewrite Hrun
  end.
  cbn [index_file generate_requests printed] in Hfile, Hgen.
  destruct r as [[|result results]|e].
  3: { do 2 eexists. split; [reflexivity|]. split; [exact Hfile | left; exact Hgen]. }
  - rewrite run_bind; unfold log at 1. cbn [ret Sequencing_M].
    do 2 eexists. split; [reflexivity|]. split; [exact Hfile | left; exact Hgen].
  - rewrite run_bind.
    destruct (load_contexts_run h (result :: results) [] w1) as (contexts & -> & Hlen & Hall).
    rewrite run_bind; unfold log at 1. rewrite run_bind.
    change ([] ++ contexts)%list with contexts.
    match goal with
    | |- context [log_each ?line 0 contexts ?w0] =>
        destruct (log_each_world line contexts 0 w0) as (w2 & -> & Hfile2 & _ & Hgen2)
    end.
    cbn [index_file generate_requests printed] in Hfile2, Hgen2.
    rewrite run_bind; unfold log at 1. rewrite run_bind.
    destruct (getClient h).
    + unfold request_generateText at 1.
      destruct (generateText h _ _) as [response|e].
      * do 5 (rewrite run_bind; unfold log at 1).
        match goal with
        | |- context [log_each ?line 0 contexts ?w0] =>
            destruct (log_each_world line contexts 0 w0) as (w3 & -> & Hfile3 & _ & Hgen3)
        end.
        cbn [index_file generate_requests printed generate_requested] in Hfile3, Hgen3.
        do 2 eexists. split; [reflexivity|]. split; [congruence|].
        right. exists contexts. split; [|split; [assumption|]].
        -- rewrite Hgen3, Hgen2, Hgen. reflexivity.
        -- intros HtopK. apply queryIndex_at_most in Hrun; [|assumption]. lia.
      * do 2 eexists. split; [reflexivity|]. split; [cbn; congruence|].
        right. exists contexts. split; [|split; [assumption|]].
        -- cbn [generate_requests generate_requested printed]. rewrite Hgen2, Hgen. reflexivity.
        -- intros HtopK. apply queryIndex_at_most in Hrun; [|assumption]. lia.
    + unfold throw. do 2 eexists. split; [reflexivity|].
      cbn [index_file generate_requests printed]. split; [congruence|].
      left. congruence.
Qed.

Lemma load_contexts_unreadable (h : Host) (results : list value) :
  (forall name w, exists e, readFile_document h name w = (Throw e, w)) ->
  forall (contexts : list Context) (w : World),
    load_contexts h results contexts w = (Ok contexts, w).
Proof.
  intros Hnone. induction results as [|result rest IH]; intros contexts w; [reflexivity|].
  cbn [load_contexts]. rewrite run_bind. unfold try_catch at 1. rewrite run_bind.
  unfold lift at 1.
  destruct (get result "filename") as [filename|e]; [|apply IH].
  rewrite run_bind.
  destruct (Hnone (to_string (ToString h) filename) w) as [e ->]. apply IH.
Qed.

Lemma unreadable_directory (h : Host) :
  documents_dir h = None \/
  (exists entries, documents_dir h = Some entries /\
                   forall name, find_file name entries = None) ->
  forall name w, exists e, readFile_document h name w = (Throw e, w).
Proof.
  intros [Hdir | (entries & Hdir & Hnone)] name w; unfold readFile_document; rewrite Hdir.
  - unfold throw. eauto.
  - rewrite Hnone. unfold throw. eauto.
Qed.

Lemma sort_length {A : Type} (after : A -> A -> bool) (l : list A) :
  List.length (sort after l) = List.length l.
Proof. apply Permutation_length, sort_permutation. Qed.

(** X13. When the search finds documents but none of their files can be
    read (the directory is gone, or holds none of them),
    [ragQuery] still asks the model: it sends the prompt with an empty
    context instead of stopping. *)
Theorem ragQuery_without_context (h : Host) (w : World) (question : string) (topK : Z)
    (fields : list (string * value)) (d : value) (documents : list value)
    (v : list float) (vectors : list (list float)) (response : EmbedResponse)
    (q : list float) (more : list EmbeddingItem) :
  index_file w = Some (Parses (VObject fields)) ->
  lookup "documents" fields = Some (VArray (d :: documents)) ->
  lookup "embeddings" fields = Some (VArray (map vector (v :: vectors))) ->
  getClient h = true ->
  (forall w', embedText h w' [question] = Ok response) ->
  embed_results response = Some ({| embedding := q |} :: more) ->
  (1 <= topK)%Z ->
  documents_dir h = None \/
  (exists entries, documents_dir h = Some entries /\
                   forall name, find_file name entries = None) ->
  generate_requests (snd (ragQuery h question topK w))
  = (generate_requests w ++ [rag_prompt "" question])%list.
Proof.
  intros Hfile Hdocs Hembs Hclient Hservice Hresponse HtopK Hdir.
  set (found := slice 0 topK
                  (sort by_similarity
                     (map (entry (d :: documents) (v :: vectors) q)
                        (seq 0 (List.length (v :: vectors)))))).
  assert (Hfound : exists result results, found = result :: results).
  { destruct found as [|result results] eqn:E; [|eauto].
    apply (f_equal (@List.length value)) in E. unfold found in E.
    rewrite slice_prefix, length_firstn, sort_length, length_map, length_seq in E by lia.
    cbn [List.length] in E. lia. }
  destruct Hfound as (result & results & Hfound).
  unfold ragQuery. rewrite run_bind; unfold log at 1. rewrite run_bind.
  match goal with
  | |- context [queryIndex h question topK ?w0] =>
      destruct (queryIndex_world h question topK w0) as (r & w1 & Hrun & _ & Hgen & _);
      destruct (queryIndex_run h w0 question topK fields (d :: documents) (v :: vectors)
                  response q more Hfile Hdocs Hembs Hclient Hservice Hresponse)
        as (w1' & Hrun')
  end.
  change (queryIndex h question topK
            (printed ("💡 RAG Query: " ++ Str.quote ++ question ++ Str.quote) w)
          = (Ok found, w1')) in Hrun'.
  rewrite Hfound, Hrun in Hrun'. injection Hrun' as -> <-. rewrite Hrun.
  rewrite run_bind, (load_contexts_unreadable h _ (unreadable_directory h Hdir)).
  rewrite run_bind; unfold log at 1. rewrite run_bind. cbn [log_each ret Sequencing_M].
  rewrite run_bind; unfold log at 1. rewrite run_bind. rewrite Hclient.
  unfold request_generateText at 1. cbn [map Str.join].
  destruct (generateText h _ _) as [answer|e].
  - do 5 (rewrite run_bind; unfold log at 1).
    cbn [snd generate_requests generate_requested printed]. now rewrite Hgen.
  - cbn [snd generate_requests generate_requested printed]. now rewrite Hgen.
Qed.

Lemma ragQuery_without_context_witness :
  generate_requests (snd (ragQuery (answering [1; 0]%float) "which?" 3 three_indexed))
  = [rag_prompt "" "which?"].
Proof.
  refine (ragQuery_without_context (answering [1; 0]%float) three_indexed "which?" 3
            three_fields (named "first") [named "second"; named "third"]
            [1; 0]%float [[0; 1]; [0.9; 0.1]]%float
            (each [1; 0]%float ["which?"]) [1; 0]%float []
            eq_refl eq_refl eq_refl eq_refl (fun _ => eq_refl) eq_refl _ _).
  - lia.
  - right. exists []. split; [reflexivity|]. intros name. reflexivity.
Defined.

End SearchFacts.

(** ** Saving, statistics and the command line *)

Module CommandFacts.

Import Js EmbeddingIndex IndexCli Vocabulary Scenarios IndexVocabulary FurtherScenarios.
Import RunFacts JsonFacts BuildFacts QueryFacts SortFacts.
Local Open Scope string_scope.
Local Open Scope seq_scope.
Local Arguments String.append : simpl never.

(** *** [saveIndex] *)

(** X14. [saveIndex] rewrites the metadata and nothing else: on an index
    with a metadata object and a documents array it returns the index
    with [metadata.updated] set to the time of the call and
    [metadata.count] to the number of documents, every other field as it
    was, and writes exactly that value to the index file. *)
Theorem saveIndex_stamps_count (h : Host) (w : World) (fields metadata : list (string * value))
    (documents : list value) :
  lookup "metadata" fields = Some (VObject metadata) ->
  lookup "documents" fields = Some (VArray documents) ->
  exists saved,
    saveIndex h (VObject fields) w
    = (Ok saved, written (JSON_stringify saved) (ticked w)) /\
    get saved "metadata"
    = Ok (VObject (assign "count" (VNumber (Number.of_nat (List.length documents)))
                     (assign "updated" (VString (now h (clock w))) metadata))) /\
    (forall k, k <> "metadata" -> get saved k = get (VObject fields) k).
Proof.
  intros Hmeta Hdocs. unfold saveIndex.
  rewrite run_bind. unfold lift at 1. cbn [get]. rewrite Hmeta.
  rewrite run_bind. unfold new_Date_toISOString at 1.
  rewrite run_bind. unfold lift at 1. cbn [set].
  rewrite run_bind. unfold lift at 1. rewrite Hdocs.
  rewrite run_bind. unfold lift at 1. cbn [get String.eqb Ascii.eqb Bool.eqb andb].
  rewrite run_bind. unfold lift at 1. cbn [set].
  rewrite run_bind. unfold writeFile_index at 1. cbn [ret Sequencing_M with_property].
  eexists. split; [reflexivity|]. split.
  - cbn [get]. now rewrite lookup_assign_same.
  - intros k Hk. cbn [get]. now rewrite lookup_assign_other by now apply String.eqb_neq.
Qed.

Lemma saveIndex_stamps_count_witness :
  exists saved,
    saveIndex one_file freshly_built no_index_yet
    = (Ok saved, written (JSON_stringify saved) (ticked no_index_yet)) /\
    get saved "metadata"
    = Ok (VObject (assign "count" (VNumber (Number.of_nat 1))
                     (assign "updated" (VString "2025-01-01T00:00:00.000Z")
                        [("created", VString "2025-01-01T00:00:00.000Z")]))) /\
    (forall k, k <> "metadata" -> get saved k = get freshly_built k).
Proof.
  exact (saveIndex_stamps_count one_file no_index_yet
           [("documents", VArray [VObject [("filename", VString "a.txt");
                                           ("preview", VString "alpha");
                                           ("length", VNumber 5)]]);
            ("embeddings", VArray [vector [1; 0]%float]);
            ("metadata", VObject [("created", VString "2025-01-01T00:00:00.000Z")])]
           [("created", VString "2025-01-01T00:00:00.000Z")]
           [VObject [("filename", VString "a.txt"); ("preview", VString "alpha");
                     ("length", VNumber 5)]]
           eq_refl eq_refl).
Defined.

(** X15. [saveIndex] stamps the index before it writes it: on an index
    that is [null] or [undefined], or whose [metadata] or [documents] is,
    it throws a [TypeError] before the write is reached, so the index
    file is as it was (and nothing was sent). *)
Theorem saveIndex_failure_writes_nothing (h : Host) (index : value) (w : World) :
  is_nullish index = true \/
  (exists metadata, get index "metadata" = Ok metadata /\ is_nullish metadata = true) \/
  (exists documents, get index "documents" = Ok documents /\ is_nullish documents = true) ->
  exists msg w',
    saveIndex h index w = (Throw (TypeError msg), w') /\
    untouched w w'.
Proof.
  assert (Hset : forall (v : value) (k : string) (x : value),
            match set v k x with
            | Ok _ => True
            | Throw e => exists msg, e = TypeError msg
            end)
    by (intros v k x; destruct v; cbn; eauto).
  intros [Hindex | [(metadata & Hget & Hnull) | (documents & Hget & Hnull)]]; unfold saveIndex.
  - destruct index; try discriminate Hindex; cbn; do 2 eexists; repeat split.
  - rewrite run_bind. unfold lift at 1. rewrite Hget.
    rewrite run_bind. unfold new_Date_toISOString at 1.
    rewrite run_bind. unfold lift at 1.
    destruct metadata; try discriminate Hnull; cbn; do 2 eexists; repeat split.
  - rewrite run_bind. unfold lift at 1.
    destruct (get index "metadata") as [metadata|e0] eqn:Hmeta.
    2: { destruct index; cbn in Hmeta; try discriminate Hmeta;
         injection Hmeta as <-; do 2 eexists; repeat split. }
    rewrite run_bind. unfold new_Date_toISOString at 1.
    rewrite run_bind. unfold lift at 1.
    pose proof (Hset metadata "updated" (VString (now h (clock w)))) as Hupdated.
    destruct (set metadata "updated" _) as [metadata1|e0].
    2: { destruct Hupdated as [msg ->]. do 2 eexists. repeat split. }
    rewrite run_bind. unfold lift at 1. rewrite Hget.
    rewrite run_bind. unfold lift at 1.
    destruct documents; try discriminate Hnull; cbn; do 2 eexists; repeat split.
Qed.

Lemma saveIndex_failure_writes_nothing_witness :
  exists msg w',
    saveIndex one_file (VObject [("documents", VArray [])]) (indexed one_document)
    = (Throw (TypeError msg), w') /\
    untouched (indexed one_document) w'.
Proof.
  apply (saveIndex_failure_writes_nothing one_file (VObject [("documents", VArray [])])).
  right. left. exists VUndefined. split; reflexivity.
Defined.

(** *** [showStats] and [main] *)

Lemma printing_refl (w : World) : printing w w 0.
Proof. unfold printing. repeat split; lia. Qed.

Lemma printing_more (w w' : World) (n m : nat) : n <= m -> printing w w' n -> printing w w' m.
Proof. unfold printing. intros Hle (? & ? & ? & ?). repeat split; auto; lia. Qed.

Lemma printing_line (w w' : World) (n : nat) (line : string) :
  printing w w' n -> printing w (printed line w') (S n).
Proof.
  unfold printing. cbn [index_file embed_requests generate_requests console printed].
  rewrite length_app. cbn [List.length]. intros (? & ? & ? & ?). repeat split; auto; lia.
Qed.

Lemma printing_then (w1 w2 w3 : World) (n m : nat) :
  printing w1 w2 n -> printing w2 w3 m -> printing w1 w3 (n + m).
Proof.
  unfold printing. intros (? & ? & ? & ?) (? & ? & ? & ?). repeat split; try congruence. lia.
Qed.

Lemma log_all_world (lines : list string) (w : World) :
  exists w',
    log_all lines w = (Ok tt, w') /\
    index_file w' = index_file w /\
    embed_requests w' = embed_requests w /\
    generate_requests w' = generate_requests w /\
    clock w' = clock w /\
    console w' = (console w ++ lines)%list.
Proof.
  revert w. induction lines as [|line lines IH]; intros w.
  - exists w. cbn. rewrite app_nil_r. repeat split.
  - cbn [log_all]. rewrite run_bind. unfold log at 1.
    destruct (IH (printed line w)) as (w' & -> & Hf & He & Hg & Hc & Hp).
    exists w'. repeat split; auto.
    rewrite Hp. cbn [console printed]. now rewrite <- app_assoc.
Qed.

Lemma sample_documents_world (h : Host) (items : list value) :
  forall (i : nat) (w : World),
  exists r w',
    for_each (fun d _ =>
                filename <- lift (get d "filename") ;;
                length <- lift (get d "length") ;;
                log ("   - " ++ to_string (ToString h) filename
                       ++ " (" ++ to_string (ToString h) length ++ " chars)"))
             i items w = (r, w') /\
    printing w w' (List.length items).
Proof.
  induction items as [|d items IH]; intros i w.
  - exists (Ok tt), w. split; [reflexivity | apply printing_refl].
  - cbn [for_each]. rewrite run_bind. rewrite run_bind. unfold lift at 1.
    destruct (get d "filename") as [filename|e].
    + rewrite run_bind. unfold lift at 1.
      destruct (get d "length") as [length|e].
      * unfold log at 1.
        destruct (IH (S i) (printed ("   - " ++ to_string (ToString h) filename
                       ++ " (" ++ to_string (ToString h) length ++ " chars)") w))
          as (r & w' & -> & Hp).
        exists r, w'. split; [reflexivity|].
        refine (printing_then w _ w' 1 _ _ Hp).
        apply printing_line, printing_refl.
      * do 2 eexists. split; [reflexivity|].
        apply (printing_more _ _ 0); [lia | apply printing_refl].
    + do 2 eexists. split; [reflexivity|].
      apply (printing_more _ _ 0); [lia | apply printing_refl].
Qed.

Lemma sample_length (documents : value) (items : list value) :
  sample documents = Ok items -> List.length items <= 5.
Proof.
  destruct documents; try discriminate. intros [= <-].
  rewrite slice_prefix by lia. apply firstn_le_length.
Qed.

Lemma showStats_world (h : Host) (w : World) :
  exists r w', showStats h w = (r, w') /\ printing w w' 12.
Proof.
  unfold showStats. rewrite run_bind.
  destruct (LoadFacts.loadIndex_returns h w) as (index & w0 & Hload). rewrite Hload.
  assert (H0 : printing w w0 0).
  { unfold loadIndex, try_catch, readFile_index in Hload. cbn in Hload.
    destruct (index_file w) as [[|v]|] eqn:E; cbn in Hload; injection Hload as _ <-;
      unfold printing; cbn; rewrite ?E; repeat split; lia. }
  do 2 (rewrite run_bind; unfold log at 1).
  rewrite run_bind. unfold lift at 1.
  assert (Hstop : forall (n : nat) (w1 : World),
            n <= 12 -> printing w0 w1 n -> printing w w1 12).
  { intros n w1 Hn (Hf & He & Hg & Hc). destruct H0 as (Hf0 & He0 & Hg0 & Hc0).
    unfold printing. repeat split; try congruence. lia. }
  destruct (get index "documents") as [documents|e].
  2: { do 2 eexists. split; [reflexivity|].
       apply (Hstop 2); [lia|]. do 2 apply printing_line. apply printing_refl. }
  rewrite run_bind. unfold lift at 1.
  destruct (get documents "length") as [count|e].
  2: { do 2 eexists. split; [reflexivity|].
       apply (Hstop 2); [lia|]. do 2 apply printing_line. apply printing_refl. }
  rewrite run_bind; unfold log at 1.
  rewrite run_bind. unfold lift at 1.
  destruct (get index "metadata") as [metadata|e].
  2: { do 2 eexists. split; [reflexivity|].
       apply (Hstop 3); [lia|]. do 3 apply printing_line. apply printing_refl. }
  rewrite run_bind. unfold lift at 1.
  destruct (get metadata "created") as [created|e].
  2: { do 2 eexists. split; [reflexivity|].
       apply (Hstop 3); [lia|]. do 3 apply printing_line. apply printing_refl. }
  rewrite run_bind; unfold log at 1.
  rewrite run_bind. unfold lift at 1.
  destruct (get metadata "updated") as [updated|e].
  2: { do 2 eexists. split; [reflexivity|].
       apply (Hstop 4); [lia|]. do 4 apply printing_line. apply printing_refl. }
  do 2 (rewrite run_bind; unfold log at 1).
  destruct (greater_than_zero h count).
  2: { do 2 eexists. split; [reflexivity|].
       apply (Hstop 6); [lia|]. do 6 apply printing_line. apply printing_refl. }
  rewrite run_bind; unfold log at 1.
  rewrite run_bind. unfold lift at 1.
  destruct (sample documents) as [items|e] eqn:Hsample.
  2: { do 2 eexists. split; [reflexivity|].
       apply (Hstop 7); [lia|]. do 7 apply printing_line. apply printing_refl. }
  match goal with
  | |- context [for_each _ 0 items ?w1] =>
      destruct (sample_documents_world h items 0 w1) as (r & w2 & -> & Hp)
  end.
  exists r, w2. split; [reflexivity|].
  apply sample_length in Hsample.
  apply (Hstop (7 + List.length items)); [lia|].
  refine (printing_then w0 _ w2 7 _ _ Hp).
  do 7 apply printing_line. apply printing_refl.
Qed.

(** X16. [showStats] writes and sends nothing: whatever the index file holds, it
    leaves the file as it was, sends nothing, and prints at most twelve
    lines. With no index file, or one that does not parse, it returns
    and reports zero documents, the time of the call as the creation
    time, and no update time. *)
Theorem showStats_reports (h : Host) (w : World) :
  exists r w',
    showStats h w = (r, w') /\
    index_file w' = index_file w /\
    embed_requests w' = embed_requests w /\
    generate_requests w' = generate_requests w /\
    List.length (console w') <= List.length (console w) + 12 /\
    (index_file w = None \/ index_file w = Some Unparsable ->
     r = Ok tt /\
     console w'
     = List.app (console w)
         ["📊 Index Statistics";
          rule 40;
          "   Documents indexed: " ++ ToString h (VNumber 0);
          "   Created: " ++ (if String.eqb (now h (clock w)) "" then "N/A"
                             else now h (clock w));
          "   Updated: N/A";
          "   Index file: " ++ INDEX_PATH]).
Proof.
  destruct (showStats_world h w) as (r & w' & Hrun & Hf & He & Hg & Hc).
  exists r, w'. repeat (split; [assumption|]).
  intros Hfile. revert Hrun. unfold showStats.
  rewrite run_bind, (LoadFacts.loadIndex_empty h w Hfile).
  cbn -[rule INDEX_PATH String.append].
  intros [= <- <-]. split; [reflexivity|].
  cbn [console printed ticked]. rewrite <- !app_assoc. cbn [app].
  unfold or_else, truthy, to_string.
  now destruct (String.eqb (now h (clock w)) "").
Qed.

(** X17. Without an API key or a space id, [main] prints the banner and
    the error and exits with status 1, whatever the command: the index
    file is as it was and nothing is sent to the service. *)
Theorem main_requires_configuration (h : Host) (command arg : option string) (w : World) :
  WATSONX_API_KEY h = "" \/ WATSONX_SPACE_ID h = "" ->
  exists w',
    main h command arg w
    = (Ok {| exit_code := Some 1%Z;
             stderr := ["Error: WATSONX_API_KEY and WATSONX_SPACE_ID must be set"] |}, w') /\
    console w' = List.app (console w) banner /\
    index_file w' = index_file w /\
    embed_requests w' = embed_requests w /\
    generate_requests w' = generate_requests w.
Proof.
  intros Hunset. unfold main. rewrite run_bind.
  destruct (log_all_world banner w) as (w' & -> & Hf & He & Hg & _ & Hc).
  assert (Hguard : (String.eqb (WATSONX_API_KEY h) "" || String.eqb (WATSONX_SPACE_ID h) "")
                   = true).
  { destruct Hunset as [-> | ->]; [reflexivity | apply orb_true_r]. }
  rewrite Hguard. exists w'. repeat split; assumption.
Qed.

Lemma main_requires_configuration_witness :
  exists w',
    main keyless (Some "build") None no_index_yet
    = (Ok {| exit_code := Some 1%Z;
             stderr := ["Error: WATSONX_API_KEY and WATSONX_SPACE_ID must be set"] |}, w') /\
    console w' = List.app (console no_index_yet) banner /\
    index_file w' = index_file no_index_yet /\
    embed_requests w' = embed_requests no_index_yet /\
    generate_requests w' = generate_requests no_index_yet.
Proof.
  exact (main_requires_configuration keyless (Some "build") None no_index_yet
           (or_introl eq_refl)).
Defined.

(** X18. A configured [main] does no work without a usable command:
    [search] and [rag] with no argument (or an empty one) print their
    usage line and exit with status 1; a command that is none of
    [build], [search], [rag] and [stats] (or no command) prints the
    usage text and returns. In each case the index file is as it was
    and nothing is sent to the service. *)
Theorem main_without_work (h : Host) (w : World) :
  WATSONX_API_KEY h <> "" ->
  WATSONX_SPACE_ID h <> "" ->
  (forall arg, absent arg ->
     exists w',
       main h (Some "search") arg w = (Ok (exited 1), w') /\ untouched w w' /\
       console w' = List.app (console w)
                      (List.app banner ["Usage: embedding-index.js search '<query>'"])) /\
  (forall arg, absent arg ->
     exists w',
       main h (Some "rag") arg w = (Ok (exited 1), w') /\ untouched w w' /\
       console w' = List.app (console w)
                      (List.app banner ["Usage: embedding-index.js rag '<question>'"])) /\
  (forall command arg,
     (forall c, command = Some c -> ~ In c known_commands) ->
     exists w',
       main h command arg w = (Ok returned, w') /\ untouched w w' /\
       console w' = List.app (console w) (List.app banner usage)).
Proof.
  intros Hkey Hspace.
  apply String.eqb_neq in Hkey, Hspace.
  destruct (log_all_world banner w) as (w1 & Hbanner & Hf & He & Hg & _ & Hc).
  split; [|split].
  - intros arg Harg.
    exists (printed "Usage: embedding-index.js search '<query>'" w1).
    unfold main. rewrite run_bind, Hbanner, Hkey, Hspace.
    split; [destruct Harg as [-> | ->]; reflexivity|].
    split; [now split|].
    cbn [console printed]. now rewrite Hc, <- app_assoc.
  - intros arg Harg.
    exists (printed "Usage: embedding-index.js rag '<question>'" w1).
    unfold main. rewrite run_bind, Hbanner, Hkey, Hspace.
    split; [destruct Harg as [-> | ->]; reflexivity|].
    split; [now split|].
    cbn [console printed]. now rewrite Hc, <- app_assoc.
  - intros command arg Hother.
    destruct (log_all_world usage w1) as (w2 & Hrun & Hf2 & He2 & Hg2 & _ & Hc2).
    exists w2.
    assert (Hnot : forall name, In name known_commands -> is_command command name = false).
    { intros name Hname. destruct command as [c|]; [|reflexivity].
      apply String.eqb_neq. intros ->. exact (Hother name eq_refl Hname). }
    unfold main. rewrite run_bind, Hbanner, Hkey, Hspace.
    cbn [orb]. rewrite !Hnot by (cbn; auto). rewrite run_bind, Hrun.
    split; [reflexivity|]. split; [unfold untouched; repeat split; congruence|].
    now rewrite Hc2, Hc, <- app_assoc.
Qed.

Lemma main_without_work_witness :
  exists w',
    main quiet_host (Some "search") None no_index_yet = (Ok (exited 1), w') /\
    untouched no_index_yet w' /\
    console w' = List.app (console no_index_yet)
                   (List.app banner ["Usage: embedding-index.js search '<query>'"]).
Proof.
  refine (proj1 (main_without_work quiet_host no_index_yet _ _) None (or_introl eq_refl));
    discriminate.
Defined.

End CommandFacts.

(** ** The MCP server: the tool list and the handler *)

Module ServerFacts.

Import Js Exception McpServer McpTools Vocabulary Scenarios ServerVocabulary JsonFacts.
Local Open Scope string_scope.
Local Open Scope seq_scope.
Local Arguments String.append : simpl never.

Lemma call_tool_unknown (cfg : Config) (b : Builtins) (client : Client) (name : string)
    (args : value) :
  ~ In name implemented ->
  call_tool cfg b client name args = Ok (text_content (VString ("Unknown tool: " ++ name))).
Proof.
  intros Hnot. unfold call_tool.
  repeat match goal with
  | |- context [String.eqb name ?s] =>
      destruct (String.eqb_spec name s) as [->|_];
        [exfalso; apply Hnot; cbn; tauto|]
  end.
  reflexivity.
Qed.

(** X19. The server lists thirteen tools but the handler has a case for
    four of them. The four are listed and no name is listed twice. A call
    of any of the nine other listed tools, whatever its arguments, is
    answered with a text: [Unknown tool: <name>] when an API key is
    configured and the client could be made, and the text that says
    watsonx.ai is not configured when no API key is set. *)
Theorem listed_tools_without_a_case (cfg : Config) (b : Builtins) (watsonx : result Client) :
  (forall name, In name implemented -> In name listed) /\
  NoDup listed /\
  List.length (filter (fun name => negb (existsb (String.eqb name) implemented)) listed) = 9 /\
  (forall name args,
     In name listed -> ~ In name implemented ->
     (WATSONX_API_KEY cfg <> "" ->
      forall client, watsonx = Ok client ->
      handler cfg b watsonx name args
      = Ok (text_content (VString ("Unknown tool: " ++ name)))) /\
     (WATSONX_API_KEY cfg = "" ->
      handler cfg b watsonx name args
      = Ok (text_content
              (VString "Error: watsonx.ai not configured. Set WATSONX_API_KEY environment variable.")))).
Proof.
  split; [|split; [|split]].
  - intros name Hin. cbn in Hin. cbn. tauto.
  - unfold listed. cbn.
    repeat (constructor; [cbn; intuition discriminate|]). constructor.
  - reflexivity.
  - intros name args _ Hnot. unfold handler, getWatsonxClient. split.
    + intros Hkey client ->. apply String.eqb_neq in Hkey. rewrite Hkey.
      cbn [bind ret Sequencing_result]. now rewrite call_tool_unknown.
    + intros ->. reflexivity.
Qed.

Lemma or_else_falsy (v d : value) : truthy v = false -> or_else v d = d.
Proof. unfold or_else. now intros ->. Qed.

Lemma or_else_truthy (v d : value) : truthy v = true -> or_else v d = v.
Proof. unfold or_else. now intros ->. Qed.

(** Reading a property of the arguments, with one of them replaced. *)
Lemma get_assign_same (k : string) (v : value) (fields : list (string * value)) :
  get (VObject (assign k v fields)) k = Ok v.
Proof. cbn [get]. now rewrite lookup_assign_same. Qed.

Lemma get_assign_other (k k' : string) (v : value) (fields : list (string * value)) :
  String.eqb k' k = false ->
  get (VObject (assign k v fields)) k' = get (VObject fields) k'.
Proof. intros H. cbn [get]. now rewrite lookup_assign_other. Qed.

Lemma get_same_but (k : string) (d : value) (args args' : value) (k' : string) :
  same_but k d args args' -> String.eqb k' k = false -> get args k' = get args' k'.
Proof.
  intros (fields & -> & [(v & _ & ->) | [_ ->]]) Hne.
  - now rewrite !get_assign_other.
  - now rewrite get_assign_other.
Qed.

Lemma get_same_but_default (k : string) (d : value) (args args' : value) :
  same_but k d args args' -> truthy d = true ->
  exists v v', get args k = Ok v /\ get args' k = Ok v' /\ or_else v d = or_else v' d.
Proof.
  intros (fields & -> & [(v & Hv & ->) | [Hnone ->]]) Hd.
  - exists v, d. rewrite !get_assign_same. repeat split.
    now rewrite (or_else_falsy v d Hv), (or_else_truthy d d Hd).
  - exists VUndefined, d. rewrite get_assign_same. cbn [get]. rewrite Hnone.
    repeat split. now rewrite (or_else_truthy d d Hd).
Qed.

Ltac one_parameter Hsame :=
  let v := fresh "v" in
  let v' := fresh "v'" in
  let Hv := fresh "Hv" in
  let Hv' := fresh "Hv'" in
  let Hor := fresh "Hor" in
  destruct (get_same_but_default _ _ _ _ Hsame eq_refl) as (v & v' & Hv & Hv' & Hor);
  repeat match goal with
  | |- context [get ?a ?k'] =>
      first [ rewrite Hv | rewrite Hv' | rewrite (get_same_but _ _ _ _ k' Hsame eq_refl) ]
  end;
  cbn [bind Sequencing_result];
  rewrite Hor; reflexivity.

Lemma watsonx_generate_default (cfg : Config) (client : Client) (k : string) (d : value)
    (args args' : value) :
  In (k, d) [("model_id", VString "ibm/granite-13b-chat-v2");
             ("max_new_tokens", VNumber 500);
             ("temperature", VNumber 0.7);
             ("top_p", VNumber 1);
             ("top_k", VNumber 50)] ->
  same_but k d args args' ->
  watsonx_generate cfg client args = watsonx_generate cfg client args'.
Proof.
  intros Hk Hsame. unfold watsonx_generate.
  destruct Hk as [[= <- <-] | [[= <- <-] | [[= <- <-] | [[= <- <-] | [[= <- <-] | []]]]]];
    one_parameter Hsame.
Qed.

Lemma watsonx_embeddings_default (cfg : Config) (b : Builtins) (client : Client)
    (args args' : value) :
  same_but "model_id" (VString "ibm/slate-125m-english-rtrvr") args args' ->
  watsonx_embeddings cfg b client args = watsonx_embeddings cfg b client args'.
Proof. intros Hsame. unfold watsonx_embeddings. one_parameter Hsame. Qed.

Lemma watsonx_chat_default (cfg : Config) (b : Builtins) (client : Client) (k : string)
    (d : value) (args args' : value) :
  In (k, d) [("model_id", VString "ibm/granite-13b-chat-v2");
             ("max_new_tokens", VNumber 500);
             ("temperature", VNumber 0.7)] ->
  same_but k d args args' ->
  watsonx_chat cfg b client args = watsonx_chat cfg b client args'.
Proof.
  intros Hk Hsame. unfold watsonx_chat.
  destruct Hk as [[= <- <-] | [[= <- <-] | [[= <- <-] | []]]];
    one_parameter Hsame.
Qed.

Lemma handler_same_call (cfg : Config) (b : Builtins) (watsonx : result Client)
    (name : string) (args args' : value) :
  (forall client, call_tool cfg b client name args = call_tool cfg b client name args') ->
  handler cfg b watsonx name args = handler cfg b watsonx name args'.
Proof.
  intros Hcall. unfold handler.
  destruct (getWatsonxClient cfg watsonx) as [[client|]|e]; try reflexivity.
  cbn [bind ret Sequencing_result]. now rewrite Hcall.
Qed.

Ltac which_parameter H param :=
  repeat match type of H with
  | context [String.eqb param ?s] =>
      destruct (String.eqb_spec param s) as [->|_]; cbn in H
  end.

(** X20. The defaults the tool list advertises are the defaults the
    handler applies: for every listed tool and every parameter with an
    advertised default, a call that leaves the parameter out, or passes
    a falsy value for it, is handled as the call that passes the
    default. (A falsy value, such as a temperature of 0, is replaced by
    the default.) *)
Theorem advertised_defaults_are_applied (cfg : Config) (b : Builtins)
    (watsonx : result Client) (tool : value) (param : string) (d : value) (args args' : value) :
  In tool tools ->
  advertised_default tool param = Some d ->
  same_but param d args args' ->
  handler cfg b watsonx (name_of tool) args = handler cfg b watsonx (name_of tool) args'.
Proof.
  intros Htool Hadv Hsame. apply handler_same_call. intros client.
  unfold tools in Htool. cbn [In] in Htool.
  repeat destruct Htool as [<- | Htool]; try contradiction;
    try reflexivity;
    cbn in Hadv;
    which_parameter Hadv param; try discriminate Hadv;
    injection Hadv as <-;
    match goal with
    | |- call_tool _ _ _ ?n _ = _ =>
        let name := eval vm_compute in n in change n with name
    end.
  1-5: change (watsonx_generate cfg client args = watsonx_generate cfg client args');
    match type of Hsame with
    | same_but ?k ?d _ _ =>
        apply (watsonx_generate_default cfg client k d args args'); [cbn; tauto | exact Hsame]
    end.
  1: change (watsonx_embeddings cfg b client args = watsonx_embeddings cfg b client args');
    apply (watsonx_embeddings_default cfg b client _ _ Hsame).
  all: change (watsonx_chat cfg b client args = watsonx_chat cfg b client args');
    match type of Hsame with
    | same_but ?k ?d _ _ =>
        apply (watsonx_chat_default cfg b client k d args args'); [cbn; tauto | exact Hsame]
    end.
Qed.

Lemma advertised_defaults_are_applied_witness :
  handler configured plain (Ok failing) "watsonx_generate"
    (VObject [("prompt", VString "Hello"); ("temperature", VNumber 0)])
  = handler configured plain (Ok failing) "watsonx_generate"
      (VObject [("prompt", VString "Hello"); ("temperature", VNumber 0.7)]).
Proof.
  refine (advertised_defaults_are_applied configured plain (Ok failing)
            (nth 0 tools VNull) "temperature" (VNumber 0.7) _ _ _ _ _).
  - left. reflexivity.
  - reflexivity.
  - exists [("prompt", VString "Hello")]. split; [reflexivity|].
    left. exists (VNumber 0). split; reflexivity.
Defined.


Lemma with_scope_space (cfg : Config) (params : list (string * value)) :
  McpServer.WATSONX_SPACE_ID cfg <> "" ->
  with_scope cfg params = with_scope (without_project cfg) params /\
  lookup "spaceId" (with_scope cfg params) = Some (VString (McpServer.WATSONX_SPACE_ID cfg)) /\
  lookup "projectId" (with_scope cfg params) = lookup "projectId" params.
Proof.
  intros Hspace. apply String.eqb_neq in Hspace.
  unfold with_scope, without_project. cbn [McpServer.WATSONX_SPACE_ID]. rewrite Hspace.
  cbn [negb]. split; [reflexivity|]. split.
  - apply lookup_assign_same.
  - now apply lookup_assign_other.
Qed.

(** X21. When a space id is configured the project id plays no part:
    every call is handled as under the configuration with the project id
    unset. *)
Theorem space_id_takes_precedence (cfg : Config) (b : Builtins) (watsonx : result Client)
    (name : string) (args : value) :
  McpServer.WATSONX_SPACE_ID cfg <> "" ->
  handler cfg b watsonx name args = handler (without_project cfg) b watsonx name args.
Proof.
  intros Hspace. unfold handler, getWatsonxClient, without_project at 1.
  cbn [McpServer.WATSONX_API_KEY].
  destruct (String.eqb (McpServer.WATSONX_API_KEY cfg) ""); [reflexivity|].
  destruct watsonx as [client|e]; [|reflexivity].
  cbn [bind ret Sequencing_result].
  assert (Hcall : call_tool cfg b client name args
                  = call_tool (without_project cfg) b client name args);
    [|now rewrite Hcall].
  unfold call_tool.
  repeat match goal with
  | |- context [if String.eqb name ?s then _ else _] => destruct (String.eqb name s)
  end; try reflexivity.
  - unfold watsonx_generate.
    destruct (get args "prompt"), (get args "model_id"), (get args "max_new_tokens"),
      (get args "temperature"), (get args "top_p"), (get args "top_k");
      cbn [bind ret Sequencing_result]; try reflexivity.
    now rewrite (proj1 (with_scope_space cfg _ Hspace)).
  - unfold watsonx_embeddings.
    destruct (get args "texts"), (get args "model_id");
      cbn [bind ret Sequencing_result]; try reflexivity.
    now rewrite (proj1 (with_scope_space cfg _ Hspace)).
  - unfold watsonx_chat.
    destruct (get args "messages"); cbn [bind ret Sequencing_result]; try reflexivity.
    destruct (array_map _ _); cbn [bind ret Sequencing_result]; try reflexivity.
    destruct (get args "model_id"), (get args "max_new_tokens"), (get args "temperature");
      cbn [bind ret Sequencing_result]; try reflexivity.
    now rewrite (proj1 (with_scope_space cfg _ Hspace)).
Qed.

Lemma space_id_takes_precedence_witness :
  handler {| WATSONX_API_KEY := "key"; WATSONX_PROJECT_ID := "project";
             WATSONX_SPACE_ID := "space" |} plain (Ok failing) "watsonx_list_models" VNull
  = handler configured plain (Ok failing) "watsonx_list_models" VNull.
Proof.
  refine (space_id_takes_precedence
            {| WATSONX_API_KEY := "key"; WATSONX_PROJECT_ID := "project";
               WATSONX_SPACE_ID := "space" |} plain (Ok failing) "watsonx_list_models"
            VNull _).
  discriminate.
Defined.

Lemma get_defined (v : value) (k : string) :
  is_nullish v = false -> exists x, get v k = Ok x.
Proof. destruct v; try discriminate; cbn; eauto. Qed.

Lemma map_from_defined (b : Builtins) (messages : list value) :
  Forall (fun m => is_nullish m = false) messages ->
  forall i, exists parts, map_from (fun m _ => format_message b m) i messages = Ok parts.
Proof.
  induction 1 as [|m messages Hm _ IH]; intros i; [now exists []|].
  cbn [map_from]. unfold format_message at 1.
  destruct (get_defined m "role" Hm) as [role ->].
  destruct (get_defined m "content" Hm) as [content ->].
  cbn [bind ret Sequencing_result].
  destruct (IH (S i)) as [parts ->]. cbn [bind ret Sequencing_result]. eauto.
Qed.

(** X22. A call the service rejects with an Error is not an error of the
    handler: the handler returns the text
    [Error calling watsonx.ai: <message>], for each of the four tools
    (given arguments the tool can read). *)
Theorem rejected_call_is_reported (cfg : Config) (b : Builtins) (e : error_object)
    (args : value) :
  McpServer.WATSONX_API_KEY cfg <> "" ->
  handler cfg b (Ok (rejecting e)) "watsonx_list_models" args
  = Ok (text_content (VString ("Error calling watsonx.ai: " ++ message e))) /\
  (is_nullish args = false ->
   handler cfg b (Ok (rejecting e)) "watsonx_generate" args
   = Ok (text_content (VString ("Error calling watsonx.ai: " ++ message e))) /\
   handler cfg b (Ok (rejecting e)) "watsonx_embeddings" args
   = Ok (text_content (VString ("Error calling watsonx.ai: " ++ message e)))) /\
  (forall messages,
     get args "messages" = Ok (VArray messages) ->
     Forall (fun m => is_nullish m = false) messages ->
     handler cfg b (Ok (rejecting e)) "watsonx_chat" args
     = Ok (text_content (VString ("Error calling watsonx.ai: " ++ message e)))).
Proof.
  intros Hkey. apply String.eqb_neq in Hkey.
  unfold handler, getWatsonxClient. rewrite Hkey. cbn [bind ret Sequencing_result].
  split; [reflexivity|]. split.
  - intros Hargs. split.
    + change (call_tool cfg b (rejecting e) "watsonx_generate" args)
        with (watsonx_generate cfg (rejecting e) args).
      unfold watsonx_generate.
      destruct (get_defined args "prompt" Hargs) as [x1 ->].
      destruct (get_defined args "model_id" Hargs) as [x2 ->].
      destruct (get_defined args "max_new_tokens" Hargs) as [x3 ->].
      destruct (get_defined args "temperature" Hargs) as [x4 ->].
      destruct (get_defined args "top_p" Hargs) as [x5 ->].
      destruct (get_defined args "top_k" Hargs) as [x6 ->].
      reflexivity.
    + change (call_tool cfg b (rejecting e) "watsonx_embeddings" args)
        with (watsonx_embeddings cfg b (rejecting e) args).
      unfold watsonx_embeddings.
      destruct (get_defined args "texts" Hargs) as [x1 ->].
      destruct (get_defined args "model_id" Hargs) as [x2 ->].
      reflexivity.
  - intros messages Hmessages Hall.
    change (call_tool cfg b (rejecting e) "watsonx_chat" args)
      with (watsonx_chat cfg b (rejecting e) args).
    unfold watsonx_chat. rewrite Hmessages. cbn [bind Sequencing_result array_map].
    destruct (map_from_defined b messages Hall 0) as [parts ->].
    cbn [bind Sequencing_result].
    assert (Hargs : is_nullish args = false) by (destruct args; try discriminate; reflexivity).
    destruct (get_defined args "model_id" Hargs) as [x2 ->].
    destruct (get_defined args "max_new_tokens" Hargs) as [x3 ->].
    destruct (get_defined args "temperature" Hargs) as [x4 ->].
    reflexivity.
Qed.

Lemma rejected_call_is_reported_witness :
  handler configured plain (Ok (rejecting (ServiceError "Unauthorized")))
    "watsonx_list_models" VNull
  = Ok (text_content (VString ("Error calling watsonx.ai: "
                                 ++ message (ServiceError "Unauthorized")))).
Proof.
  refine (proj1 (rejected_call_is_reported configured plain (ServiceError "Unauthorized")
                   VNull _)).
  discriminate.
Defined.

(** *** [callZosConnect] *)

(** X23. [callZosConnect] sends nothing when no URL is configured: it
    throws. Otherwise it sends one request, to the URL followed by the
    endpoint, with the given method ([GET] when left out); the request has
    a body exactly when the body is truthy and the method is [POST] or
    [PUT], and an [Authorization] header exactly when an API key is
    configured; a response that is not [ok] is thrown as an error that
    carries its status. *)
Theorem callZosConnect_requests (cfg : Zos) (stringify : value -> string) (fetch : Fetch)
    (endpoint : string) (method : option string) (body : value) (sent : Network) :
  (ZOS_CONNECT_URL cfg = "" ->
   callZosConnect cfg stringify fetch endpoint method body sent
   = (Throws (Error "z/OS Connect not configured. Set ZOS_CONNECT_URL environment variable."),
      sent)) /\
  (ZOS_CONNECT_URL cfg <> "" ->
   exists options,
     snd (callZosConnect cfg stringify fetch endpoint method body sent)
     = List.app sent [(ZOS_CONNECT_URL cfg ++ endpoint, options)] /\
     McpTools.method options = match method with Some m => m | None => "GET" end /\
     (McpTools.body options <> None <->
      truthy body = true /\ (method = Some "POST" \/ method = Some "PUT")) /\
     (In "Authorization" (map fst (headers options)) <-> ZOS_CONNECT_API_KEY cfg <> "") /\
     (forall response,
        fetch (ZOS_CONNECT_URL cfg ++ endpoint) options = Ok response ->
        ok response = false ->
        fst (callZosConnect cfg stringify fetch endpoint method body sent)
        = Throws (Error ("z/OS Connect error: " ++ Str.of_Z (status response)
                           ++ " " ++ statusText response)))).
Proof.
  split.
  - intros Hurl. unfold callZosConnect. now rewrite Hurl.
  - intros Hurl. apply String.eqb_neq in Hurl. unfold callZosConnect. rewrite Hurl.
    cbv zeta.
    match goal with
    | |- context [fetch _ ?o] => exists o
    end.
    split; [|split; [reflexivity|split; [|split]]].
    + destruct (fetch _ _) as [response|e]; [destruct (ok response)|]; reflexivity.
    + cbn [McpTools.body]. split.
      * destruct (truthy body); [|intros H; now contradiction H].
        destruct method as [m|]; cbn [andb].
        -- destruct (String.eqb_spec m "POST") as [->|_]; [auto|].
           destruct (String.eqb_spec m "PUT") as [->|_]; [auto|].
           intros H. now contradiction H.
        -- intros H. now contradiction H.
      * intros [-> [-> | ->]]; discriminate.
    + cbn [headers]. destruct (String.eqb_spec (ZOS_CONNECT_API_KEY cfg) "") as [Hkey|Hkey].
      * split; [|congruence]. cbn. intros [H | [H | []]]; discriminate H.
      * split; [auto|]. intros _. rewrite map_app. apply in_or_app. right. now left.
    + intros response Hfetch Hok. rewrite Hfetch, Hok. reflexivity.
Qed.

End ServerFacts.

(** ** The document analyzer *)

Module AnalyzerFacts.

Import Js Exception EmbeddingIndex Vocabulary Scenarios IndexVocabulary AnalyzerVocabulary.
Import FurtherScenarios RunFacts JsonFacts SortFacts IndexingFacts.
Import DocumentAnalyzer.
Local Open Scope string_scope.
Local Open Scope seq_scope.
Local Arguments String.append : simpl never.

Lemma bind_run (T U : Type) (c : A T) (k : T -> A U) (w : World) :
  (x <- c ;; k x) w =
  match c w with
  | (Returns a, w') => k a w'
  | (Throws t, w') => (Throws t, w')
  end.
Proof. reflexivity. Qed.

Lemma excerpt_short (limit : nat) (text : string) :
  String.length text <= limit -> excerpt limit text = text.
Proof.
  intros H. unfold excerpt.
  destruct (Nat.ltb_spec limit (String.length text)); [lia | reflexivity].
Qed.

Lemma append_length (s t : string) :
  String.length (s ++ t) = String.length s + String.length t.
Proof.
  induction s as [|c s IH]; [reflexivity|].
  change (String c s ++ t) with (String c (s ++ t)). cbn [String.length]. now rewrite IH.
Qed.

Lemma substring0_exact (n : nat) (s : string) :
  n <= String.length s -> String.length (Str.substring0 n s) = n.
Proof.
  unfold Str.substring0. revert n.
  induction s as [|c s IH]; intros [|n] H; cbn in *; try lia; try reflexivity.
  now rewrite IH by lia.
Qed.

Lemma excerpt_long (limit : nat) (text : string) :
  limit < String.length text ->
  excerpt limit text = Str.substring0 limit text ++ "..." /\
  String.length (excerpt limit text) = limit + 3.
Proof.
  intros H. unfold excerpt.
  destruct (Nat.ltb_spec limit (String.length text)); [|lia].
  split; [reflexivity|]. rewrite append_length, substring0_exact by lia. reflexivity.
Qed.

Lemma excerpt_length (limit : nat) (text : string) :
  String.length (excerpt limit text) <= limit + 3.
Proof.
  destruct (Nat.le_gt_cases (String.length text) limit) as [H|H].
  - rewrite excerpt_short by assumption. lia.
  - destruct (excerpt_long limit text H) as [_ ->]. lia.
Qed.

(** X24. The three prompts of the analyzer hold an excerpt of the
    document, not the document: its first 4000 (summary), 3000 (analysis)
    or 3500 (question) code units followed by [...], or the whole text
    when it is no longer than that. Each function sends exactly one
    prompt, and without a client each throws before sending anything. *)
Theorem prompts_hold_an_excerpt (h : Host) (text question : string) (maxLength : nat)
    (w : World) :
  (getClient h = false ->
   summarizeDocument h text maxLength w = (Throws (Error "watsonx client not initialized"), w) /\
   analyzeDocument h text w = (Throws (Error "watsonx client not initialized"), w) /\
   questionDocument h text question w
   = (Throws (Error "watsonx client not initialized"), w)) /\
  (getClient h = true ->
   generate_requests (snd (summarizeDocument h text maxLength w))
   = List.app (generate_requests w) [summarize_prompt maxLength (excerpt 4000 text)] /\
   generate_requests (snd (analyzeDocument h text w))
   = List.app (generate_requests w) [analyze_prompt (excerpt 3000 text)] /\
   generate_requests (snd (questionDocument h text question w))
   = List.app (generate_requests w) [question_prompt (excerpt 3500 text) question]) /\
  (forall limit,
     String.length (excerpt limit text) <= limit + 3 /\
     (String.length text <= limit -> excerpt limit text = text) /\
     (limit < String.length text -> excerpt limit text = Str.substring0 limit text ++ "...")).
Proof.
  split; [|split].
  - intros Hclient. unfold summarizeDocument, analyzeDocument, questionDocument.
    rewrite Hclient. repeat split.
  - intros Hclient. unfold summarizeDocument, analyzeDocument, questionDocument.
    rewrite Hclient. unfold run, request_generateText. cbn.
    repeat split;
      match goal with
      | |- context [generateText h ?w0 ?p] => now destruct (generateText h w0 p)
      end.
  - intros limit. split; [apply excerpt_length|]. split; [apply excerpt_short|].
    intros H. apply (excerpt_long limit text H).
Qed.

(** *** Ranking by a similarity *)

Section Ranked.

Context {T : Type}.
Variable score : T -> float.
Variable items : list T.
Hypothesis no_NaN : forall x, In x items -> Number.isNaN (score x) = false.

Lemma ranked_sorted :
  StronglySorted (fun a b => PrimFloat.leb (score b) (score a) = true)
    (sort (fun a b => PrimFloat.ltb 0 (score b - score a)) items).
Proof.
  apply (QueryFacts.sorted_weaken (descending (fun x => Number.key (score x)))).
  - intros x y Hx Hy Hdesc. apply sort_In in Hx, Hy.
    rewrite NumberFacts.leb_key by auto. now apply Z.leb_le.
  - apply sort_descending. intros x y Hx Hy.
    apply NumberFacts.sub_positive_key; auto.
Qed.

Lemma ranked_first (k : nat) :
  StronglySorted (fun a b => PrimFloat.leb (score b) (score a) = true)
    (firstn k (sort (fun a b => PrimFloat.ltb 0 (score b - score a)) items)) /\
  (forall x y,
     In x (firstn k (sort (fun a b => PrimFloat.ltb 0 (score b - score a)) items)) ->
     In y (skipn k (sort (fun a b => PrimFloat.ltb 0 (score b - score a)) items)) ->
     PrimFloat.leb (score y) (score x) = true).
Proof.
  split; [apply firstn_sorted, ranked_sorted|].
  intros x y. apply (firstn_dominates _ _ ranked_sorted k).
Qed.

End Ranked.

Lemma hits_all (documents : list Document) (vectors : list (list float)) (q : list float)
    (vs : list (list float)) :
  forall i,
    (forall j, j < List.length vs -> nth (i + j) vectors [] = nth j vs []) ->
    hits (Some q) documents i vs = Ok (map (hit_at documents vectors q) (seq i (List.length vs))).
Proof.
  induction vs as [|v vs IH]; intros i Hnth; [reflexivity|].
  cbn [hits List.length seq map]. rewrite IH.
  - unfold hit_at at 2. specialize (Hnth 0 (Nat.lt_0_succ _)).
    rewrite Nat.add_0_r in Hnth. now rewrite Hnth.
  - intros j Hj. specialize (Hnth (S j) (proj1 (Nat.succ_lt_mono _ _) Hj)).
    now rewrite Nat.add_succ_r in Hnth.
Qed.

(** X25. [semanticSearch] sends the query alone to the embedding service
    and, when no similarity is NaN and [topK] is not negative, returns
    the [min(topK, n)] best of the [n] vectors: distinct indices, each
    with its similarity and the document at that index, in descending
    order of similarity, and none of the vectors left out ranks above a
    returned one. *)
Theorem semanticSearch_top_k (h : Host) (w : World) (query : string) (topK : Z)
    (documents : list Document) (vectors : list (list float))
    (response : EmbedResponse) (q : list float) (more : list EmbeddingItem) :
  getClient h = true ->
  embedText h w [query] = Ok response ->
  embed_results response = Some ({| embedding := q |} :: more) ->
  (0 <= topK)%Z ->
  (forall v, In v vectors -> Number.isNaN (cosineSimilarity q v) = false) ->
  exists order : list nat,
    semanticSearch h query vectors documents topK w
    = (Returns (map (hit_at documents vectors q) order), embed_requested [query] w) /\
    List.length order = Nat.min (Z.to_nat topK) (List.length vectors) /\
    NoDup order /\
    (forall i, In i order -> i < List.length vectors) /\
    StronglySorted ranks_above (map (hit_at documents vectors q) order) /\
    (forall i j,
       In i order -> j < List.length vectors -> ~ In j order ->
       ranks_above (hit_at documents vectors q i) (hit_at documents vectors q j)).
Proof.
  intros Hclient Hservice Hresponse HtopK HnoNaN.
  set (all := seq 0 (List.length vectors)).
  set (after := fun i j => by_similarity (hit_at documents vectors q i)
                                         (hit_at documents vectors q j)).
  set (k := Z.to_nat topK).
  exists (firstn k (sort after all)).
  assert (Hscore : forall i, In i all ->
            Number.isNaN (similarity (hit_at documents vectors q i)) = false).
  { intros i Hi. apply in_seq in Hi. cbn [similarity hit_at]. apply HnoNaN, nth_In. lia. }
  destruct (ranked_first (fun i => similarity (hit_at documents vectors q i)) all Hscore k)
    as [Hsorted Hdominates].
  fold after in Hsorted, Hdominates.
  assert (Hperm : Permutation (sort after all) all) by apply sort_permutation.
  assert (Hin : forall i, In i (firstn k (sort after all)) -> i < List.length vectors).
  { intros i Hi. assert (Hi' : In i all).
    { apply (Permutation_in _ Hperm).
      rewrite <- (firstn_skipn k (sort after all)). apply in_or_app. now left. }
    apply in_seq in Hi'. lia. }
  split; [|split; [|split; [|split; [|split]]]].
  - unfold semanticSearch. rewrite bind_run. unfold generateEmbeddings. rewrite Hclient.
    rewrite bind_run. unfold run, request_embedText at 1. cbn [fst snd]. rewrite Hservice.
    cbn [native ret Sequencing_A]. rewrite Hresponse. cbn [map hd_error embedding].
    rewrite bind_run. unfold lift at 1.
    rewrite (hits_all documents vectors q vectors 0) by reflexivity.
    cbn [native ret Sequencing_A]. fold all.
    rewrite slice_prefix by assumption. fold k.
    now rewrite (sort_map (hit_at documents vectors q) by_similarity all), firstn_map.
  - rewrite length_firstn, (Permutation_length Hperm). unfold all. now rewrite length_seq.
  - apply (NoDup_app_remove_r _ (skipn k (sort after all))). rewrite firstn_skipn.
    apply (Permutation_NoDup (l := all)); [now symmetry | apply seq_NoDup].
  - exact Hin.
  - apply map_sorted. exact Hsorted.
  - intros i j Hi Hj Hnot. apply Hdominates; [exact Hi|].
    assert (Hj' : In j (sort after all)).
    { apply (Permutation_in _ (Permutation_sym Hperm)). apply in_seq. lia. }
    rewrite <- (firstn_skipn k (sort after all)) in Hj'.
    apply in_app_or in Hj'. now destruct Hj'.
Qed.

Lemma semanticSearch_top_k_witness :
  exists order : list nat,
    semanticSearch (answering [1; 0]%float) "q" two_vectors two_samples 1 no_index_yet
    = (Returns (map (hit_at two_samples two_vectors [1; 0]%float) order),
       embed_requested ["q"] no_index_yet) /\
    List.length order = Nat.min (Z.to_nat 1) (List.length two_vectors) /\
    NoDup order /\
    (forall i, In i order -> i < List.length two_vectors) /\
    StronglySorted ranks_above (map (hit_at two_samples two_vectors [1; 0]%float) order) /\
    (forall i j,
       In i order -> j < List.length two_vectors -> ~ In j order ->
       ranks_above (hit_at two_samples two_vectors [1; 0]%float i)
                   (hit_at two_samples two_vectors [1; 0]%float j)).
Proof.
  refine (semanticSearch_top_k (answering [1; 0]%float) no_index_yet "q" 1
            two_samples two_vectors (each [1; 0]%float ["q"]) [1; 0]%float []
            eq_refl eq_refl eq_refl _ _).
  - lia.
  - intros v [<- | [<- | []]]; reflexivity.
Defined.

(** *** Samples *)

Lemma read_samples_exact (h : Host) (entries : list (string * option string))
    (txtFiles : list string) :
  documents_dir h = Some entries ->
  forall (documents : list Document) (w : World),
    read_samples h txtFiles documents w
    = (Returns (documents ++ samples_of (readable entries txtFiles))%list, w).
Proof.
  intros Hdir. induction txtFiles as [|file rest IH]; intros documents w.
  - cbn. now rewrite app_nil_r.
  - cbn [read_samples]. rewrite bind_run. unfold try_catch at 1. rewrite bind_run.
    unfold run, readFile_document. rewrite Hdir.
    unfold readable. cbn [flat_map]. fold (readable entries rest).
    destruct (find_file file entries) as [text|]; cbn [fst snd native ret Sequencing_A Sequencing_M throw].
    + rewrite IH. unfold samples_of. cbn [app map fst snd]. now rewrite <- app_assoc.
    + cbn [app]. apply IH.
Qed.

Lemma readSampleDocuments_run (h : Host) (count : Z) (w : World)
    (entries : list (string * option string)) :
  documents_dir h = Some entries ->
  readSampleDocuments h count w
  = (Returns (samples_of
                (readable entries
                   (slice 0 count
                      (filter (fun f => Str.endsWith f ".txt") (map fst entries))))), w).
Proof.
  intros Hdir. unfold readSampleDocuments. rewrite bind_run.
  unfold run, readdir_documents. rewrite Hdir. cbn [fst snd native ret Sequencing_M].
  now rewrite (read_samples_exact h entries).
Qed.

(** X26. [readSampleDocuments] returns, for a directory that can be
    listed, one sample per readable file among the first [count] [.txt]
    files, in order, with the first 5000 code units of the file;
    unreadable files are skipped silently. When the directory cannot be
    listed the error is thrown. Every sample returned is a [.txt] file
    with at most 5000 code units, and for a non-negative [count] there
    are at most [count] of them. *)
Theorem readSampleDocuments_exact (h : Host) (count : Z) (w : World) :
  (forall entries,
     documents_dir h = Some entries ->
     readSampleDocuments h count w
     = (Returns (samples_of
                   (readable entries
                      (slice 0 count
                         (filter (fun f => Str.endsWith f ".txt") (map fst entries))))), w)) /\
  (documents_dir h = None ->
   exists e, readSampleDocuments h count w = (Throws (Native e), w)) /\
  (forall documents w',
     readSampleDocuments h count w = (Returns documents, w') ->
     Forall (fun d => Str.endsWith (filename d) ".txt" = true /\
                      String.length (content d) <= 5000) documents /\
     ((0 <= count)%Z -> List.length documents <= Z.to_nat count)).
Proof.
  split; [intros entries; apply readSampleDocuments_run|]. split.
  - intros Hdir. unfold readSampleDocuments. rewrite bind_run.
    unfold run, readdir_documents. rewrite Hdir. unfold throw. cbn. eauto.
  - intros documents w' Hrun.
    destruct (documents_dir h) as [entries|] eqn:Hdir.
    + rewrite (readSampleDocuments_run h count w entries Hdir) in Hrun. injection Hrun as <- <-. split.
      * apply Forall_forall. intros d Hd. unfold samples_of in Hd.
        apply in_map_iff in Hd. destruct Hd as ([file text] & <- & Hin).
        cbn [filename content fst snd]. split; [|apply substring_length].
        unfold readable in Hin. apply in_flat_map in Hin. destruct Hin as (f & Hf & Hin).
        destruct (find_file f entries); [|contradiction].
        destruct Hin as [[= <- <-]|[]]. apply slice_In, filter_In in Hf. apply Hf.
      * intros Hcount. unfold samples_of. rewrite length_map.
        pose proof (BuildFacts.txtFiles_of_length entries count Hcount) as H1.
        unfold txtFiles_of in H1.
        pose proof (readable_length entries
                      (slice 0 count
                         (filter (fun f => Str.endsWith f ".txt") (map fst entries)))) as H2.
        lia.
    + revert Hrun. unfold readSampleDocuments. rewrite bind_run.
      unfold run, readdir_documents. rewrite Hdir. unfold throw. cbn. discriminate.
Qed.

(** *** The commands *)

Lemma put_run (line : string) (w : World) : put line w = (Returns tt, printed line w).
Proof. reflexivity. Qed.

Lemma put_hits_world (h : Host) (results : list Hit) :
  forall (i : nat) (w : World),
  exists r w',
    for_each (put_hit h) i results w = (r, w') /\
    index_file w' = index_file w /\
    embed_requests w' = embed_requests w /\
    generate_requests w' = generate_requests w.
Proof.
  induction results as [|x results IH]; intros i w.
  - exists (Returns tt), w. repeat split.
  - cbn [for_each]. rewrite bind_run. unfold put_hit at 1.
    destruct (document x) as [d|].
    + rewrite bind_run, put_run, put_run.
      match goal with
      | |- context [for_each (put_hit h) (S i) results ?w0] =>
          destruct (IH (S i) w0) as (r & w' & -> & H)
      end.
      exists r, w'. split; [reflexivity | exact H].
    + cbn. do 2 eexists. repeat split.
Qed.

Lemma generateEmbeddings_request (h : Host) (texts : list string) (w : World) :
  getClient h = true ->
  exists r,
    DocumentAnalyzer.generateEmbeddings h texts w = (r, embed_requested texts w) /\
    (forall response, embedText h w texts = Ok response -> exists vectors, r = Returns vectors).
Proof.
  intros Hclient. unfold DocumentAnalyzer.generateEmbeddings. rewrite Hclient, bind_run.
  unfold run, request_embedText. cbn [fst snd].
  destruct (embedText h w texts) as [response|e]; cbn [native ret Sequencing_A].
  - eexists. split; [reflexivity|]. eauto.
  - eexists. split; [reflexivity|]. intros response [=].
Qed.

(** X27. The [search] command of the analyzer embeds the samples again on
    every run: when the service answers, it sends exactly two embedding
    requests, first the first 500 code units of each of at most 20
    samples, then the query alone; it sends nothing to the
    text-generation endpoint and never touches the index file. *)
Theorem analyzer_search_embeds_the_samples (h : Host) (query : string) (w : World)
    (entries : list (string * option string)) :
  documents_dir h = Some entries ->
  getClient h = true ->
  (forall w0 texts, exists response, embedText h w0 texts = Ok response) ->
  exists r w' texts,
    main_search h query w = (r, w') /\
    embed_requests w' = List.app (embed_requests w) [texts; [query]] /\
    texts = texts_of (samples_of (readable entries
                        (slice 0 20 (filter (fun f => Str.endsWith f ".txt") (map fst entries))))) /\
    List.length texts <= 20 /\
    Forall within_budget texts /\
    generate_requests w' = generate_requests w /\
    index_file w' = index_file w.
Proof.
  intros Hdir Hclient Hservice. unfold main_search.
  do 2 rewrite bind_run, put_run.
  rewrite bind_run, (readSampleDocuments_run h 20 _ entries Hdir).
  set (docs := samples_of _).
  do 2 rewrite bind_run, put_run. rewrite bind_run.
  match goal with
  | |- context [DocumentAnalyzer.generateEmbeddings h (texts_of docs) ?w0] =>
      destruct (generateEmbeddings_request h (texts_of docs) w0 Hclient) as (r1 & -> & Hr1);
      destruct (Hservice w0 (texts_of docs)) as [response1 Hresponse1];
      destruct (Hr1 response1 Hresponse1) as [embeddings ->]
  end.
  rewrite bind_run, put_run, bind_run. unfold semanticSearch. rewrite bind_run.
  match goal with
  | |- context [DocumentAnalyzer.generateEmbeddings h [query] ?w0] =>
      destruct (generateEmbeddings_request h [query] w0 Hclient) as (r2 & -> & Hr2);
      destruct (Hservice w0 [query]) as [response2 Hresponse2];
      destruct (Hr2 response2 Hresponse2) as [vectors ->]
  end.
  assert (Hshape : List.length (texts_of docs) <= 20 /\ Forall within_budget (texts_of docs)).
  { split.
    - unfold texts_of, docs, samples_of. rewrite !length_map.
      etransitivity; [apply readable_length|].
      rewrite slice_prefix by lia. apply firstn_le_length.
    - apply Forall_forall. intros t Ht. unfold texts_of in Ht.
      apply in_map_iff in Ht. destruct Ht as (d & <- & _). apply substring0_within_budget. }
  rewrite bind_run. unfold lift at 1.
  destruct (hits (hd_error vectors) docs 0 embeddings) as [similarities|e];
    cbn [native ret Sequencing_A].
  - rewrite bind_run, put_run.
    match goal with
    | |- context [for_each (put_hit h) 0 ?results ?w0] =>
        destruct (put_hits_world h results 0 w0) as (r & w' & -> & Hf & He & Hg)
    end.
    exists r, w', (texts_of docs). split; [reflexivity|].
    cbn [index_file embed_requests generate_requests printed embed_requested] in Hf, He, Hg.
    rewrite He, Hg, Hf, <- app_assoc. repeat split; try apply Hshape.
  - do 2 eexists. exists (texts_of docs). split; [reflexivity|].
    cbn [index_file embed_requests generate_requests printed embed_requested].
    rewrite <- app_assoc. repeat split; try apply Hshape.
Qed.

Lemma analyzer_search_embeds_the_samples_witness :
  exists r w' texts,
    main_search one_file "q" no_index_yet = (r, w') /\
    embed_requests w' = List.app (embed_requests no_index_yet) [texts; ["q"]] /\
    texts = texts_of (samples_of (readable [("a.txt", Some "alpha")]
                        (slice 0 20 (filter (fun f => Str.endsWith f ".txt")
                                       (map fst [("a.txt", Some "alpha")]))))) /\
    List.length texts <= 20 /\
    Forall within_budget texts /\
    generate_requests w' = generate_requests no_index_yet /\
    index_file w' = index_file no_index_yet.
Proof.
  refine (analyzer_search_embeds_the_samples one_file "q" no_index_yet
            [("a.txt", Some "alpha")] eq_refl eq_refl _).
  intros w0 texts. eexists. reflexivity.
Defined.

Lemma untouched_refl (w : World) : untouched w w.
Proof. unfold untouched. auto. Qed.

Lemma untouched_asked (w w' : World) : untouched w w' -> asked w w'.
Proof. intros (? & ? & ?). unfold asked. auto. Qed.

Lemma asked_after (w1 w2 w3 : World) : untouched w1 w2 -> asked w2 w3 -> asked w1 w3.
Proof.
  intros (Hf & He & Hg) (Hf' & He' & Hg'). unfold asked.
  rewrite <- Hf, <- He, <- Hg. auto.
Qed.

Lemma asked_before (w1 w2 w3 : World) : asked w1 w2 -> untouched w2 w3 -> asked w1 w3.
Proof.
  intros (Hf & He & Hg) (Hf' & He' & Hg'). unfold asked.
  rewrite Hf', He', Hg'. auto.
Qed.

Lemma put_block_run (title text : string) (w : World) :
  exists w', put_block title text w = (Returns tt, w') /\ untouched w w'.
Proof.
  unfold put_block. do 3 rewrite bind_run, put_run. rewrite put_run.
  eexists. split; [reflexivity|]. repeat split.
Qed.

(** What one of the three functions does: it asks at most once, and a
    thrown value that is not an Error object is a rejection of the
    service. *)
Lemma prompt_run (h : Host) (prompt : string) (w : World) :
  exists r w',
    (if getClient h
     then response <- run (request_generateText h prompt) ;; ret (generated response)
     else throw_Error "watsonx client not initialized") w = (r, w') /\
    asked w w' /\
    (forall v, r = Throws (Native (Other v)) -> rejected_with h v).
Proof.
  destruct (getClient h).
  - rewrite bind_run. unfold run, request_generateText. cbn [fst snd].
    destruct (generateText h w prompt) as [response|e] eqn:Hservice;
      cbn [native ret Sequencing_A];
      do 2 eexists; (split; [reflexivity|]); split.
    + split; [reflexivity|]. split; [reflexivity|]. right. now exists prompt.
    + intros v [=].
    + split; [reflexivity|]. split; [reflexivity|]. right. now exists prompt.
    + intros v [= ->]. now exists w, prompt.
  - do 2 eexists. split; [reflexivity|].
    split; [apply untouched_asked, untouched_refl | intros v [=]].
Qed.

(** The file system throws Error objects. *)
Lemma readFile_document_object (h : Host) (name : string) (w w' : World) (v : value) :
  readFile_document h name w <> (Throw (Other v), w').
Proof.
  unfold readFile_document, throw.
  destruct (documents_dir h) as [entries|]; [destruct (find_file name entries)|];
    cbn; discriminate.
Qed.

Lemma reporting_run (h : Host) (body : A unit) (w : World) :
  reporting h body w
  = match body w with
    | (Returns _, w') => (Returns [], w')
    | (Throws t, w') =>
        match message_of t with
        | Ok m => (Returns ["   Error: " ++ to_string (ToString h) m], w')
        | Throw e => (Throws (Native e), w')
        end
    end.
Proof.
  unfold reporting, try_catch. rewrite bind_run.
  destruct (body w) as [[u|t] w']; [reflexivity|].
  rewrite bind_run. unfold lift, native.
  now destruct (message_of t).
Qed.

Ltac command_body h file Hask :=
  let w := fresh "w" in
  let text := fresh "text" in
  let e := fresh "e" in
  let Hread := fresh "Hread" in
  let r := fresh "r" in
  let w1 := fresh "w1" in
  let w2 := fresh "w2" in
  let H1 := fresh "H1" in
  let H2 := fresh "H2" in
  let Hv := fresh "Hv" in
  let answer := fresh "answer" in
  intros w; rewrite bind_run; unfold run at 1;
  destruct (readFile_document_run h file w) as [[text|e] Hread]; rewrite Hread;
  cbn [fst snd native];
  [ repeat (rewrite bind_run, put_run);
    rewrite bind_run;
    match goal with
    | |- context [match ?ask ?w0 with _ => _ end] =>
        destruct (Hask text w0) as (r & w1 & -> & H1 & Hv)
    end;
    destruct r as [answer|?];
    [ match goal with
      | |- context [put_block ?title answer w1] =>
          destruct (put_block_run title answer w1) as (w2 & -> & H2)
      end;
      do 2 eexists; split; [reflexivity|];
      split; [exact (asked_before _ _ _ H1 H2)|];
      split; [intros ? [=] | intros ? [=]]
    | do 2 eexists; split; [reflexivity|]; split; [exact H1|];
      split; [intros ? [=] | intros ? [= ->]; exact (Hv _ eq_refl)] ]
  | do 2 eexists; split; [reflexivity|];
    split; [apply untouched_asked, untouched_refl|];
    split;
    [ intros ? [= <-]; split; [reflexivity | apply untouched_refl]
    | intros ? [= ->]; now apply readFile_document_object in Hread ] ].

Lemma summarize_body (h : Host) (file : string) :
  reads_then_asks h file
    (text <- run (readFile_document h file) ;;
     put ("   Document length: " ++ Str.of_nat (String.length text) ++ " characters") ;;
     put (Str.nl ++ "   Generating summary with watsonx..." ++ Str.nl) ;;
     summary <- summarizeDocument h text 200 ;;
     put_block "   Summary:" summary).
Proof.
  assert (Hask : forall text w0, exists r w',
            summarizeDocument h text 200 w0 = (r, w') /\ asked w0 w' /\
            (forall v, r = Throws (Native (Other v)) -> rejected_with h v))
    by (intros text w0; apply prompt_run).
  command_body h file Hask.
Qed.

Lemma analyze_body (h : Host) (file : string) :
  reads_then_asks h file
    (text <- run (readFile_document h file) ;;
     put ("   Document length: " ++ Str.of_nat (String.length text) ++ " characters") ;;
     put (Str.nl ++ "   Analyzing with watsonx..." ++ Str.nl) ;;
     analysis <- analyzeDocument h text ;;
     put_block "   Analysis:" analysis).
Proof.
  assert (Hask : forall text w0, exists r w',
            analyzeDocument h text w0 = (r, w') /\ asked w0 w' /\
            (forall v, r = Throws (Native (Other v)) -> rejected_with h v))
    by (intros text w0; apply prompt_run).
  command_body h file Hask.
Qed.

Lemma question_body (h : Host) (file question : string) :
  reads_then_asks h file
    (text <- run (readFile_document h file) ;;
     put (Str.nl ++ "   Answering with watsonx..." ++ Str.nl) ;;
     answer <- questionDocument h text question ;;
     put_block "   Answer:" answer).
Proof.
  assert (Hask : forall text w0, exists r w',
            questionDocument h text question w0 = (r, w') /\ asked w0 w' /\
            (forall v, r = Throws (Native (Other v)) -> rejected_with h v))
    by (intros text w0; apply prompt_run).
  command_body h file Hask.
Qed.

(** Reading [message] throws on [null] and [undefined] only. *)
Lemma message_of_throws (t : thrown) (e : error) :
  message_of t = Throw e ->
  exists v,
    t = Native (Other v) /\ is_nullish v = true /\
    e = TypeError ("Cannot read properties of " ++ nullish_name v ++ " (reading 'message')").
Proof.
  destruct t as [m|[o|v]]; cbn; try discriminate.
  destruct v; cbn; try discriminate; intros [= <-]; eexists; repeat split.
Qed.

Lemma reporting_reports (h : Host) (file : string) (body : A unit) (w w0 : World) :
  reads_then_asks h file body ->
  untouched w w0 ->
  (forall e, readFile_document h file w = (Throw e, w) ->
             readFile_document h file w0 = (Throw e, w0)) ->
  exists r w',
    reporting h body w0 = (r, w') /\
    asked w w' /\
    match r with
    | Returns errors => List.length errors <= 1
    | Throws t =>
        exists v,
          rejected_with h v /\ is_nullish v = true /\
          t = Native (TypeError ("Cannot read properties of " ++ nullish_name v
                                   ++ " (reading 'message')"))
    end /\
    (forall e : error_object,
       readFile_document h file w = (Throw e, w) ->
       r = Returns ["   Error: " ++ message e] /\ untouched w w').
Proof.
  intros Hbody Hw0 Hread.
  destruct (Hbody w0) as (r0 & w' & Hrun0 & Hasked & Hfail & Hother).
  assert (Hquiet : forall e : error_object,
            readFile_document h file w = (Throw e, w) ->
            r0 = Throws (Native e) /\ untouched w w').
  { intros e He. destruct (Hfail e (Hread e He)) as [Hthrows Hquiet].
    split; [exact Hthrows|].
    destruct Hw0 as (? & ? & ?), Hquiet as (? & ? & ?). unfold untouched.
    repeat split; congruence. }
  rewrite reporting_run, Hrun0.
  destruct r0 as [u|t].
  - do 2 eexists. split; [reflexivity|]. split; [exact (asked_after _ _ _ Hw0 Hasked)|].
    split; [cbn; lia|]. intros e He. now destruct (Hquiet e He).
  - destruct (message_of t) as [m|e'] eqn:Hmessage.
    + do 2 eexists. split; [reflexivity|]. split; [exact (asked_after _ _ _ Hw0 Hasked)|].
      split; [cbn; lia|]. intros e He. destruct (Hquiet e He) as [[= ->] Hsame].
      split; [|exact Hsame]. cbn in Hmessage. now injection Hmessage as <-.
    + destruct (message_of_throws t e' Hmessage) as (v & -> & Hv & ->).
      do 2 eexists. split; [reflexivity|]. split; [exact (asked_after _ _ _ Hw0 Hasked)|].
      split.
      * exists v. split; [now apply Hother|]. now split.
      * intros e He. now destruct (Hquiet e He).
Qed.

Lemma readFile_document_anywhere (h : Host) (file : string) (w w0 : World) (e : error) :
  readFile_document h file w = (Throw e, w) -> readFile_document h file w0 = (Throw e, w0).
Proof.
  unfold readFile_document.
  destruct (documents_dir h) as [entries|]; [destruct (find_file file entries)|];
    unfold throw; cbn; congruence.
Qed.

(** X28. The [summarize], [analyze] and [question] commands report their
    errors instead of failing, with one exception. Each sends at most one
    request to the text-generation endpoint and none to the embedding
    endpoint, and returns with at most one line for the error stream,
    unless the service rejected the request with [null] or [undefined]:
    then reading [err.message] in the [catch] block throws, and that
    [TypeError] leaves the command. When the file cannot be read the
    command returns, the line is the message of the file system, and
    nothing was sent. *)
Theorem analyzer_commands_report_errors (h : Host) (arg : option string)
    (file question : string) :
  reports h (filename_or_default arg) (main_summarize h arg) /\
  reports h (filename_or_default arg) (main_analyze h arg) /\
  reports h file (main_question h file question).
Proof.
  split; [|split]; intros w.
  - unfold main_summarize. rewrite bind_run, put_run.
    apply (reporting_reports h _ _ w); [apply summarize_body | repeat split |].
    intros e. apply readFile_document_anywhere.
  - unfold main_analyze. rewrite bind_run, put_run.
    apply (reporting_reports h _ _ w); [apply analyze_body | repeat split |].
    intros e. apply readFile_document_anywhere.
  - unfold main_question. do 2 rewrite bind_run, put_run.
    apply (reporting_reports h _ _ w); [apply question_body | repeat split |].
    intros e. apply readFile_document_anywhere.
Qed.

(** The exception happens: over a service that rejects with [null], the
    [summarize] command throws. *)
Example summarize_null_rejection :
  fst (main_summarize rejecting_null (Some "a.txt") no_index_yet)
  = Throws (Native (TypeError "Cannot read properties of null (reading 'message')")).
Proof. reflexivity. Qed.

(** *** [main] *)

Lemma put_all_world (lines : list string) (w : World) :
  exists w',
    put_all lines w = (Returns tt, w') /\
    untouched w w' /\
    console w' = List.app (console w) lines.
Proof.
  revert w. induction lines as [|line lines IH]; intros w.
  - exists w. split; [reflexivity|]. split; [apply untouched_refl|].
    now rewrite app_nil_r.
  - cbn [put_all]. rewrite bind_run, put_run.
    destruct (IH (printed line w)) as (w' & -> & Hquiet & Hc).
    exists w'. split; [reflexivity|]. split; [exact Hquiet|].
    rewrite Hc. cbn [console printed]. now rewrite <- app_assoc.
Qed.

(** X29. The [main] of the analyzer does no work without configuration
    or a usable command. Without an API key or a space id it prints the
    banner and exits with status 1. When configured, [question] without a
    file name or a question and [search] without a query print their
    usage line and exit with status 1, and an unknown command prints the
    usage text and returns; in each case the index file is as it was and
    nothing is sent to the service. The
    [catalog] command is not guarded: when the catalog file cannot be read
    the error escapes [main]. *)
Theorem analyzer_main_without_work (h : Host) (catalog : option text) (w : World) :
  (WATSONX_API_KEY h = "" \/ WATSONX_SPACE_ID h = "" ->
   forall command arg question,
   exists w',
     main h catalog command arg question w
     = (Returns {| exit_code := Some 1%Z;
                   stderr := ["Error: WATSONX_API_KEY and WATSONX_SPACE_ID must be set"] |},
        w') /\
     untouched w w' /\
     console w' = List.app (console w) banner) /\
  (WATSONX_API_KEY h <> "" /\ WATSONX_SPACE_ID h <> "" ->
   (forall arg question,
      absent arg \/ absent question ->
      exists w',
        main h catalog (Some "question") arg question w = (Returns (exited 1), w') /\
        untouched w w' /\
        console w'
        = List.app (console w)
            (List.app banner
               ["Usage: document-analyzer.js question <filename> '<question>'"])) /\
   (forall arg question,
      absent arg ->
      exists w',
        main h catalog (Some "search") arg question w = (Returns (exited 1), w') /\
        untouched w w' /\
        console w'
        = List.app (console w)
            (List.app banner ["Usage: document-analyzer.js search '<query>'"])) /\
   (forall command arg question,
      (forall c, command = Some c ->
                 ~ In c ["catalog"; "summarize"; "analyze"; "question"; "embed"; "search"]) ->
      exists w',
        main h catalog command arg question w = (Returns (returned []), w') /\
        untouched w w' /\
        console w' = List.app (console w) (List.app banner usage)) /\
   (forall arg question,
      exists e w',
        main h None (Some "catalog") arg question w = (Throws (Native e), w') /\
        untouched w w')).
Proof.
  destruct (put_all_world banner w) as (w1 & Hbanner & Hquiet & Hc).
  split.
  - intros Hunset command arg question. exists w1.
    unfold main. rewrite bind_run, Hbanner.
    assert (Hguard : (String.eqb (WATSONX_API_KEY h) "" || String.eqb (WATSONX_SPACE_ID h) "")
                     = true)
      by (destruct Hunset as [-> | ->]; [reflexivity | apply orb_true_r]).
    rewrite Hguard. auto.
  - intros [Hkey Hspace]. apply String.eqb_neq in Hkey, Hspace.
    assert (Hline : forall line,
              untouched w (printed line w1) /\
              console (printed line w1) = List.app (console w) (List.app banner [line])).
    { intros line. split; [exact Hquiet|].
      cbn [console printed]. now rewrite Hc, <- app_assoc. }
    split; [|split; [|split]].
    + intros arg question Habsent. eexists.
      unfold main. rewrite bind_run, Hbanner, Hkey, Hspace. cbn [orb is_command String.eqb Ascii.eqb Bool.eqb andb].
      split; [|apply Hline].
      destruct Habsent as [[-> | ->] | [-> | ->]]; try reflexivity;
        destruct arg as [[|c name]|]; reflexivity.
    + intros arg question Habsent. eexists.
      unfold main. rewrite bind_run, Hbanner, Hkey, Hspace. cbn [orb is_command String.eqb Ascii.eqb Bool.eqb andb].
      split; [|apply Hline].
      destruct Habsent as [-> | ->]; reflexivity.
    + intros command arg question Hother.
      destruct (put_all_world usage w1) as (w2 & Hrun & Hquiet2 & Hc2).
      exists w2.
      assert (Hnot : forall name,
                In name ["catalog"; "summarize"; "analyze"; "question"; "embed"; "search"] ->
                is_command command name = false).
      { intros name Hname. destruct command as [c|]; [|reflexivity].
        apply String.eqb_neq. intros ->. exact (Hother name eq_refl Hname). }
      unfold main. rewrite bind_run, Hbanner, Hkey, Hspace.
      cbn [orb]. rewrite !Hnot by (cbn; tauto). rewrite bind_run, Hrun.
      split; [reflexivity|]. split.
      * destruct Hquiet as (? & ? & ?), Hquiet2 as (? & ? & ?).
        unfold untouched. repeat split; congruence.
      * now rewrite Hc2, Hc, <- app_assoc.
    + intros arg question. do 2 eexists.
      unfold main. rewrite bind_run, Hbanner, Hkey, Hspace.
      cbn [orb is_command String.eqb Ascii.eqb Bool.eqb andb].
      rewrite bind_run. unfold main_catalog. rewrite bind_run, put_run.
      rewrite bind_run. unfold loadDocumentCatalog, lift, native.
      split; [reflexivity | exact Hquiet].
Qed.

End AnalyzerFacts.
